(** * Chapter extraction from a PDF: a model of
      [knowledge/micropython/step2-convert_pdf_to_chapters.py]

    The script reads the table of contents of a PDF, estimates the shift
    between printed and physical page numbers, locates every chapter
    heading, sorts the chapters by physical page, derives page ranges and
    writes one PDF per chapter (or, with [--show], only reports the ranges).

    The document is seen through its collaborators only: [pdfplumber] gives
    the text of every page ([None] or the empty string when a page has no
    text) and [PyPDF2] gives the page count and copies pages.  A document is
    therefore a list of optional page texts; Python integers are [Z];
    Python [str] is [string], whose 8-bit characters are read as the code
    points U+0000..U+00FF. *)

From Stdlib Require Import ZArith List String Ascii Bool Lia.
From Stdlib Require Import Sorting.Sorted Sorting.Permutation.
Import ListNotations.

Open Scope string_scope.
Open Scope list_scope.
Open Scope Z_scope.

(** ** Python [str] operations used by the script *)

Module PyStr.

Definition code (c : ascii) : nat := nat_of_ascii c.

Definition between (lo hi : nat) (c : ascii) : bool :=
  (Nat.leb lo (code c) && Nat.leb (code c) hi)%bool.

(** [str.isspace] on one character: TAB..CR, FS..US, space, NEL, NBSP. *)
Definition is_space (c : ascii) : bool :=
  (between 9 13 c || between 28 32 c
   || Nat.eqb (code c) 133 || Nat.eqb (code c) 160)%bool.

(** A decimal digit, as [\d] and [int] see it below U+0100. *)
Definition is_digit (c : ascii) : bool := between 48 57 c.

Definition newline : ascii := ascii_of_nat 10.
Definition tab : ascii := ascii_of_nat 9.
Definition dot : ascii := "."%char.

Definition is_dot (c : ascii) : bool := Ascii.eqb c dot.
Definition not_newline (c : ascii) : bool := negb (Ascii.eqb c newline).

(** [str.lower] on one character. *)
Definition lower_char (c : ascii) : ascii :=
  if (between 65 90 c
      || (between 192 222 c && negb (Nat.eqb (code c) 215)))%bool
  then ascii_of_nat (code c + 32) else c.

Fixpoint lower (s : string) : string :=
  match s with
  | EmptyString => EmptyString
  | String c s' => String (lower_char c) (lower s')
  end.

(** [s.split(sep)] for a one-character separator: never an empty list. *)
Fixpoint split_on (sep : ascii) (s : string) : list string :=
  match s with
  | EmptyString => [EmptyString]
  | String c s' =>
      if Ascii.eqb c sep then EmptyString :: split_on sep s'
      else match split_on sep s' with
           | l :: ls => String c l :: ls
           | [] => [String c EmptyString]
           end
  end.

Definition cons_word (w : string) (ws : list string) : list string :=
  match w with EmptyString => ws | _ => w :: ws end.

Fixpoint split_go (s : string) : string * list string :=
  match s with
  | EmptyString => (EmptyString, [])
  | String c s' =>
      let (w, ws) := split_go s' in
      if is_space c then (EmptyString, cons_word w ws) else (String c w, ws)
  end.

(** [s.split()]: maximal runs of non-space characters. *)
Definition split (s : string) : list string :=
  let (w, ws) := split_go s in cons_word w ws.

(** [' '.join(ws)]. *)
Definition join_space (ws : list string) : string := String.concat " " ws.

Fixpoint lstrip (s : string) : string :=
  match s with
  | EmptyString => EmptyString
  | String c s' => if is_space c then lstrip s' else s
  end.

Fixpoint rstrip (s : string) : string :=
  match s with
  | EmptyString => EmptyString
  | String c s' =>
      match rstrip s' with
      | EmptyString => if is_space c then EmptyString else String c EmptyString
      | r => String c r
      end
  end.

(** [s.strip()]. *)
Definition strip (s : string) : string := rstrip (lstrip s).

(** [s.startswith(p)]. *)
Definition startswith (s p : string) : bool := String.prefix p s.

(** [needle in hay]. *)
Fixpoint contains (needle hay : string) : bool :=
  (String.prefix needle hay
   || match hay with
      | EmptyString => false
      | String _ hay' => contains needle hay'
      end)%bool.

(** [s[:n]]. *)
Definition take (n : nat) (s : string) : string := String.substring 0 n s.

(** [s.count(c)] for a one-character [c]. *)
Fixpoint count (c : ascii) (s : string) : Z :=
  match s with
  | EmptyString => 0
  | String d s' => (if Ascii.eqb d c then 1 else 0) + count c s'
  end.

(** [s.replace(a, b)] for one-character [a] and [b]. *)
Fixpoint replace (a b : ascii) (s : string) : string :=
  match s with
  | EmptyString => EmptyString
  | String c s' => String (if Ascii.eqb c a then b else c) (replace a b s')
  end.

(** The value [int(s)] has for a string of decimal digits.  Whether the
    call returns it depends on the length of the string as well: see
    [int_checked] below. *)
Definition digit_value (c : ascii) : Z := Z.of_nat (code c) - 48.

Fixpoint int_acc (acc : Z) (s : string) : Z :=
  match s with
  | EmptyString => acc
  | String c s' => int_acc (10 * acc + digit_value c) s'
  end.

Definition int (s : string) : Z := int_acc 0 s.

(** [bool(text)] for the result of [extract_text]: [None] and [''] are
    falsy. *)
Definition truthy (text : option string) : option string :=
  match text with
  | Some EmptyString => None
  | t => t
  end.

End PyStr.

(** ** The fragment of [re] the two TOC patterns use

    A backtracking matcher in continuation-passing style: alternatives are
    tried in the order Python's engine tries them (a greedy repetition
    takes as much as it can and gives characters back one at a time, a lazy
    one takes as little as it can and grows), and the first complete match
    wins.  Repetition is over character classes only, which is all the
    patterns need. *)

Module Re.

Inductive regex : Type :=
| Cls (p : ascii -> bool)                       (* one character of a class *)
| Rep (greedy : bool) (lo : nat) (p : ascii -> bool)   (* p{lo,} or p{lo,}? *)
| Cat (r1 r2 : regex)
| Opt (r : regex)                                      (* (?:r)? *)
| Grp (i : nat) (r : regex)                            (* i-th ( r ) *)
| Eos.                                                 (* $ *)

(** Captured groups, most recent first. *)
Definition caps : Type := list (nat * string).

Fixpoint group (i : nat) (cs : caps) : option string :=
  match cs with
  | [] => None
  | (j, s) :: cs' => if Nat.eqb i j then Some s else group i cs'
  end.

(** What was read between input [s] and the rest [s']. *)
Definition consumed (s s' : string) : string :=
  String.substring 0 (String.length s - String.length s') s.

Section Matcher.
Context {R : Type}.

Fixpoint rep_greedy (p : ascii -> bool) (lo : nat) (s : string)
         (k : string -> option R) {struct s} : option R :=
  match s with
  | String c s' =>
      if p c then
        match rep_greedy p (Nat.pred lo) s' k with
        | Some r => Some r
        | None => if Nat.eqb lo 0 then k s else None
        end
      else if Nat.eqb lo 0 then k s else None
  | EmptyString => if Nat.eqb lo 0 then k s else None
  end.

Fixpoint rep_lazy (p : ascii -> bool) (lo : nat) (s : string)
         (k : string -> option R) {struct s} : option R :=
  match lo with
  | O =>
      match k s with
      | Some r => Some r
      | None =>
          match s with
          | String c s' => if p c then rep_lazy p 0 s' k else None
          | EmptyString => None
          end
      end
  | S lo' =>
      match s with
      | String c s' => if p c then rep_lazy p lo' s' k else None
      | EmptyString => None
      end
  end.

Fixpoint rmatch (r : regex) (s : string) (cs : caps)
         (k : string -> caps -> option R) {struct r} : option R :=
  match r with
  | Cls p =>
      match s with
      | String c s' => if p c then k s' cs else None
      | EmptyString => None
      end
  | Rep true lo p => rep_greedy p lo s (fun s' => k s' cs)
  | Rep false lo p => rep_lazy p lo s (fun s' => k s' cs)
  | Cat r1 r2 => rmatch r1 s cs (fun s1 cs1 => rmatch r2 s1 cs1 k)
  | Opt r1 =>
      match rmatch r1 s cs k with
      | Some x => Some x
      | None => k s cs
      end
  | Grp i r1 =>
      rmatch r1 s cs (fun s' cs' => k s' ((i, consumed s s') :: cs'))
  | Eos =>
      match s with
      | EmptyString => k s cs
      | String c EmptyString =>
          if Ascii.eqb c PyStr.newline then k s cs else None
      | _ => None
      end
  end.
End Matcher.

(** [re.match(r, s)]: anchored at the start, free at the end. *)
Definition re_match (r : regex) (s : string) : option caps :=
  rmatch r s [] (fun _ cs => Some cs).

(** [(\d+(?:\.\d+)?)]. *)
Definition number_re : regex :=
  Cat (Rep true 1 PyStr.is_digit)
      (Opt (Cat (Cls PyStr.is_dot) (Rep true 1 PyStr.is_digit))).

(** [\s+(.+?)\s+\.{2,}\s*(\d+)]: what follows the number in the first
    pattern. *)
Definition dotted_tail : regex :=
  Cat (Rep true 1 PyStr.is_space)
 (Cat (Grp 2 (Rep false 1 PyStr.not_newline))
 (Cat (Rep true 1 PyStr.is_space)
 (Cat (Rep true 2 PyStr.is_dot)
 (Cat (Rep true 0 PyStr.is_space)
      (Grp 3 (Rep true 1 PyStr.is_digit)))))).

(** [\s+(.+?)\s+(\d+)$]: what follows the number in the second pattern. *)
Definition plain_tail : regex :=
  Cat (Rep true 1 PyStr.is_space)
 (Cat (Grp 2 (Rep false 1 PyStr.not_newline))
 (Cat (Rep true 1 PyStr.is_space)
 (Cat (Grp 3 (Rep true 1 PyStr.is_digit))
      Eos))).

(** [^(\d+(?:\.\d+)?)\s+(.+?)\s+\.{2,}\s*(\d+)]. *)
Definition toc_dotted : regex := Cat (Grp 1 number_re) dotted_tail.

(** [^(\d+(?:\.\d+)?)\s+(.+?)\s+(\d+)$]. *)
Definition toc_plain : regex := Cat (Grp 1 number_re) plain_tail.

(** Every character of [s] is in the class [p]. *)
Fixpoint all_chars (p : ascii -> bool) (s : string) : bool :=
  match s with
  | EmptyString => true
  | String c s' => (p c && all_chars p s')%bool
  end.

(** The strings a pattern can read, whatever the order of the search. *)
Fixpoint lang (r : regex) (a : string) : Prop :=
  match r with
  | Cls p => exists c, a = String c EmptyString /\ p c = true
  | Rep _ lo p => all_chars p a = true /\ (lo <= String.length a)%nat
  | Cat r1 r2 => exists a1 a2, a = (a1 ++ a2)%string /\ lang r1 a1 /\ lang r2 a2
  | Opt r1 => a = EmptyString \/ lang r1 a
  | Grp _ r1 => lang r1 a
  | Eos => a = EmptyString
  end.

(** The groups of a pattern. *)
Fixpoint groups (r : regex) : list nat :=
  match r with
  | Cls _ | Rep _ _ _ | Eos => []
  | Cat r1 r2 => groups r1 ++ groups r2
  | Opt r1 => groups r1
  | Grp i r1 => i :: groups r1
  end.

End Re.

(** ** Chapters and the TOC extractor *)

(** The dict built at lines 52-57; ['actual_page'] is added by
    [find_chapter_actual_pages] and is absent before. *)
Record chapter : Type := mkChapter {
  number : string;
  title : string;
  page : Z;
  level : Z;
  actual_page : option Z
}.

(** A document as [pdfplumber] shows it: the text of each page. *)
Definition pdf : Type := list (option string).

Definition group_or_empty (i : nat) (cs : Re.caps) : string :=
  match Re.group i cs with Some s => s | None => EmptyString end.

(** The first pattern, and the second only when the first fails
    (lines 39-42). *)
Definition match_toc_line (line : string) : option Re.caps :=
  match Re.re_match Re.toc_dotted line with
  | Some cs => Some cs
  | None => Re.re_match Re.toc_plain line
  end.



(** The body of the loop over lines (lines 38-57): the entry a line
    adds, when the conversion of line 55 returns.  [toc_line_checked]
    below is the same body with the exception of that conversion. *)
Definition toc_line (line : string) : option chapter :=
  match match_toc_line line with
  | None => None
  | Some cs =>
      let chapter_num := group_or_empty 1 cs in
      let title := PyStr.strip (group_or_empty 2 cs) in
      let page_num_str := group_or_empty 3 cs in
      let level := PyStr.count PyStr.dot chapter_num in
      if level =? 1
      then Some (mkChapter chapter_num title (PyStr.int page_num_str) level None)
      else None
  end.

Definition option_to_list {A : Type} (o : option A) : list A :=
  match o with Some a => [a] | None => [] end.

Definition toc_of_page (text : option string) : list chapter :=
  match PyStr.truthy text with
  | None => []
  | Some t => flat_map (fun line => option_to_list (toc_line line))
                       (PyStr.split_on PyStr.newline t)
  end.

(** The list [extract_toc_from_pdf] returns, when it returns: the
    entries of the first [min(20, len(pdf.pages))] pages.
    [extract_toc_from_pdf_checked] below is the function with its
    exception. *)
Definition extract_toc_from_pdf (doc : pdf) : list chapter :=
  flat_map toc_of_page (firstn (Nat.min 20 (List.length doc)) doc).

(** ** What the script prints and writes

    The warnings, the per-chapter reports and the files written, in the
    order the script produces them.  Banners and progress lines carry no
    data and are left out. *)

Inductive event : Type :=
| OffsetDetected (actual_page score offset : Z)      (* lines 133-134 *)
| WarnOffsetNotDetected                              (* lines 137-138 *)
| WarnChapterNotLocated (number : string) (toc_page : Z)          (* 200 *)
| SkipExceedsTotal (number : string) (actual_page : Z)            (* 240 *)
| SkipInvalidRange (number : string) (first_page end_page : Z)    (* 247 *)
| Saved (filename title : string) (first_page end_page count : Z)
        (copied : list nat)                          (* lines 251-268 *)
| ShowChapter (number title : string) (start_page end_page page_count : Z)
              (filename : string)                    (* lines 363-365 *)
| ErrorNoChapters                                    (* line 318 *)
| ExtractionComplete (files_created : Z).            (* lines 380-381 *)

Inductive exn : Type := KeyError | IndexError | ValueError.

Inductive result (A : Type) : Type :=
| Ok (a : A)
| Raise (e : exn).
Arguments Ok {A} a.
Arguments Raise {A} e.

Definition bind {A B : Type} (m : result A) (f : A -> result B) : result B :=
  match m with
  | Ok a => f a
  | Raise e => Raise e
  end.

Notation "x <- m ;; k" := (bind m (fun x => k))
  (at level 61, m at next level, right associativity).

(** ** The conversion of the page number (line 55)

    CPython 3.11 and later (and the security releases of 3.7 to 3.10)
    refuse to convert a decimal string of more than
    [sys.get_int_max_str_digits()] characters, leading zeros included:
    [int] raises [ValueError].  The script leaves the limit at its
    default, 4300.  The third group of both TOC patterns is [\d+], a
    non-empty string of digits of any length, so this is the one way the
    conversion can fail. *)

Definition int_max_str_digits : Z := 4300.

Definition int_checked (s : string) : result Z :=
  if int_max_str_digits <? Z.of_nat (String.length s)
  then Raise ValueError
  else Ok (PyStr.int s).

(** Lines 38-57: the conversion is evaluated for a line of level 1 only,
    while the dict of lines 52-57 is built. *)
Definition toc_line_checked (line : string) : result (option chapter) :=
  match match_toc_line line with
  | None => Ok None
  | Some cs =>
      let chapter_num := group_or_empty 1 cs in
      let title := PyStr.strip (group_or_empty 2 cs) in
      let page_num_str := group_or_empty 3 cs in
      let level := PyStr.count PyStr.dot chapter_num in
      if level =? 1
      then p <- int_checked page_num_str ;;
           Ok (Some (mkChapter chapter_num title p level None))
      else Ok None
  end.

(** The loop over the lines of a page (line 37): an exception ends it. *)
Fixpoint toc_lines_checked (lines : list string) : result (list chapter) :=
  match lines with
  | [] => Ok []
  | line :: rest =>
      o <- toc_line_checked line ;;
      more <- toc_lines_checked rest ;;
      Ok (option_to_list o ++ more)
  end.

Definition toc_of_page_checked (text : option string)
  : result (list chapter) :=
  match PyStr.truthy text with
  | None => Ok []
  | Some t => toc_lines_checked (PyStr.split_on PyStr.newline t)
  end.

(** The loop over the pages (line 26). *)
Fixpoint toc_pages_checked (pages : list (option string))
  : result (list chapter) :=
  match pages with
  | [] => Ok []
  | text :: rest =>
      cs <- toc_of_page_checked text ;;
      more <- toc_pages_checked rest ;;
      Ok (cs ++ more)
  end.

(** [extract_toc_from_pdf] (lines 17-59). *)
Definition extract_toc_from_pdf_checked (doc : pdf) : result (list chapter) :=
  toc_pages_checked (firstn (Nat.min 20 (List.length doc)) doc).

(** ** Scanning a window of pages for the best score *)

(** [range(a, b)]. *)
Definition py_range (a b : Z) : list Z :=
  map (fun k => a + Z.of_nat k) (seq 0 (Z.to_nat (b - a))).

(** [pdf.pages[i].extract_text()] when it is truthy.  The windows below are
    clipped to [0, len(pdf.pages)), so the index is always in range. *)
Definition page_at (doc : pdf) (i : Z) : option string :=
  if i <? 0 then None
  else match nth_error doc (Z.to_nat i) with
       | Some text => PyStr.truthy text
       | None => None
       end.

(** [best_match_page] and [best_match_score]. *)
Definition best : Type := (option Z * Z)%type.

(** One iteration of the loop over the window: pages without text are
    skipped; a page replaces the best only with a strictly greater score
    (lines 125-127 and 189-191).  [mark] is what is remembered of the page:
    the index itself at line 127, the index plus one at line 191. *)
Definition update_best (score_of : string -> Z) (mark : Z -> Z) (doc : pdf)
           (b : best) (page_index : Z) : best :=
  match page_at doc page_index with
  | None => b
  | Some text =>
      let score := score_of text in
      if score >? snd b then (Some (mark page_index), score) else b
  end.

Definition scan_window (score_of : string -> Z) (mark : Z -> Z) (doc : pdf)
           (search_start search_end : Z) : best :=
  fold_left (update_best score_of mark doc)
            (py_range search_start search_end) (None, 0).

Definition starts_with_number (line chapter_num : string) : bool :=
  (PyStr.startswith line (chapter_num ++ " ")%string
   || PyStr.startswith line (chapter_num ++ String PyStr.tab "")%string)%bool.

Definition count_if {A : Type} (f : A -> bool) (l : list A) : Z :=
  Z.of_nat (List.length (filter f l)).

(** ** Offset detector (lines 61-139) *)

(** The loop over the lines of a page (lines 100-118). *)
Fixpoint offset_score_lines (chapter_num title_clean : string) (score : Z)
         (lines : list string) : Z :=
  match lines with
  | [] => score
  | raw :: rest =>
      let line := PyStr.strip raw in
      let score :=
        if starts_with_number line chapter_num then
          let score := score + 50 in
          match rest with
          | next_raw :: _ =>
              let next_line := PyStr.strip next_raw in
              if PyStr.contains (PyStr.lower (PyStr.take 30 title_clean))
                                (PyStr.lower next_line)
              then score + 50 else score
          | [] => score
          end
        else score in
      let score :=
        if PyStr.contains chapter_num line then
          let title_words := firstn 5 (PyStr.split (PyStr.lower title_clean)) in
          let matching_words :=
            count_if (fun word => PyStr.contains word (PyStr.lower line))
                     title_words in
          score + matching_words * 10
        else score in
      offset_score_lines chapter_num title_clean score rest
  end.

(** The score of one page (lines 92-122). *)
Definition offset_score (chapter_num chapter_title text : string) : Z :=
  let text_clean := PyStr.join_space (PyStr.split text) in
  let title_clean := PyStr.join_space (PyStr.split chapter_title) in
  let score :=
    offset_score_lines chapter_num title_clean 0
                       (PyStr.split_on PyStr.newline text) in
  if PyStr.contains (PyStr.lower (PyStr.take 20 title_clean))
                    (PyStr.lower text_clean)
  then score + 20 else score.

Definition pages_len (doc : pdf) : Z := Z.of_nat (List.length doc).

Definition auto_detect_page_offset (doc : pdf) (chapters : list chapter)
  : Z * list event :=
  match chapters with
  | [] => (0, [])
  | first_chapter :: _ =>
      let toc_page := page first_chapter in
      let search_start := Z.max 0 (toc_page - 20) in
      let search_end := Z.min (pages_len doc) (toc_page + 30) in
      let '(best_match_page, best_match_score) :=
        scan_window (offset_score (number first_chapter) (title first_chapter))
                    (fun i => i) doc search_start search_end in
      match best_match_page with
      | Some best_page =>
          if best_match_score >=? 30 then
            let actual := best_page + 1 in
            let offset := actual - toc_page in
            (offset, [OffsetDetected actual best_match_score offset])
          else (0, [WarnOffsetNotDetected])
      | None => (0, [WarnOffsetNotDetected])
      end
  end.

(** Lines 325-327. *)
Definition add_offset (page_offset : Z) (c : chapter) : chapter :=
  mkChapter (number c) (title c) (page c + page_offset) (level c)
            (actual_page c).

Definition apply_page_offset (page_offset : Z) (chapters : list chapter)
  : list chapter :=
  if page_offset =? 0 then chapters else map (add_offset page_offset) chapters.

(** ** Chapter locator (lines 141-203) *)

Definition any_word_in (title_words : list string) (s : string) : bool :=
  existsb (fun word => PyStr.contains word s) title_words.

(** The loop over the lines of a page (lines 173-187). *)
Fixpoint locate_score_lines (chapter_num chapter_title : string) (score : Z)
         (lines : list string) : Z :=
  match lines with
  | [] => score
  | raw :: rest =>
      let line_stripped := PyStr.strip raw in
      let score :=
        if starts_with_number line_stripped chapter_num then
          let score := score + 100 in
          let title_words :=
            firstn 3 (PyStr.split (PyStr.lower chapter_title)) in
          if any_word_in title_words (PyStr.lower line_stripped)
          then score + 50
          else match rest with
               | next_raw :: _ =>
                   let next_line := PyStr.lower (PyStr.strip next_raw) in
                   if any_word_in title_words next_line
                   then score + 50 else score
               | [] => score
               end
        else score in
      locate_score_lines chapter_num chapter_title score rest
  end.

Definition locate_score (chapter_num chapter_title text : string) : Z :=
  locate_score_lines chapter_num chapter_title 0
                     (PyStr.split_on PyStr.newline text).

Definition set_actual_page (c : chapter) (p : Z) : chapter :=
  mkChapter (number c) (title c) (page c) (level c) (Some p).

(** The body of the loop over chapters (lines 151-200). *)
Definition locate_chapter (doc : pdf) (c : chapter) : chapter * list event :=
  let toc_page := page c in
  let search_start := Z.max 0 (toc_page - 5) in
  let search_end := Z.min (pages_len doc) (toc_page + 15) in
  let '(best_match_page, best_match_score) :=
    scan_window (locate_score (number c) (title c))
                (fun i => i + 1) doc search_start search_end in
  match best_match_page with
  | Some best_page =>
      if best_match_score >=? 100 then (set_actual_page c best_page, [])
      else (set_actual_page c toc_page,
            [WarnChapterNotLocated (number c) toc_page])
  | None => (set_actual_page c toc_page,
             [WarnChapterNotLocated (number c) toc_page])
  end.

Fixpoint find_chapter_actual_pages (doc : pdf) (chapters : list chapter)
  : list chapter * list event :=
  match chapters with
  | [] => ([], [])
  | c :: rest =>
      let (c', w) := locate_chapter doc c in
      let (rest', ws) := find_chapter_actual_pages doc rest in
      (c' :: rest', w ++ ws)
  end.

(** ** Sorting by physical page (line 333) *)

(** [chapter['actual_page']]. *)
Definition get_actual (c : chapter) : result Z :=
  match actual_page c with
  | Some p => Ok p
  | None => Raise KeyError
  end.

(** [list.sort(key=...)] computes every key first and then sorts stably. *)
Fixpoint with_keys (chapters : list chapter) : result (list (Z * chapter)) :=
  match chapters with
  | [] => Ok []
  | c :: rest =>
      k <- get_actual c ;;
      krest <- with_keys rest ;;
      Ok ((k, c) :: krest)
  end.

Fixpoint insert_keyed (x : Z * chapter) (l : list (Z * chapter))
  : list (Z * chapter) :=
  match l with
  | [] => [x]
  | y :: l' => if fst x <=? fst y then x :: l else y :: insert_keyed x l'
  end.

Definition stable_sort (l : list (Z * chapter)) : list (Z * chapter) :=
  fold_right insert_keyed [] l.

Definition sort_by_actual_page (chapters : list chapter)
  : result (list chapter) :=
  keyed <- with_keys chapters ;;
  Ok (map snd (stable_sort keyed)).

(** ** Boundary resolution and the splitter (lines 205-268) *)

(** The loop over the following chapters (lines 229-236): the end page is
    the page before the first following chapter that starts on a strictly
    later page, and [total_pages] when there is none. *)
Fixpoint find_end_page (p : Z) (following : list chapter) (total_pages : Z)
  : result Z :=
  match following with
  | [] => Ok total_pages
  | next_chapter :: rest =>
      q <- get_actual next_chapter ;;
      if q >? p then Ok (q - 1) else find_end_page p rest total_pages
  end.

(** [reader.pages[i]] on a sequence of [n] pages: Python's indexing, which
    counts a negative index from the end and raises outside [-n, n). *)
Definition py_index (n i : Z) : result nat :=
  let j := if i <? 0 then n + i else i in
  if ((j <? 0) || (n <=? j))%bool then Raise IndexError else Ok (Z.to_nat j).

(** The loop that copies pages (lines 253-255). *)
Fixpoint add_pages (total_pages : Z) (page_nums : list Z) : result (list nat) :=
  match page_nums with
  | [] => Ok []
  | page_num :: rest =>
      if page_num <? total_pages then
        p <- py_index total_pages page_num ;;
        ps <- add_pages total_pages rest ;;
        Ok (p :: ps)
      else add_pages total_pages rest
  end.

Definition output_filename (c : chapter) : string :=
  ("micropython-docs" ++ PyStr.replace PyStr.dot "-"%char (number c)
   ++ ".pdf")%string.

(** What the validation of lines 238-248 decides for a 0-based
    [start_page] and an [end_page]. *)
Inductive verdict : Type :=
| Exceeds
| InvalidRange (end_page : Z)
| Valid (end_page : Z).

Definition validate_range (total_pages start_page end_page : Z) : verdict :=
  if start_page >=? total_pages then Exceeds
  else
    let end_page := if end_page >? total_pages then total_pages else end_page in
    if start_page >=? end_page then InvalidRange end_page else Valid end_page.

(** The range of a chapter before validation (lines 226-236): the 0-based
    [start_page] and the [end_page]; [following] is [chapters[i+1:]]. *)
Definition resolve_range (total_pages : Z) (c : chapter)
           (following : list chapter) : result (Z * Z) :=
  p <- get_actual c ;;
  let start_page := p - 1 in
  end_page <- find_end_page p following total_pages ;;
  Ok (start_page, end_page).

(** The body of the loop over chapters (lines 225-268). *)
Definition split_chapter (total_pages : Z) (c : chapter)
           (following : list chapter) : result event :=
  range <- resolve_range total_pages c following ;;
  let start_page := fst range in
  match validate_range total_pages start_page (snd range) with
  | Exceeds => Ok (SkipExceedsTotal (number c) (start_page + 1))
  | InvalidRange end_page =>
      Ok (SkipInvalidRange (number c) (start_page + 1) end_page)
  | Valid end_page =>
      copied <- add_pages total_pages (py_range start_page end_page) ;;
      Ok (Saved (output_filename c) (title c) (start_page + 1) end_page
                (end_page - start_page) copied)
  end.

(** A run: what was printed and written, and the exception that ended it,
    if any. *)
Definition run : Type := (list event * option exn)%type.

Fixpoint split_loop (total_pages : Z) (chapters : list chapter) : run :=
  match chapters with
  | [] => ([], None)
  | c :: following =>
      match split_chapter total_pages c following with
      | Raise e => ([], Some e)
      | Ok ev =>
          let (evs, status) := split_loop total_pages following in
          (ev :: evs, status)
      end
  end.

(** [l[:n]]. *)
Definition py_prefix {A : Type} (l : list A) (n : Z) : list A :=
  if n <? 0 then firstn (Z.to_nat (Z.of_nat (List.length l) + n)) l
  else firstn (Z.to_nat n) l.

(** [l[:max_files] if max_files else l]: [None] and [0] are falsy. *)
Definition limit_chapters (chapters : list chapter) (max_files : option Z)
  : list chapter :=
  match max_files with
  | None => chapters
  | Some n => if n =? 0 then chapters else py_prefix chapters n
  end.

Definition split_pdf_by_chapters (total_pages : Z) (chapters : list chapter)
           (max_files : option Z) : run :=
  split_loop total_pages (limit_chapters chapters max_files).

(** ** The preview of [--show] (lines 336-372) *)

Definition chapter_eq_dec (a b : chapter) : {a = b} + {a <> b}.
Proof.
  decide equality;
    try apply Z.eq_dec; try apply string_dec;
    decide equality; apply Z.eq_dec.
Defined.

(** [l.index(x)]: the first position holding a dict equal to [x]. *)
Fixpoint list_index (x : chapter) (l : list chapter) : result nat :=
  match l with
  | [] => Raise ValueError
  | y :: l' =>
      if chapter_eq_dec y x then Ok O
      else i <- list_index x l' ;; Ok (S i)
  end.

(** The body of the loop over displayed chapters (lines 349-365). *)
Definition show_chapter (total_pages : Z) (all_chapters : list chapter)
           (c : chapter) : result event :=
  start_page <- get_actual c ;;
  current_index <- list_index c all_chapters ;;
  end_page <- find_end_page start_page
                (skipn (S current_index) all_chapters) total_pages ;;
  Ok (ShowChapter (number c) (title c) start_page end_page
                  (end_page - start_page + 1) (output_filename c)).

Fixpoint show_loop (total_pages : Z) (all_chapters display : list chapter)
  : run :=
  match display with
  | [] => ([], None)
  | c :: rest =>
      match show_chapter total_pages all_chapters c with
      | Raise e => ([], Some e)
      | Ok ev =>
          let (evs, status) := show_loop total_pages all_chapters rest in
          (ev :: evs, status)
      end
  end.

Definition show_only (total_pages : Z) (chapters : list chapter)
           (max_files : option Z) : run :=
  show_loop total_pages chapters (limit_chapters chapters max_files).

(** ** [main] (lines 312-382), for a PDF that exists *)

Definition prepend (evs : list event) (r : run) : run :=
  (evs ++ fst r, snd r).

(** Lines 377-381, reached only when the splitter returned. *)
Definition report_complete (chapters : list chapter) (max_files : option Z)
           (r : run) : run :=
  match snd r with
  | Some _ => r
  | None =>
      let n := Z.of_nat (List.length chapters) in
      let files_created :=
        match max_files with
        | None => n
        | Some m => if m =? 0 then n else Z.min n m
        end in
      (fst r ++ [ExtractionComplete files_created], None)
  end.

(** Stages 4.1 to 4.3 and the sort: everything [main] does before it
    branches on [--show], once the extraction has returned. *)
Definition resolve_chapters (doc : pdf)
  : list event * result (list chapter) :=
  let chapters := extract_toc_from_pdf doc in
  let (page_offset, w1) := auto_detect_page_offset doc chapters in
  let chapters := apply_page_offset page_offset chapters in
  let (chapters, w2) := find_chapter_actual_pages doc chapters in
  (w1 ++ w2, sort_by_actual_page chapters).

(** Nothing catches an exception of [extract_toc_from_pdf] (line 315): it
    ends the run before anything is reported.  An extraction that returns
    gives the list [extract_toc_from_pdf doc]. *)
Definition main (doc : pdf) (max_files : option Z) (show : bool) : run :=
  match extract_toc_from_pdf_checked doc with
  | Raise e => ([], Some e)
  | Ok [] => ([ErrorNoChapters], None)
  | Ok (_ :: _) =>
      let (ws, sorted) := resolve_chapters doc in
      match sorted with
      | Raise e => (ws, Some e)
      | Ok chapters =>
          let total_pages := pages_len doc in
          if show then prepend ws (show_only total_pages chapters max_files)
          else prepend ws
                 (report_complete chapters max_files
                    (split_pdf_by_chapters total_pages chapters max_files))
      end
  end.

(** ** What "the best page of a window" means

    Independent of the loop: the scores of the pages of a window that have
    text, their maximum, and the first page that attains it. *)

Definition window_scores (score_of : string -> Z) (doc : pdf) (lo hi : Z)
  : list Z :=
  flat_map (fun i => match page_at doc i with
                     | Some t => [score_of t]
                     | None => []
                     end)
           (py_range lo hi).

Definition top_score (score_of : string -> Z) (doc : pdf) (lo hi : Z) : Z :=
  fold_right Z.max 0 (window_scores score_of doc lo hi).

(** Page [i], with text [t], is the first page of the window [lo, hi) whose
    score is the greatest of the window. *)
Definition first_top (score_of : string -> Z) (doc : pdf) (lo hi i : Z)
           (t : string) : Prop :=
  lo <= i < hi /\ page_at doc i = Some t /\
  (forall j t', lo <= j < hi -> page_at doc j = Some t' ->
                score_of t' <= score_of t) /\
  (forall j t', lo <= j < i -> page_at doc j = Some t' ->
                score_of t' < score_of t).

(** The windows of the two detectors. *)
Definition offset_window (doc : pdf) (c : chapter) : Z * Z :=
  (Z.max 0 (page c - 20), Z.min (pages_len doc) (page c + 30)).

Definition locate_window (doc : pdf) (c : chapter) : Z * Z :=
  (Z.max 0 (page c - 5), Z.min (pages_len doc) (page c + 15)).

(** What the loop of a detector has found after the pages [lo, hi). *)
Definition scanned (score_of : string -> Z) (mark : Z -> Z) (doc : pdf)
           (lo hi : Z) (b : best) : Prop :=
  snd b = top_score score_of doc lo hi /\
  (forall j t', lo <= j < hi -> page_at doc j = Some t' ->
                score_of t' <= snd b) /\
  match fst b with
  | None => snd b = 0
  | Some m => 0 < snd b /\
              exists i t, m = mark i /\ first_top score_of doc lo hi i t /\
                          score_of t = snd b
  end.

(** ** What "the range of an entry" means

    Independent of the loops: on the list of the actual pages of the
    entries, in order. *)

(** Entry [j] is the nearest entry after entry [i] that starts on a
    strictly later page. *)
Definition next_later (ps : list Z) (i j : nat) (p q : Z) : Prop :=
  nth_error ps i = Some p /\ nth_error ps j = Some q /\
  (i < j)%nat /\ p < q /\
  (forall k r, (i < k < j)%nat -> nth_error ps k = Some r -> r <= p).

(** No entry after entry [i] starts on a strictly later page. *)
Definition none_later (ps : list Z) (i : nat) (p : Z) : Prop :=
  nth_error ps i = Some p /\
  (forall k r, (i < k)%nat -> nth_error ps k = Some r -> r <= p).

(** [p1, p2-1], [p2, p3-1], ..., [pn, T]. *)
Fixpoint increasing_ranges (ps : list Z) (T : Z) : list (Z * Z) :=
  match ps with
  | [] => []
  | p :: rest =>
      (p, match rest with q :: _ => q - 1 | [] => T end)
        :: increasing_ranges rest T
  end.

(** The end page found on the actual pages [qs] of the following
    entries. *)
Fixpoint end_of (p : Z) (qs : list Z) (total_pages : Z) : Z :=
  match qs with
  | [] => total_pages
  | q :: rest => if q >? p then q - 1 else end_of p rest total_pages
  end.

(** The artifact of an entry with the 1-based inclusive range [p, e]. *)
Definition saved_event (c : chapter) (p e : Z) : event :=
  Saved (output_filename c) (title c) p e (e - (p - 1))
        (map Z.to_nat (py_range (p - 1) e)).

(** What the splitter does with an entry of page [p], a positive page,
    when the following entries have the pages [qs]. *)
Definition split_event (total_pages : Z) (c : chapter) (p : Z) (qs : list Z)
  : event :=
  if p >? total_pages then SkipExceedsTotal (number c) p
  else saved_event c p (Z.min (end_of p qs total_pages) total_pages).

(** The chapters on page [p]. *)
Definition on_page (p : Z) (c : chapter) : bool :=
  match actual_page c with
  | Some q => q =? p
  | None => false
  end.

(** The order of the sort, and what ties a key to its entry. *)
Definition key_le (a b : Z * chapter) : Prop := fst a <= fst b.

Definition keyed_ok (kc : Z * chapter) : Prop :=
  actual_page (snd kc) = Some (fst kc).


(** ** Sample inputs *)

Definition entry (n : string) (p : Z) : chapter :=
  mkChapter n "T" p 1 (Some p).

(** Three located entries, in TOC order. *)
Definition sample_chapters : list chapter :=
  [entry "1.2" 7; entry "1.1" 3; entry "2.1" 12].

Definition sample_sorted : list chapter :=
  [entry "1.1" 3; entry "1.2" 7; entry "2.1" 12].

(** Entries that share a page, in TOC order. *)
Definition sample_duplicates : list chapter :=
  [entry "2.1" 9; entry "1.1" 4; entry "1.2" 4].

Definition sample_duplicates_sorted : list chapter :=
  [entry "1.1" 4; entry "1.2" 4; entry "2.1" 9].

(** A five-page document: the TOC line on page 1 and the heading of the
    chapter on page 5 get the same score from the offset detector. *)
Definition sample_tie : pdf :=
  [Some "1.1 Intro .... 2"; None; None; None; Some "1.1 Intro
Some text"].

(** Entries beyond the end of a ten-page document. *)
Definition sample_beyond : list chapter :=
  [entry "1.1" 3; entry "1.2" 12; entry "2.1" 15].

(** The first entry of the TOC of [sample_tie]. *)
Definition sample_anchor : chapter := mkChapter "1.1" "Intro" 2 1 None.

(** ** Further vocabulary *)

(** What group [i] of a pattern can capture. *)
Fixpoint group_lang (r : Re.regex) (i : nat) (s : string) : Prop :=
  match r with
  | Re.Cat r1 r2 => group_lang r1 i s \/ group_lang r2 i s
  | Re.Opt r1 => group_lang r1 i s
  | Re.Grp j r1 => (i = j /\ Re.lang r1 s) \/ group_lang r1 i s
  | Re.Cls _ | Re.Rep _ _ _ | Re.Eos => False
  end.

(** A section number of two levels: digits, a dot, digits. *)
Definition number_shape (n : string) : Prop :=
  exists d1 d2,
    n = (d1 ++ String PyStr.dot d2)%string /\
    Re.all_chars PyStr.is_digit d1 = true /\ d1 <> EmptyString /\
    Re.all_chars PyStr.is_digit d2 = true /\ d2 <> EmptyString.

(** Twenty pages without text, then a TOC line on page 21. *)
Definition sample_late_toc : pdf :=
  repeat None 20 ++ [Some "1.1 Intro 5"].

(** A one-page document with two TOC lines in the two formats. *)
Definition sample_toc : pdf :=
  [Some "1.1 Getting Started .... 10
2.3   Wiring the board 27"].


(** The line, once stripped, starts with the number and a space or a tab
    (lines 104 and 177). *)
Definition number_line (chapter_num line : string) : bool :=
  starts_with_number (PyStr.strip line) chapter_num.

(** The pages an event copied. *)
Definition copied_of (ev : event) : list nat :=
  match ev with
  | Saved _ _ _ _ _ copied => copied
  | _ => []
  end.

(** [reader.pages[x]] where it is defined: a negative index counts from
    the end. *)
Definition wrap_index (total_pages x : Z) : nat :=
  Z.to_nat (if x <? 0 then total_pages + x else x).

(** One entry without an actual page among located ones. *)
Definition sample_unlocated : list chapter :=
  [entry "1.1" 3; mkChapter "1.2" "T" 7 1 None].

(** A line whose page number [int] refuses: it matches one of the two
    patterns with a number of one dot and more than 4300 digits in its
    third group. *)
Definition overlong_line (line : string) : bool :=
  match match_toc_line line with
  | None => false
  | Some cs =>
      (PyStr.count PyStr.dot (group_or_empty 1 cs) =? 1)
      && (int_max_str_digits <? Z.of_nat (String.length (group_or_empty 3 cs)))
  end.

Definition overlong_page (text : option string) : bool :=
  match PyStr.truthy text with
  | None => false
  | Some t => existsb overlong_line (PyStr.split_on PyStr.newline t)
  end.

(** Some line of the first 20 pages has such a page number. *)
Definition overlong (doc : pdf) : bool :=
  existsb overlong_page (firstn (Nat.min 20 (List.length doc)) doc).

(** [print] formats an integer with [str], which has the limit of [int]:
    an integer of more than 4300 digits raises [ValueError]. *)
Definition printable (n : Z) : Prop := Z.abs n < 10 ^ int_max_str_digits.

(** The integers of an event that are page numbers, or are computed from
    page numbers: they can be as long as the digits of a TOC line.  A
    score and a count of files depend on the size of the text only. *)
Definition page_numbers (ev : event) : list Z :=
  match ev with
  | OffsetDetected actual _ offset => [actual; offset]
  | WarnChapterNotLocated _ toc_page => [toc_page]
  | SkipExceedsTotal _ actual => [actual]
  | SkipInvalidRange _ first_page end_page => [first_page; end_page]
  | Saved _ _ first_page end_page count _ => [first_page; end_page; count]
  | ShowChapter _ _ start_page end_page page_count _ =>
      [start_page; end_page; page_count]
  | WarnOffsetNotDetected | ErrorNoChapters | ExtractionComplete _ => []
  end.

(** Every page number the run prints is short enough to be printed. *)
Definition printable_run (r : run) : Prop :=
  Forall (fun ev => Forall printable (page_numbers ev)) (fst r).

(** The page numbers of the events are at most [M] in absolute value. *)
Definition numbers_within (M : Z) (evs : list event) : Prop :=
  Forall (fun ev => Forall (fun n => Z.abs n <= M) (page_numbers ev)) evs.

Fixpoint nines (n : nat) : string :=
  match n with
  | O => EmptyString
  | S n' => String "9" (nines n')
  end.

(** A one-page document whose only line has a page number of [n] digits. *)
Definition sample_digits (n : nat) : pdf :=
  [Some ("1.1 Intro " ++ nines n)%string].


(** * The Markdown converter: [knowledge/_convert/convert_dir_to_md.py]

    [convert_chapters] goes through the PDF files of a directory, tries
    Docling on each and, where Docling raises, MarkItDown when it is
    installed.  The two converters are collaborators: [docling f] is
    [Some md] when lines 61-72 run through for the file [f] (conversion,
    export and writing of [md]) and [None] when one of them raises;
    [markitdown] is [None] when the import of line 13 failed, and
    otherwise answers in the same way for lines 86-94.  The list of files
    is the sorted result of the glob of line 29. *)

Inductive converter : Type := Docling | MarkItDown.

Section Converter.

Variables file content : Type.
Variable docling : file -> option content.
Variable markitdown : option (file -> option content).

(** The counters of lines 47-49, and the files written with the
    converter that produced each. *)
Record stats : Type := mkStats {
  converted : Z;
  failed : Z;
  fallback_used : Z;
  written : list (file * content * converter)
}.

(** The body of the loop over the files (lines 53-108). *)
Definition convert_one (st : stats) (pdf_file : file) : stats :=
  match docling pdf_file with
  | Some markdown_content =>
      mkStats (converted st + 1) (failed st) (fallback_used st)
              (written st ++ [(pdf_file, markdown_content, Docling)])
  | None =>
      match markitdown with
      | Some convert =>
          match convert pdf_file with
          | Some markdown_content =>
              mkStats (converted st + 1) (failed st) (fallback_used st + 1)
                      (written st ++ [(pdf_file, markdown_content, MarkItDown)])
          | None =>
              mkStats (converted st) (failed st + 1) (fallback_used st)
                      (written st)
          end
      | None =>
          mkStats (converted st) (failed st + 1) (fallback_used st)
                  (written st)
      end
  end.

(** Lines 36-37: the limit applies whenever it is given, also when it
    is 0. *)
Definition limit_files (pdf_files : list file) (max_files : option Z)
  : list file :=
  match max_files with
  | Some n => py_prefix pdf_files n
  | None => pdf_files
  end.

(** [convert_chapters]: [None] when no PDF file was found (lines 31-33),
    and otherwise the counters of the summary. *)
Definition convert_chapters (pdf_files : list file) (max_files : option Z)
  : option stats :=
  match pdf_files with
  | [] => None
  | _ :: _ =>
      Some (fold_left convert_one (limit_files pdf_files max_files)
                      (mkStats 0 0 0 []))
  end.

End Converter.

Arguments converted {file content} s.
Arguments failed {file content} s.
Arguments fallback_used {file content} s.
Arguments written {file content} s.

(** Sample collaborators: files are numbers; Docling converts the even
    ones, MarkItDown those below 5. *)
Definition sample_docling (f : nat) : option string :=
  if Nat.even f then Some "docling" else None.

Definition sample_markitdown (f : nat) : option string :=
  if Nat.ltb f 5 then Some "markitdown" else None.

(** * The explorer: [ui-rag-explorer/rag-explorer-app.py]

    The request functions of the explorer strip the query, build the
    parameters of a request and hand them to the server.  The request
    itself and all that is done with the answer (lines 156-192 of
    [rag_generate_response], lines 109-137 of [rag_search_documents],
    lines 41-76 of [search_documents]) are left to a collaborator. *)

(** The values of a parameter dict. *)
Inductive param : Type := PStr (s : string) | PInt (n : Z).

(** [LLM_MODELS] (lines 15-27). *)
Definition LLM_MODELS : list (string * string) :=
  [("default", "default");
   ("llama3.1 (8b)", "llama3.1");
   ("llama3.2 (3b)", "llama3.2");
   ("gpt-oss (20b)", "gpt-oss:20b");
   ("gemma3 (4b)", "gemma3-4");
   ("gemma3 (12b)", "gemma3-12");
   ("qwen3 (8b)", "qwen3");
   ("online gpt-5", "gpt-5");
   ("online gpt-5-mini", "gpt-5-mini");
   ("online gpt-5-nano", "gpt-5-nano");
   ("online gpt-4o-mini", "gpt-4o-mini")].

(** [d.get(key, default)]. *)
Fixpoint dict_get (d : list (string * string)) (key default : string)
  : string :=
  match d with
  | [] => default
  | (k, v) :: d' => if String.eqb k key then v else dict_get d' key default
  end.

(** The parameters of lines 148-154. *)
Definition response_params (query : string) (top_k : Z) (llm_model : string)
  : list (string * param) :=
  [("q", PStr query); ("topK", PInt top_k)]
  ++ (if String.eqb llm_model "default" then []
      else [("llmModel", PStr (dict_get LLM_MODELS llm_model llm_model))]).

Section Explorer.

(** The request to an endpoint with its parameters, and what the function
    returns from there on. *)
Variable request : string -> list (string * param) -> bool -> string.

(** [search_documents] (lines 29-76). *)
Definition search_documents (query search_type : string) : string :=
  let query := PyStr.strip query in
  let endpoint :=
    if String.eqb search_type "fuzzy" then "/search_fuzz" else "/search" in
  request endpoint [("q", PStr query)] false.

(** [rag_search_documents] (lines 99-137). *)
Definition rag_search_documents (query : string) (top_k : Z) : string :=
  let query := PyStr.strip query in
  match query with
  | EmptyString => "Please enter a search query for RAG search."
  | _ => request "/rag/search" [("q", PStr query); ("topK", PInt top_k)] false
  end.

(** [rag_generate_response] (lines 139-192). *)
Definition rag_generate_response (query : string) (top_k : Z)
           (llm_model : string) (show_model : bool) : string :=
  let query := PyStr.strip query in
  match query with
  | EmptyString => "Please enter a question for RAG response generation."
  | _ => request "/rag/response" (response_params query top_k llm_model)
                 show_model
  end.

End Explorer.
(** * Properties *)

Example toc_example :
  extract_toc_from_pdf
    [Some "Contents
1 Basics 4
1.1 Intro .... 5
1.2 Setup 9
1.2.3 Deep .... 11"] =
  [mkChapter "1.1" "Intro" 5 1 None; mkChapter "1.2" "Setup" 9 1 None].
Proof. vm_compute. reflexivity. Qed.

(** ** Ranges and window scans *)

Lemma py_range_empty a b : b <= a -> py_range a b = [].
Proof.
  intros H. unfold py_range.
  replace (Z.to_nat (b - a)) with O by lia. reflexivity.
Qed.

Lemma py_range_snoc a b : a <= b -> py_range a (b + 1) = py_range a b ++ [b].
Proof.
  intros H. unfold py_range.
  replace (Z.to_nat (b + 1 - a)) with (S (Z.to_nat (b - a))) by lia.
  rewrite seq_S, map_app. simpl. do 2 f_equal. lia.
Qed.

Lemma py_range_cons a b : a < b -> py_range a b = a :: py_range (a + 1) b.
Proof.
  intros H. unfold py_range.
  replace (Z.to_nat (b - a)) with (S (Z.to_nat (b - (a + 1)))) by lia.
  simpl. f_equal; [lia|].
  rewrite <- seq_shift, map_map. apply map_ext. intros k. lia.
Qed.

Lemma py_range_In a b i : In i (py_range a b) <-> a <= i < b.
Proof.
  unfold py_range. rewrite in_map_iff. split.
  - intros (k & <- & Hk). apply in_seq in Hk. lia.
  - intros H. exists (Z.to_nat (i - a)). split; [lia|].
    apply in_seq. lia.
Qed.

Lemma fold_max_nonneg l : 0 <= fold_right Z.max 0 l.
Proof. induction l; simpl; lia. Qed.

Lemma fold_max_app l1 l2 :
  fold_right Z.max 0 (l1 ++ l2)
  = Z.max (fold_right Z.max 0 l1) (fold_right Z.max 0 l2).
Proof.
  induction l1; simpl.
  - pose proof (fold_max_nonneg l2). lia.
  - rewrite IHl1. lia.
Qed.

Section Scan.
Variable score_of : string -> Z.
Variable mark : Z -> Z.
Variable doc : pdf.

Lemma scan_window_snoc lo hi :
  lo <= hi ->
  scan_window score_of mark doc lo (hi + 1)
  = update_best score_of mark doc (scan_window score_of mark doc lo hi) hi.
Proof.
  intros H. unfold scan_window.
  rewrite py_range_snoc by assumption. now rewrite fold_left_app.
Qed.

Lemma top_score_snoc lo hi :
  lo <= hi ->
  top_score score_of doc lo (hi + 1)
  = Z.max (top_score score_of doc lo hi)
          (match page_at doc hi with Some t => score_of t | None => 0 end).
Proof.
  intros H. unfold top_score, window_scores.
  rewrite py_range_snoc by assumption.
  rewrite flat_map_app, fold_max_app. simpl.
  destruct (page_at doc hi); simpl; [|reflexivity].
  pose proof (fold_max_nonneg
    (flat_map (fun i => match page_at doc i with
                        | Some t => [score_of t] | None => [] end)
              (py_range lo hi))).
  lia.
Qed.

Lemma scanned_step lo hi b :
  lo <= hi -> scanned score_of mark doc lo hi b ->
  scanned score_of mark doc lo (hi + 1) (update_best score_of mark doc b hi).
Proof.
  intros Hle (Htop & Hall & Hbest).
  assert (Hnn : 0 <= top_score score_of doc lo hi) by apply fold_max_nonneg.
  unfold scanned, update_best.
  rewrite top_score_snoc by assumption.
  destruct (page_at doc hi) as [t|] eqn:Ht.
  - destruct (Z.gtb_spec (score_of t) (snd b)) as [Hgt|Hngt]; simpl.
    + split; [lia|]. split.
      * intros j t' Hj Hpj.
        destruct (Z.eq_dec j hi) as [->|Hne].
        -- rewrite Ht in Hpj. injection Hpj as <-. lia.
        -- assert (score_of t' <= snd b)
                by (apply (Hall j t'); [lia | assumption]); lia.
      * split.
        -- destruct (fst b); [destruct Hbest; lia | lia].
        -- exists hi, t. repeat split; try lia; try assumption.
           ++ intros j t' Hj Hpj.
              destruct (Z.eq_dec j hi) as [->|Hne].
              ** rewrite Ht in Hpj. injection Hpj as <-. lia.
              ** assert (score_of t' <= snd b)
                by (apply (Hall j t'); [lia | assumption]); lia.
           ++ intros j t' Hj Hpj. assert (score_of t' <= snd b)
                by (apply (Hall j t'); [lia | assumption]); lia.
    + assert (Hall' : forall j t', lo <= j < hi + 1 ->
                page_at doc j = Some t' -> score_of t' <= snd b).
      { intros j t' Hj Hpj.
        destruct (Z.eq_dec j hi) as [->|Hne].
        - rewrite Ht in Hpj. injection Hpj as <-. lia.
        - apply (Hall j t'); [lia | assumption]. }
      split; [lia|]. split; [exact Hall'|].
      destruct (fst b) as [m|]; [|assumption].
      destruct Hbest as (Hpos & i & ti & Hm & (Hi & Hpi & Hmax & Hfirst) & Hs).
      split; [assumption|]. exists i, ti.
      repeat split; try lia; try assumption.
      intros j t' Hj Hpj. rewrite Hs. now apply (Hall' j t').
  - split; [lia|]. split.
    + intros j t' Hj Hpj.
      destruct (Z.eq_dec j hi) as [->|Hne]; [congruence|].
      apply (Hall j t'); [lia | assumption].
    + destruct (fst b) as [m|]; [|assumption].
      destruct Hbest as (Hpos & i & ti & Hm & (Hi & Hpi & Hmax & Hfirst) & Hs).
      split; [assumption|]. exists i, ti.
      repeat split; try lia; try assumption.
      intros j t' Hj Hpj.
      destruct (Z.eq_dec j hi) as [->|Hne]; [congruence|].
      apply (Hmax j t'); [lia | assumption].
Qed.

Lemma scan_window_scanned lo hi :
  scanned score_of mark doc lo hi (scan_window score_of mark doc lo hi).
Proof.
  destruct (Z.le_gt_cases hi lo) as [Hle|Hlt].
  - unfold scanned, scan_window, top_score, window_scores.
    rewrite py_range_empty by assumption. simpl.
    repeat split; try reflexivity. intros; lia.
  - assert (Hnat : forall n, scanned score_of mark doc lo (lo + Z.of_nat n)
              (scan_window score_of mark doc lo (lo + Z.of_nat n))).
    { induction n.
      - unfold scanned, scan_window, top_score, window_scores.
        rewrite py_range_empty by lia. simpl.
        repeat split; try reflexivity. intros; lia.
      - replace (lo + Z.of_nat (S n)) with (lo + Z.of_nat n + 1) by lia.
        rewrite scan_window_snoc by lia.
        apply scanned_step; [lia | assumption]. }
    specialize (Hnat (Z.to_nat (hi - lo))).
    now replace (lo + Z.of_nat (Z.to_nat (hi - lo))) with hi in Hnat by lia.
Qed.

(** The first top page is unique. *)
Lemma first_top_unique lo hi i t i' t' :
  first_top score_of doc lo hi i t -> first_top score_of doc lo hi i' t' ->
  i = i' /\ t = t'.
Proof.
  intros (Hi & Hp & Hmax & Hfirst) (Hi' & Hp' & Hmax' & Hfirst').
  assert (i = i').
  { destruct (Z.lt_trichotomy i i') as [Hlt|[Heq|Hgt]]; [|assumption|].
    - specialize (Hfirst' i t ltac:(lia) Hp).
      specialize (Hmax i' t' Hi' Hp'). lia.
    - specialize (Hfirst i' t' ltac:(lia) Hp').
      specialize (Hmax' i t Hi Hp). lia. }
  subst i'. split; [reflexivity | congruence].
Qed.

Lemma scan_window_score lo hi :
  snd (scan_window score_of mark doc lo hi) = top_score score_of doc lo hi.
Proof. apply scan_window_scanned. Qed.

Lemma scan_window_first lo hi i t :
  first_top score_of doc lo hi i t -> 0 < score_of t ->
  scan_window score_of mark doc lo hi = (Some (mark i), score_of t).
Proof.
  intros Hft Hpos.
  destruct (scan_window_scanned lo hi) as (Htop & Hall & Hbest).
  destruct (scan_window score_of mark doc lo hi) as [bp bs]. simpl in *.
  pose proof Hft as (Hi & Hp & Hmax & Hfirst).
  destruct bp as [m|].
  - destruct Hbest as (Hbs & i' & t' & Hm & Hft' & Hs).
    destruct (first_top_unique lo hi i t i' t' Hft Hft') as [-> ->].
    rewrite Hm, Hs. reflexivity.
  - specialize (Hall i t Hi Hp). lia.
Qed.

Lemma scan_window_positive lo hi :
  0 < top_score score_of doc lo hi ->
  exists i t, first_top score_of doc lo hi i t /\
              score_of t = top_score score_of doc lo hi /\
              scan_window score_of mark doc lo hi
              = (Some (mark i), score_of t).
Proof.
  intros Hpos.
  destruct (scan_window_scanned lo hi) as (Htop & Hall & Hbest).
  destruct (scan_window score_of mark doc lo hi) as [bp bs]. simpl in *.
  destruct bp as [m|]; [|lia].
  destruct Hbest as (Hbs & i & t & Hm & Hft & Hs).
  exists i, t. split; [assumption|]. split; [lia|].
  rewrite Hm, Hs. reflexivity.
Qed.

Lemma scan_window_none lo hi :
  top_score score_of doc lo hi <= 0 ->
  scan_window score_of mark doc lo hi = (None, 0).
Proof.
  intros Hle.
  destruct (scan_window_scanned lo hi) as (Htop & Hall & Hbest).
  destruct (scan_window score_of mark doc lo hi) as [bp bs]. simpl in *.
  pose proof (fold_max_nonneg (window_scores score_of doc lo hi)) as Hnn.
  fold (top_score score_of doc lo hi) in Hnn.
  destruct bp as [m|].
  - destruct Hbest; lia.
  - rewrite Hbest. reflexivity.
Qed.

End Scan.

(** ** Offset detector and chapter locator *)

Lemma find_chapter_actual_pages_map doc chapters :
  find_chapter_actual_pages doc chapters
  = (map (fun c => fst (locate_chapter doc c)) chapters,
     flat_map (fun c => snd (locate_chapter doc c)) chapters).
Proof.
  induction chapters as [|c rest IH]; simpl; [reflexivity|].
  rewrite IH. destruct (locate_chapter doc c). reflexivity.
Qed.

(** C5. Offset detector: with a best score of at least 30 over the window,
    the offset is (index of the best page + 1) minus the declared page of
    the first chapter; below 30 the offset is 0, the low-confidence warning
    is printed, and [main] goes on to locate the chapters with their
    declared pages unchanged. *)
Theorem offset_detector_threshold (doc : pdf) (c : chapter)
        (rest : list chapter) :
  let score_of := offset_score (number c) (title c) in
  let lo := fst (offset_window doc c) in
  let hi := snd (offset_window doc c) in
  let top := top_score score_of doc lo hi in
  (30 <= top ->
   exists i t,
     first_top score_of doc lo hi i t /\ score_of t = top /\
     auto_detect_page_offset doc (c :: rest)
     = (i + 1 - page c, [OffsetDetected (i + 1) top (i + 1 - page c)]))
  /\ (top < 30 ->
      auto_detect_page_offset doc (c :: rest) = (0, [WarnOffsetNotDetected]))
  /\ (top < 30 -> extract_toc_from_pdf doc = c :: rest ->
      resolve_chapters doc
      = (WarnOffsetNotDetected
           :: snd (find_chapter_actual_pages doc (c :: rest)),
         sort_by_actual_page
           (fst (find_chapter_actual_pages doc (c :: rest))))).
Proof.
  intros score_of lo hi top.
  assert (Hlow : top < 30 ->
            auto_detect_page_offset doc (c :: rest)
            = (0, [WarnOffsetNotDetected])).
  { intros Hlt. unfold auto_detect_page_offset.
    change (Z.max 0 (page c - 20)) with lo.
    change (Z.min (pages_len doc) (page c + 30)) with hi.
    change (offset_score (number c) (title c)) with score_of.
    destruct (Z_lt_le_dec 0 top) as [Hpos|Hnon].
    - destruct (scan_window_positive score_of (fun i => i) doc lo hi Hpos)
        as (i & t & _ & Hs & ->).
      fold top in Hs. rewrite Hs.
      destruct (Z.geb_spec top 30); [lia | reflexivity].
    - now rewrite (scan_window_none score_of (fun i => i) doc lo hi Hnon). }
  split; [|split].
  - intros Hge. unfold auto_detect_page_offset.
    change (Z.max 0 (page c - 20)) with lo.
    change (Z.min (pages_len doc) (page c + 30)) with hi.
    change (offset_score (number c) (title c)) with score_of.
    destruct (scan_window_positive score_of (fun i => i) doc lo hi)
      as (i & t & Hft & Hs & Hscan); [fold top; lia|].
    exists i, t. split; [assumption|]. split; [assumption|].
    rewrite Hscan. fold top in Hs. rewrite Hs.
    destruct (Z.geb_spec top 30); [reflexivity | lia].
  - exact Hlow.
  - intros Hlt Htoc. unfold resolve_chapters.
    rewrite Htoc, (Hlow Hlt). unfold apply_page_offset. simpl Z.eqb. cbv iota.
    destruct (find_chapter_actual_pages doc (c :: rest)). reflexivity.
Qed.


(** C8. Tie-break, in both detectors: a later page whose score does not
    exceed that of an earlier page of the window is never the one selected;
    the page that is selected is the first one that attains the top score
    of the window, and it gives the offset (top score at least 30) and the
    actual page of an entry (top score at least 100). *)
Theorem first_page_wins_ties (doc : pdf) (c : chapter) (rest : list chapter) :
  (forall score_of mark lo hi i j ti tj,
     (forall a b, mark a = mark b -> a = b) ->
     lo <= i < j -> j < hi ->
     page_at doc i = Some ti -> page_at doc j = Some tj ->
     score_of tj <= score_of ti ->
     fst (scan_window score_of mark doc lo hi) <> Some (mark j))
  /\ (forall i t,
        first_top (offset_score (number c) (title c)) doc
                  (fst (offset_window doc c)) (snd (offset_window doc c)) i t ->
        30 <= offset_score (number c) (title c) t ->
        fst (auto_detect_page_offset doc (c :: rest)) = i + 1 - page c)
  /\ (forall i t,
        first_top (locate_score (number c) (title c)) doc
                  (fst (locate_window doc c)) (snd (locate_window doc c)) i t ->
        100 <= locate_score (number c) (title c) t ->
        fst (locate_chapter doc c) = set_actual_page c (i + 1)).
Proof.
  split; [|split].
  - intros score_of mark lo hi i j ti tj Hinj Hij Hj Hpi Hpj Hle Hsel.
    destruct (scan_window_scanned score_of mark doc lo hi)
      as (_ & _ & Hbest).
    rewrite Hsel in Hbest.
    destruct Hbest as (_ & j' & t' & Hm & (Hj' & Hpj' & _ & Hfirst) & _).
    apply Hinj in Hm. subst j'.
    assert (t' = tj) by congruence. subst t'.
    specialize (Hfirst i ti ltac:(lia) Hpi). lia.
  - intros i t Hft Hge. unfold auto_detect_page_offset.
    change (Z.max 0 (page c - 20)) with (fst (offset_window doc c)).
    change (Z.min (pages_len doc) (page c + 30))
      with (snd (offset_window doc c)).
    rewrite (scan_window_first _ (fun i => i) doc _ _ i t Hft) by lia.
    destruct (Z.geb_spec (offset_score (number c) (title c) t) 30);
      [reflexivity | lia].
  - intros i t Hft Hge. unfold locate_chapter.
    change (Z.max 0 (page c - 5)) with (fst (locate_window doc c)).
    change (Z.min (pages_len doc) (page c + 15))
      with (snd (locate_window doc c)).
    rewrite (scan_window_first _ (fun i => i + 1) doc _ _ i t Hft) by lia.
    destruct (Z.geb_spec (locate_score (number c) (title c) t) 100);
      [reflexivity | lia].
Qed.

(** ** Strings and the matcher *)

Lemma sapp_assoc (a b c : string) :
  ((a ++ b) ++ c)%string = (a ++ (b ++ c))%string.
Proof. induction a; simpl; congruence. Qed.

Lemma slength_app (a b : string) :
  String.length (a ++ b) = (String.length a + String.length b)%nat.
Proof. induction a; simpl; congruence. Qed.

Lemma substring_prefix (a b : string) :
  String.substring 0 (String.length a) (a ++ b) = a.
Proof.
  induction a; simpl.
  - destruct b; reflexivity.
  - now rewrite IHa.
Qed.

Lemma consumed_app (a b : string) : Re.consumed (a ++ b) b = a.
Proof.
  unfold Re.consumed. rewrite slength_app.
  replace (String.length a + String.length b - String.length b)%nat
    with (String.length a) by lia.
  apply substring_prefix.
Qed.


Lemma rep_greedy_inv {R : Type} p (k : string -> option R) s :
  forall lo r,
    Re.rep_greedy p lo s k = Some r ->
    exists a b, s = (a ++ b)%string /\ Re.all_chars p a = true /\
                (lo <= String.length a)%nat /\ k b = Some r.
Proof.
  induction s as [|c s IH]; intros lo r H; simpl in H.
  - destruct (Nat.eqb_spec lo 0); [|discriminate].
    exists EmptyString, EmptyString. repeat split; simpl; try lia; assumption.
  - destruct (p c) eqn:Hp.
    + destruct (Re.rep_greedy p (Nat.pred lo) s k) as [r0|] eqn:Hrec.
      * injection H as <-.
        apply IH in Hrec as (a & b & -> & Ha & Hlo & Hk).
        exists (String c a), b. simpl. rewrite Hp, Ha.
        repeat split; try lia; assumption.
      * destruct (Nat.eqb_spec lo 0); [|discriminate].
        exists EmptyString, (String c s).
        repeat split; simpl; try lia; assumption.
    + destruct (Nat.eqb_spec lo 0); [|discriminate].
      exists EmptyString, (String c s).
      repeat split; simpl; try lia; assumption.
Qed.

Lemma rep_lazy_inv {R : Type} p (k : string -> option R) s :
  forall lo r,
    Re.rep_lazy p lo s k = Some r ->
    exists a b, s = (a ++ b)%string /\ Re.all_chars p a = true /\
                (lo <= String.length a)%nat /\ k b = Some r.
Proof.
  induction s as [|c s IH]; intros lo r H; destruct lo as [|lo];
    simpl in H.
  - destruct (k EmptyString) eqn:Hk; [|discriminate]. injection H as <-.
    exists EmptyString, EmptyString. repeat split; simpl; try lia; assumption.
  - discriminate.
  - destruct (k (String c s)) eqn:Hk.
    + injection H as <-. exists EmptyString, (String c s).
      repeat split; simpl; try lia; assumption.
    + destruct (p c) eqn:Hp; [|discriminate].
      apply IH in H as (a & b & -> & Ha & Hlo & Hkb).
      exists (String c a), b. simpl. rewrite Hp, Ha.
      repeat split; try lia; assumption.
  - destruct (p c) eqn:Hp; [|discriminate].
    apply IH in H as (a & b & -> & Ha & Hlo & Hkb).
    exists (String c a), b. simpl. rewrite Hp, Ha.
    repeat split; try lia; assumption.
Qed.

(** A match reads a string of the pattern's language, records only groups
    of the pattern, and hands the rest to its continuation. *)
Lemma rmatch_inv {R : Type} (r : Re.regex) :
  forall s cs (k : string -> Re.caps -> option R) x,
    Re.rmatch r s cs k = Some x ->
    exists a s' added,
      s = (a ++ s')%string /\ Re.lang r a /\
      Forall (fun ic => In (fst ic) (Re.groups r)) added /\
      k s' (added ++ cs) = Some x.
Proof.
  induction r as [p|g lo p|r1 IH1 r2 IH2|r1 IH1|i r1 IH1|];
    intros s cs k x H; simpl in H.
  - destruct s as [|c s]; [discriminate|].
    destruct (p c) eqn:Hp; [|discriminate].
    exists (String c EmptyString), s, []. simpl.
    repeat split; try assumption; [|constructor].
    exists c. now split.
  - destruct g.
    + apply rep_greedy_inv in H as (a & b & -> & Ha & Hlo & Hk).
      exists a, b, []. simpl. repeat split; try assumption. constructor.
    + apply rep_lazy_inv in H as (a & b & -> & Ha & Hlo & Hk).
      exists a, b, []. simpl. repeat split; try assumption. constructor.
  - apply IH1 in H as (a1 & s1 & add1 & -> & Hl1 & Hg1 & H).
    apply IH2 in H as (a2 & s2 & add2 & -> & Hl2 & Hg2 & H).
    exists (a1 ++ a2)%string, s2, (add2 ++ add1). simpl.
    split; [now rewrite sapp_assoc|].
    split; [exists a1, a2; now repeat split|].
    split; [|now rewrite <- app_assoc].
    apply Forall_app. split.
    + eapply Forall_impl; [|exact Hg2]. intros ic Hic.
      apply in_or_app. now right.
    + eapply Forall_impl; [|exact Hg1]. intros ic Hic.
      apply in_or_app. now left.
  - destruct (Re.rmatch r1 s cs k) as [y|] eqn:Hm.
    + injection H as <-.
      apply IH1 in Hm as (a & s' & added & -> & Hl & Hg & Hk).
      exists a, s', added. repeat split; try assumption. now right.
    + exists EmptyString, s, []. simpl.
      repeat split; try assumption; [now left | constructor].
  - apply IH1 in H as (a & s' & added & -> & Hl & Hg & Hk).
    exists a, s', ((i, Re.consumed (a ++ s') s') :: added). simpl.
    repeat split; try assumption.
    constructor; [now left|].
    eapply Forall_impl; [|exact Hg]. intros ic Hic. now right.
  - exists EmptyString, s, []. simpl.
    assert (Hk : k s cs = Some x).
    { destruct s as [|c [|d s]]; try assumption; try discriminate.
      destruct (Ascii.eqb c PyStr.newline); [assumption | discriminate]. }
    repeat split; try assumption. constructor.
Qed.


(** ** TOC lines *)











Lemma firstn_In_nth {A : Type} (x : A) n l :
  In x (firstn n l) <-> exists i, (i < n)%nat /\ nth_error l i = Some x.
Proof.
  revert l. induction n as [|n IH]; intros l; simpl.
  - split; [intros [] | intros (i & Hi & _); lia].
  - destruct l as [|y l]; simpl.
    + split; [intros [] | intros (i & _ & Hi); destruct i; discriminate].
    + rewrite IH. split.
      * intros [->|(i & Hi & Hn)].
        -- exists O. split; [lia | reflexivity].
        -- exists (S i). split; [lia | assumption].
      * intros ([|i] & Hi & Hn); simpl in Hn.
        -- left. congruence.
        -- right. exists i. split; [lia | assumption].
Qed.


(** ** The sort *)

Lemma insert_keyed_perm x l : Permutation (insert_keyed x l) (x :: l).
Proof.
  induction l as [|y l IH]; simpl; [reflexivity|].
  destruct (fst x <=? fst y); [reflexivity|].
  rewrite IH. apply perm_swap.
Qed.

Lemma insert_keyed_sorted x l :
  StronglySorted key_le l -> StronglySorted key_le (insert_keyed x l).
Proof.
  induction 1 as [|y l Hs IH Hy]; simpl.
  - repeat constructor.
  - destruct (Z.leb_spec (fst x) (fst y)) as [Hle|Hgt].
    + constructor; [now constructor|].
      constructor; [exact Hle|].
      eapply Forall_impl; [|exact Hy]. unfold key_le. intros; lia.
    + constructor; [exact IH|].
      eapply Permutation_Forall;
        [symmetry; apply insert_keyed_perm|].
      constructor; [unfold key_le; lia | exact Hy].
Qed.

Lemma stable_sort_perm l : Permutation (stable_sort l) l.
Proof.
  induction l as [|x l IH]; simpl; [reflexivity|].
  rewrite insert_keyed_perm. now constructor.
Qed.

Lemma stable_sort_sorted l : StronglySorted key_le (stable_sort l).
Proof.
  induction l as [|x l IH]; simpl; [constructor|].
  now apply insert_keyed_sorted.
Qed.

Lemma insert_keyed_filter k x l :
  filter (fun kc : Z * chapter => fst kc =? k) (insert_keyed x l)
  = filter (fun kc : Z * chapter => fst kc =? k) (x :: l).
Proof.
  induction l as [|y l IH]; [reflexivity|].
  simpl insert_keyed.
  destruct (Z.leb_spec (fst x) (fst y)) as [Hle|Hgt]; [reflexivity|].
  change (filter ?f (y :: ?t)) with (if f y then y :: filter f t else filter f t).
  rewrite IH. simpl.
  destruct (Z.eqb_spec (fst x) k), (Z.eqb_spec (fst y) k);
    try reflexivity; lia.
Qed.

(** The sort is stable: entries with the same key keep their order. *)
Lemma stable_sort_filter k l :
  filter (fun kc : Z * chapter => fst kc =? k) (stable_sort l)
  = filter (fun kc : Z * chapter => fst kc =? k) l.
Proof.
  induction l as [|x l IH]; [reflexivity|].
  simpl stable_sort. rewrite insert_keyed_filter. simpl. now rewrite IH.
Qed.

Lemma with_keys_ok chapters :
  forall keyed, with_keys chapters = Ok keyed ->
                map snd keyed = chapters /\ Forall keyed_ok keyed.
Proof.
  induction chapters as [|c rest IH]; intros keyed H; simpl in H.
  - injection H as <-. split; [reflexivity | constructor].
  - unfold get_actual in H.
    destruct (actual_page c) as [p|] eqn:Hp; [|discriminate]. simpl in H.
    destruct (with_keys rest) as [krest|]; [|discriminate]. simpl in H.
    injection H as <-. destruct (IH krest eq_refl) as [Hm Hf].
    split; [simpl; congruence|]. constructor; assumption.
Qed.

Lemma with_keys_total chapters ps :
  map actual_page chapters = map Some ps ->
  with_keys chapters = Ok (combine ps chapters).
Proof.
  revert ps. induction chapters as [|c rest IH]; intros [|p ps] H;
    try discriminate; [reflexivity|].
  simpl in H. injection H as Hc Hrest.
  simpl. unfold get_actual. rewrite Hc. simpl.
  now rewrite (IH ps Hrest).
Qed.

Lemma keyed_pages l :
  Forall keyed_ok l -> map actual_page (map snd l) = map Some (map fst l).
Proof.
  induction 1 as [|kc l Hkc _ IH]; simpl; [reflexivity|].
  unfold keyed_ok in Hkc. congruence.
Qed.

Lemma keyed_filter p l :
  Forall keyed_ok l ->
  filter (on_page p) (map snd l)
  = map snd (filter (fun kc : Z * chapter => fst kc =? p) l).
Proof.
  induction 1 as [|kc l Hkc _ IH]; simpl; [reflexivity|].
  unfold on_page at 1. rewrite Hkc.
  destruct (fst kc =? p); simpl; now rewrite IH.
Qed.

Lemma sorted_keys l :
  StronglySorted key_le l -> StronglySorted Z.le (map fst l).
Proof.
  induction 1 as [|kc l _ IH Hkc]; simpl; constructor; [assumption|].
  apply Forall_map. exact Hkc.
Qed.

(** What [chapters.sort(key=...)] leaves: the same entries, by
    non-decreasing actual page, entries of one page in their former
    order. *)
Lemma sort_by_actual_page_spec chapters sorted :
  sort_by_actual_page chapters = Ok sorted ->
  exists ps,
    map actual_page sorted = map Some ps /\ StronglySorted Z.le ps /\
    Permutation chapters sorted /\
    (forall p, filter (on_page p) sorted = filter (on_page p) chapters).
Proof.
  unfold sort_by_actual_page. intros H.
  destruct (with_keys chapters) as [keyed|] eqn:Hk; [|discriminate].
  simpl in H. injection H as <-.
  destruct (with_keys_ok chapters keyed Hk) as [Hm Hf].
  assert (Hf' : Forall keyed_ok (stable_sort keyed)).
  { eapply Permutation_Forall; [symmetry; apply stable_sort_perm | exact Hf]. }
  exists (map fst (stable_sort keyed)).
  split; [now apply keyed_pages|].
  split; [apply sorted_keys, stable_sort_sorted|].
  split.
  - rewrite <- Hm. apply Permutation_map. symmetry. apply stable_sort_perm.
  - intros p. rewrite keyed_filter by assumption.
    rewrite stable_sort_filter, <- keyed_filter by assumption.
    now rewrite Hm.
Qed.

Lemma sort_by_actual_page_total chapters ps :
  map actual_page chapters = map Some ps ->
  exists sorted, sort_by_actual_page chapters = Ok sorted.
Proof.
  intros H. unfold sort_by_actual_page.
  rewrite (with_keys_total chapters ps H). simpl. eauto.
Qed.

(** ** Boundary resolution *)

Lemma find_end_page_pages p following qs total_pages :
  map actual_page following = map Some qs ->
  find_end_page p following total_pages = Ok (end_of p qs total_pages).
Proof.
  revert qs. induction following as [|c rest IH]; intros [|q qs] H;
    try discriminate; [reflexivity|].
  simpl in H. injection H as Hc Hrest.
  simpl. unfold get_actual. rewrite Hc. simpl.
  destruct (q >? p); [reflexivity | now apply IH].
Qed.

Lemma pages_skipn n chapters ps :
  map actual_page chapters = map Some ps ->
  map actual_page (skipn n chapters) = map Some (skipn n ps).
Proof. intros H. now rewrite <- !skipn_map, H. Qed.

Lemma pages_firstn n chapters ps :
  map actual_page chapters = map Some ps ->
  map actual_page (firstn n chapters) = map Some (firstn n ps).
Proof. intros H. now rewrite <- !firstn_map, H. Qed.

Lemma pages_nth chapters ps i c :
  map actual_page chapters = map Some ps ->
  nth_error chapters i = Some c ->
  exists p, nth_error ps i = Some p /\ actual_page c = Some p.
Proof.
  intros H Hc.
  assert (Hn : nth_error (map actual_page chapters) i = Some (actual_page c))
    by now rewrite nth_error_map, Hc.
  rewrite H, nth_error_map in Hn.
  destruct (nth_error ps i) as [p|]; [|discriminate].
  exists p. split; [reflexivity|]. simpl in Hn. congruence.
Qed.

(** The end page is the page before the nearest later start, or the last
    page of the document. *)
Lemma end_of_cases p qs total_pages :
  (exists n q, nth_error qs n = Some q /\ p < q /\
               (forall m r, (m < n)%nat -> nth_error qs m = Some r -> r <= p) /\
               end_of p qs total_pages = q - 1)
  \/ ((forall m r, nth_error qs m = Some r -> r <= p) /\
      end_of p qs total_pages = total_pages).
Proof.
  induction qs as [|q qs IH]; simpl.
  - right. split; [|reflexivity]. intros [|m] r H; discriminate.
  - destruct (Z.gtb_spec q p) as [Hgt|Hle].
    + left. exists O, q. repeat split; try lia.
    + destruct IH as [(n & q' & Hn & Hq & Hbefore & He)|[Hall He]].
      * left. exists (S n), q'. repeat split; try assumption.
        intros [|m] r Hm Hr; simpl in Hr.
        -- injection Hr as <-. lia.
        -- apply (Hbefore m r); [lia | assumption].
      * right. split; [|assumption].
        intros [|m] r Hr; simpl in Hr.
        -- injection Hr as <-. lia.
        -- now apply (Hall m r).
Qed.

Lemma end_of_boundary ps i p total_pages :
  nth_error ps i = Some p ->
  let e := end_of p (skipn (S i) ps) total_pages in
  (exists j q, next_later ps i j p q /\ e = q - 1)
  \/ (none_later ps i p /\ e = total_pages).
Proof.
  intros Hp e.
  destruct (end_of_cases p (skipn (S i) ps) total_pages)
    as [(n & q & Hn & Hq & Hbefore & He)|[Hall He]].
  - left. exists (S i + n)%nat, q. split; [|exact He].
    rewrite nth_error_skipn in Hn.
    repeat split; try assumption; try lia.
    intros k r Hk Hr. apply (Hbefore (k - S i)%nat r); [lia|].
    rewrite nth_error_skipn. now replace (S i + (k - S i))%nat with k by lia.
  - right. split; [|exact He]. split; [assumption|].
    intros k r Hk Hr. apply (Hall (k - S i)%nat r).
    rewrite nth_error_skipn. now replace (S i + (k - S i))%nat with k by lia.
Qed.

Lemma end_of_lower_bound p qs total_pages :
  p <= total_pages -> p <= end_of p qs total_pages.
Proof. intros H. induction qs as [|q qs IH]; simpl; [lia|].
  destruct (Z.gtb_spec q p); lia.
Qed.

Lemma end_of_increasing p q qs total_pages :
  p < q -> end_of p (q :: qs) total_pages = q - 1.
Proof. intros H. simpl. destruct (Z.gtb_spec q p); [reflexivity | lia]. Qed.

Lemma resolve_range_pages total_pages c following p qs :
  actual_page c = Some p ->
  map actual_page following = map Some qs ->
  resolve_range total_pages c following
  = Ok (p - 1, end_of p qs total_pages).
Proof.
  intros Hc Hq. unfold resolve_range, get_actual. rewrite Hc. simpl.
  now rewrite (find_end_page_pages p following qs total_pages Hq).
Qed.

(** ** The splitter *)

Lemma add_pages_in_range total_pages l :
  Forall (fun x => 0 <= x < total_pages) l ->
  add_pages total_pages l = Ok (map Z.to_nat l).
Proof.
  induction 1 as [|x l Hx _ IH]; simpl; [reflexivity|].
  destruct (Z.ltb_spec x total_pages); [|lia].
  unfold py_index.
  destruct (Z.ltb_spec x 0); [lia|].
  destruct (Z.ltb_spec x 0); [lia|].
  destruct (Z.leb_spec total_pages x); [lia|]. simpl.
  now rewrite IH.
Qed.

Lemma add_pages_raises total_pages l e :
  add_pages total_pages l = Raise e -> e = IndexError.
Proof.
  induction l as [|x l IH]; simpl; [discriminate|].
  destruct (x <? total_pages); [|exact IH].
  unfold py_index.
  destruct ((_ <? 0) || _)%bool; simpl; [congruence|].
  destruct (add_pages total_pages l); simpl; [discriminate|].
  intros H. injection H as <-. now apply IH.
Qed.

Lemma py_range_Forall a b (P : Z -> Prop) :
  (forall x, a <= x < b -> P x) -> Forall P (py_range a b).
Proof.
  intros H. apply Forall_forall. intros x Hx. apply H.
  now apply py_range_In.
Qed.

(** The body of the splitter's loop on an entry of page [p], when the
    following entries have the pages [qs]: the entry is skipped when it
    starts beyond the document, and otherwise its pages are copied; the
    check for an invalid range never fires. *)
Lemma split_chapter_pages total_pages c following p qs :
  actual_page c = Some p ->
  map actual_page following = map Some qs ->
  split_chapter total_pages c following
  = if p >? total_pages then Ok (SkipExceedsTotal (number c) p)
    else
      let e := Z.min (end_of p qs total_pages) total_pages in
      copied <- add_pages total_pages (py_range (p - 1) e) ;;
      Ok (Saved (output_filename c) (title c) p e (e - (p - 1)) copied).
Proof.
  intros Hc Hq. unfold split_chapter.
  rewrite (resolve_range_pages total_pages c following p qs Hc Hq).
  simpl. unfold validate_range.
  replace (p - 1 + 1) with p by lia.
  destruct (Z.gtb_spec p total_pages) as [Hgt|Hle].
  - destruct (Z.geb_spec (p - 1) total_pages); [reflexivity | lia].
  - destruct (Z.geb_spec (p - 1) total_pages); [lia|].
    pose proof (end_of_lower_bound p qs total_pages Hle) as Hlow.
    destruct (Z.gtb_spec (end_of p qs total_pages) total_pages) as [Hclip|Hnot].
    + replace (Z.min (end_of p qs total_pages) total_pages)
        with total_pages by lia.
      destruct (Z.geb_spec (p - 1) total_pages); [lia | reflexivity].
    + replace (Z.min (end_of p qs total_pages) total_pages)
        with (end_of p qs total_pages) by lia.
      destruct (Z.geb_spec (p - 1) (end_of p qs total_pages));
        [lia | reflexivity].
Qed.

(** An entry inside the document, on a positive page: its pages are
    copied. *)
Lemma split_chapter_saved total_pages c following p qs :
  actual_page c = Some p ->
  map actual_page following = map Some qs ->
  1 <= p <= total_pages ->
  split_chapter total_pages c following
  = Ok (saved_event c p (Z.min (end_of p qs total_pages) total_pages)).
Proof.
  intros Hc Hq Hp.
  rewrite (split_chapter_pages total_pages c following p qs Hc Hq).
  destruct (Z.gtb_spec p total_pages); [lia|]. cbv zeta.
  rewrite add_pages_in_range; [reflexivity|].
  apply py_range_Forall. intros x Hx. lia.
Qed.

Lemma increasing_end p qs total_pages :
  StronglySorted Z.lt (p :: qs) ->
  end_of p qs total_pages
  = match qs with q :: _ => q - 1 | [] => total_pages end.
Proof.
  intros H. destruct qs as [|q qs]; [reflexivity|].
  apply end_of_increasing.
  apply StronglySorted_inv in H as [_ H]. now inversion H.
Qed.

Lemma increasing_ranges_nth ps total_pages :
  StronglySorted Z.lt ps ->
  forall i p, nth_error ps i = Some p ->
    nth_error (increasing_ranges ps total_pages) i
    = Some (p, end_of p (skipn (S i) ps) total_pages).
Proof.
  induction 1 as [|q qs Hs IH Hq]; intros [|i] p Hp; try discriminate.
  - simpl in Hp. injection Hp as <-. simpl.
    now rewrite increasing_end by (now constructor).
  - simpl in Hp. simpl increasing_ranges. simpl nth_error.
    now rewrite (IH i p Hp).
Qed.

Lemma split_loop_increasing total_pages chapters :
  forall ps,
    map actual_page chapters = map Some ps ->
    StronglySorted Z.lt ps ->
    Forall (fun p => 1 <= p <= total_pages) ps ->
    split_loop total_pages chapters
    = (map (fun cr => saved_event (fst cr) (fst (snd cr)) (snd (snd cr)))
           (combine chapters (increasing_ranges ps total_pages)),
       None).
Proof.
  induction chapters as [|c following IH]; intros [|p qs] Hps Hinc Hin;
    try discriminate; [reflexivity|].
  simpl in Hps. injection Hps as Hc Hq.
  pose proof (StronglySorted_inv Hinc) as [Hinc' Hlt].
  pose proof (Forall_inv Hin) as Hp. pose proof (Forall_inv_tail Hin) as Hin'.
  simpl split_loop.
  rewrite (split_chapter_saved total_pages c following p qs Hc Hq Hp).
  rewrite (IH qs Hq Hinc' Hin'). simpl. do 3 f_equal.
  rewrite increasing_end by assumption.
  destruct qs as [|q qs]; [lia|].
  pose proof (Forall_inv Hin') as Hq'. simpl in Hq'.
  pose proof (Forall_inv Hlt) as Hpq. simpl in Hpq. lia.
Qed.

(** C1. Boundary resolver: once every entry has its actual page and the
    entries are sorted by it (stably), entry [i] gets the range that starts
    at its actual page and ends on the page before the nearest following
    entry with a strictly greater actual page, or on the last page of the
    document when there is none.  For strictly increasing actual pages
    p1 < ... < pn the ranges are [p1, p2-1], ..., [pn, T], and these are
    the ranges the splitter writes when the pages lie in the document. *)
Theorem boundary_resolution (chapters sorted : list chapter)
        (total_pages : Z) :
  sort_by_actual_page chapters = Ok sorted ->
  exists ps,
    map actual_page sorted = map Some ps /\
    StronglySorted Z.le ps /\
    Permutation chapters sorted /\
    (forall p, filter (on_page p) sorted = filter (on_page p) chapters) /\
    (forall i c,
       nth_error sorted i = Some c ->
       exists p e,
         actual_page c = Some p /\ nth_error ps i = Some p /\
         resolve_range total_pages c (skipn (S i) sorted) = Ok (p - 1, e) /\
         ((exists j q, next_later ps i j p q /\ e = q - 1)
          \/ (none_later ps i p /\ e = total_pages))) /\
    (StronglySorted Z.lt ps ->
     (forall i c,
        nth_error sorted i = Some c ->
        exists p e,
          nth_error (increasing_ranges ps total_pages) i = Some (p, e) /\
          resolve_range total_pages c (skipn (S i) sorted) = Ok (p - 1, e))
     /\ (Forall (fun p => 1 <= p <= total_pages) ps ->
         split_pdf_by_chapters total_pages sorted None
         = (map (fun cr => saved_event (fst cr) (fst (snd cr)) (snd (snd cr)))
                (combine sorted (increasing_ranges ps total_pages)),
            None))).
Proof.
  intros Hsort.
  destruct (sort_by_actual_page_spec chapters sorted Hsort)
    as (ps & Hps & Hsorted & Hperm & Hstable).
  exists ps. repeat (split; [assumption|]).
  assert (Hrange : forall i c,
            nth_error sorted i = Some c ->
            exists p, actual_page c = Some p /\ nth_error ps i = Some p /\
              resolve_range total_pages c (skipn (S i) sorted)
              = Ok (p - 1, end_of p (skipn (S i) ps) total_pages)).
  { intros i c Hc.
    destruct (pages_nth sorted ps i c Hps Hc) as (p & Hp & Hcp).
    exists p. repeat split; try assumption.
    apply resolve_range_pages; [assumption|]. now apply pages_skipn. }
  split.
  - intros i c Hc. destruct (Hrange i c Hc) as (p & Hcp & Hp & Hr).
    exists p, (end_of p (skipn (S i) ps) total_pages).
    repeat split; try assumption.
    now apply end_of_boundary.
  - intros Hinc. split.
    + intros i c Hc. destruct (Hrange i c Hc) as (p & Hcp & Hp & Hr).
      exists p, (end_of p (skipn (S i) ps) total_pages).
      split; [now apply increasing_ranges_nth | assumption].
    + intros Hin. unfold split_pdf_by_chapters. simpl limit_chapters.
      now apply split_loop_increasing.
Qed.

Lemma boundary_resolution_witness :
  exists ps, map actual_page sample_sorted = map Some ps /\
             StronglySorted Z.le ps.
Proof.
  destruct (boundary_resolution sample_chapters sample_sorted 20 eq_refl)
    as (ps & Hps & Hsorted & _).
  exists ps. split; assumption.
Defined.

Lemma split_chapter_positive total_pages c following p qs :
  actual_page c = Some p ->
  map actual_page following = map Some qs ->
  1 <= p ->
  split_chapter total_pages c following
  = Ok (split_event total_pages c p qs).
Proof.
  intros Hc Hq Hp. unfold split_event.
  destruct (Z.gtb_spec p total_pages) as [Hgt|Hle].
  - rewrite (split_chapter_pages total_pages c following p qs Hc Hq).
    destruct (Z.gtb_spec p total_pages); [reflexivity | lia].
  - apply split_chapter_saved; try assumption. lia.
Qed.

(** With positive pages the splitter goes through every entry: one event
    per entry, in order. *)
Lemma split_loop_positive total_pages chapters :
  forall ps,
    map actual_page chapters = map Some ps ->
    Forall (fun p => 1 <= p) ps ->
    snd (split_loop total_pages chapters) = None /\
    forall i c, nth_error chapters i = Some c ->
      exists p, actual_page c = Some p /\
        nth_error (fst (split_loop total_pages chapters)) i
        = Some (split_event total_pages c p (skipn (S i) ps)).
Proof.
  induction chapters as [|c following IH]; intros [|p qs] Hps Hpos;
    try discriminate.
  - split; [reflexivity|]. intros [|i] c H; discriminate.
  - simpl in Hps. injection Hps as Hc Hq.
    pose proof (Forall_inv Hpos) as Hp.
    pose proof (Forall_inv_tail Hpos) as Hpos'.
    destruct (IH qs Hq Hpos') as [Hnone Hnth].
    simpl split_loop.
    rewrite (split_chapter_positive total_pages c following p qs Hc Hq Hp).
    destruct (split_loop total_pages following) as [evs status].
    simpl in *. split; [assumption|].
    intros [|i] c' Hc'; simpl in Hc'.
    + injection Hc' as <-. exists p. split; [assumption | reflexivity].
    + exact (Hnth i c' Hc').
Qed.

Lemma sorted_nth ps :
  StronglySorted Z.le ps ->
  forall a b x y, (a <= b)%nat ->
    nth_error ps a = Some x -> nth_error ps b = Some y -> x <= y.
Proof.
  induction 1 as [|p ps _ IH Hp]; intros a b x y Hab Ha Hb.
  - destruct a; discriminate.
  - destruct a as [|a], b as [|b]; simpl in Ha, Hb; try lia.
    + injection Ha as <-. injection Hb as <-. lia.
    + injection Ha as <-. apply nth_error_In in Hb.
      rewrite Forall_forall in Hp. now apply Hp.
    + apply (IH a b); [lia | assumption | assumption].
Qed.

Lemma end_of_skip p l1 l2 total_pages :
  Forall (fun r => r <= p) l1 ->
  end_of p (l1 ++ l2) total_pages = end_of p l2 total_pages.
Proof.
  induction 1 as [|r l1 Hr _ IH]; simpl; [reflexivity|].
  destruct (Z.gtb_spec r p); [lia | assumption].
Qed.

(** In a sorted list, two entries of the same page look at the same later
    entries. *)
Lemma end_of_same_page ps total_pages i j p :
  StronglySorted Z.le ps -> (i < j)%nat ->
  nth_error ps i = Some p -> nth_error ps j = Some p ->
  end_of p (skipn (S i) ps) total_pages
  = end_of p (skipn (S j) ps) total_pages.
Proof.
  intros Hs Hij Hi Hj.
  rewrite <- (firstn_skipn (j - i) (skipn (S i) ps)).
  rewrite skipn_skipn.
  replace (j - i + S i)%nat with (S j) by lia.
  apply end_of_skip. apply Forall_forall. intros r Hr.
  apply firstn_In_nth in Hr as (k & Hk & Hn).
  rewrite nth_error_skipn in Hn.
  apply (sorted_nth ps Hs (S i + k) j r p); [lia | assumption | assumption].
Qed.

(** C10. Entries that resolve to the same actual page: none is removed as
    a duplicate; each gets the same range, from that page to the page
    before the next strictly greater actual page (or to the last page of
    the document), and for a page inside the document the splitter writes
    one artifact per entry, all with the same physical pages. *)
Theorem duplicates_share_range (chapters sorted : list chapter)
        (total_pages : Z) :
  sort_by_actual_page chapters = Ok sorted ->
  exists ps,
    map actual_page sorted = map Some ps /\
    (forall p, filter (on_page p) sorted = filter (on_page p) chapters) /\
    forall i j ci cj p,
      (i < j)%nat ->
      nth_error sorted i = Some ci -> nth_error sorted j = Some cj ->
      actual_page ci = Some p -> actual_page cj = Some p ->
      exists e,
        resolve_range total_pages ci (skipn (S i) sorted) = Ok (p - 1, e) /\
        resolve_range total_pages cj (skipn (S j) sorted) = Ok (p - 1, e) /\
        ((exists k q, next_later ps j k p q /\ e = q - 1)
         \/ (none_later ps j p /\ e = total_pages)) /\
        (Forall (fun q => 1 <= q) ps -> p <= total_pages ->
         let run := split_pdf_by_chapters total_pages sorted None in
         let e' := Z.min e total_pages in
         snd run = None /\
         nth_error (fst run) i = Some (saved_event ci p e') /\
         nth_error (fst run) j = Some (saved_event cj p e')).
Proof.
  intros Hsort.
  destruct (sort_by_actual_page_spec chapters sorted Hsort)
    as (ps & Hps & Hsorted & _ & Hstable).
  exists ps. split; [assumption|]. split; [assumption|].
  intros i j ci cj p Hij Hci Hcj Hpi Hpj.
  destruct (pages_nth sorted ps i ci Hps Hci) as (pi & Hni & Hpi').
  destruct (pages_nth sorted ps j cj Hps Hcj) as (pj & Hnj & Hpj').
  assert (pi = p) by congruence. assert (pj = p) by congruence. subst pi pj.
  pose proof (end_of_same_page ps total_pages i j p Hsorted Hij Hni Hnj)
    as Hsame.
  exists (end_of p (skipn (S j) ps) total_pages).
  split; [|split; [|split]].
  - rewrite <- Hsame.
    apply resolve_range_pages; [assumption | now apply pages_skipn].
  - apply resolve_range_pages; [assumption | now apply pages_skipn].
  - now apply end_of_boundary.
  - intros Hpos Hle run e'. unfold run, split_pdf_by_chapters.
    simpl limit_chapters.
    destruct (split_loop_positive total_pages sorted ps Hps Hpos)
      as [Hnone Hnth].
    split; [assumption|].
    destruct (Hnth i ci Hci) as (pi & Hpi2 & Hei).
    destruct (Hnth j cj Hcj) as (pj & Hpj2 & Hej).
    assert (pi = p) by congruence. assert (pj = p) by congruence. subst pi pj.
    rewrite Hei, Hej. unfold split_event, e'.
    destruct (Z.gtb_spec p total_pages); [lia|].
    rewrite Hsame. split; reflexivity.
Qed.

Lemma duplicates_share_range_witness :
  exists ps, map actual_page sample_duplicates_sorted = map Some ps.
Proof.
  destruct (duplicates_share_range sample_duplicates
              sample_duplicates_sorted 20 eq_refl) as (ps & Hps & _).
  exists ps. exact Hps.
Defined.

Example duplicates_example :
  split_pdf_by_chapters 20 sample_duplicates_sorted None
  = ([Saved "micropython-docs1-1.pdf" "T" 4 8 5 [3; 4; 5; 6; 7]%nat;
      Saved "micropython-docs1-2.pdf" "T" 4 8 5 [3; 4; 5; 6; 7]%nat;
      Saved "micropython-docs2-1.pdf" "T" 9 20 12
            [8; 9; 10; 11; 12; 13; 14; 15; 16; 17; 18; 19]%nat],
     None).
Proof. vm_compute. reflexivity. Qed.

Lemma validate_range_invalid total_pages s e e' :
  validate_range total_pages s e = InvalidRange e' <->
  s < total_pages /\ e' = Z.min e total_pages /\ e' <= s.
Proof.
  unfold validate_range.
  destruct (Z.geb_spec s total_pages) as [Hge|Hlt].
  - split; [discriminate | lia].
  - destruct (Z.gtb_spec e total_pages) as [Hclip|Hnot].
    + destruct (Z.geb_spec s total_pages); [lia|].
      split; [discriminate | lia].
    + destruct (Z.geb_spec s e) as [Hse|Hse].
      * split.
        -- intros H. injection H as <-. lia.
        -- intros (_ & -> & _). f_equal. lia.
      * split; [discriminate | lia].
Qed.

Lemma split_chapter_not_invalid total_pages c following n a b :
  split_chapter total_pages c following <> Ok (SkipInvalidRange n a b).
Proof.
  unfold split_chapter, resolve_range, get_actual.
  destruct (actual_page c) as [p|]; simpl; [|discriminate].
  destruct (find_end_page p following total_pages) as [e|] eqn:He; simpl;
    [|discriminate].
  assert (Hlow : p <= total_pages -> p <= e).
  { clear - He. revert He.
    induction following as [|c' rest IH]; simpl.
    - intros H Hp. injection H as <-. exact Hp.
    - unfold get_actual. destruct (actual_page c') as [q|]; simpl;
        [|discriminate].
      destruct (Z.gtb_spec q p) as [Hgt|Hle].
      + intros H Hp. injection H as <-. lia.
      + exact IH. }
  destruct (validate_range total_pages (p - 1) e) as [|e'|e'] eqn:Hv.
  - discriminate.
  - apply validate_range_invalid in Hv. lia.
  - destruct (add_pages total_pages (py_range (p - 1) e')); discriminate.
Qed.

(** C4, as the code has it.  The check of line 246 compares the 0-based
    start with the end page, so it rejects empty ranges only: a range
    whose first and last page coincide is a range of one page, it is kept
    and its page is copied.  The end page found for an entry inside the
    document is never before its start, so no entry is ever rejected by
    this check; an entry that is skipped writes nothing, and the loop goes
    on with the entries that follow. *)
Theorem degenerate_range_check (total_pages : Z) :
  (forall s e e',
     validate_range total_pages s e = InvalidRange e' <->
     s < total_pages /\ e' = Z.min e total_pages /\ e' <= s)
  /\ (forall c following n a b,
        split_chapter total_pages c following <> Ok (SkipInvalidRange n a b))
  /\ (forall c following p qs,
        actual_page c = Some p ->
        map actual_page following = map Some qs ->
        1 <= p <= total_pages ->
        p <= Z.min (end_of p qs total_pages) total_pages /\
        (Z.min (end_of p qs total_pages) total_pages = p ->
         split_chapter total_pages c following
         = Ok (Saved (output_filename c) (title c) p p 1 [Z.to_nat (p - 1)])))
  /\ (forall c following ev,
        split_chapter total_pages c following = Ok ev ->
        split_loop total_pages (c :: following)
        = (ev :: fst (split_loop total_pages following),
           snd (split_loop total_pages following))).
Proof.
  split; [apply validate_range_invalid|].
  split; [apply split_chapter_not_invalid|].
  split.
  - intros c following p qs Hc Hq Hp.
    pose proof (end_of_lower_bound p qs total_pages (proj2 Hp)) as Hlow.
    split; [lia|]. intros Hone.
    rewrite (split_chapter_saved total_pages c following p qs Hc Hq Hp).
    rewrite Hone. unfold saved_event.
    replace (p - (p - 1)) with 1 by lia.
    rewrite (py_range_cons (p - 1) p) by lia.
    replace (p - 1 + 1) with p by lia.
    rewrite py_range_empty by lia. reflexivity.
  - intros c following ev Hev. simpl. rewrite Hev.
    destruct (split_loop total_pages following). reflexivity.
Qed.

(** C4 fails as stated.  An entry on page 3 followed by an entry on page
    4: its range is [3, 3], first page equal to last page, and it is not
    dropped: the splitter writes its one page. *)
Lemma single_page_range_is_kept :
  resolve_range 10 (entry "1.1" 3) [entry "1.2" 4] = Ok (3 - 1, 3) /\
  3 >= 3 /\
  split_chapter 10 (entry "1.1" 3) [entry "1.2" 4]
  = Ok (Saved "micropython-docs1-1.pdf" "T" 3 3 1 [2%nat]) /\
  fst (split_pdf_by_chapters 10 [entry "1.1" 3; entry "1.2" 4] None)
  = [Saved "micropython-docs1-1.pdf" "T" 3 3 1 [2%nat];
     Saved "micropython-docs1-2.pdf" "T" 4 10 7 [3; 4; 5; 6; 7; 8; 9]%nat].
Proof. vm_compute. repeat split; congruence. Qed.

(** ** After the locator *)

Lemma locate_chapter_page doc c :
  exists p,
    fst (locate_chapter doc c) = set_actual_page c p /\
    ((exists i, fst (locate_window doc c) <= i < snd (locate_window doc c)
                /\ p = i + 1)
     \/ p = page c).
Proof.
  unfold locate_chapter.
  change (Z.max 0 (page c - 5)) with (fst (locate_window doc c)).
  change (Z.min (pages_len doc) (page c + 15))
    with (snd (locate_window doc c)).
  destruct (scan_window_scanned (locate_score (number c) (title c))
              (fun i => i + 1) doc
              (fst (locate_window doc c)) (snd (locate_window doc c)))
    as (_ & _ & Hbest).
  destruct (scan_window _ _ doc _ _) as [[m|] bs]; simpl in Hbest.
  - destruct Hbest as (_ & i & t & -> & (Hi & _) & _).
    destruct (bs >=? 100); simpl.
    + exists (i + 1). split; [reflexivity|]. left. now exists i.
    + exists (page c). split; [reflexivity | now right].
  - exists (page c). simpl. split; [reflexivity | now right].
Qed.

Lemma located_assigned doc chapters :
  exists ps,
    map actual_page (fst (find_chapter_actual_pages doc chapters))
    = map Some ps.
Proof.
  rewrite find_chapter_actual_pages_map. simpl.
  induction chapters as [|c rest [ps IH]].
  - now exists [].
  - destruct (locate_chapter_page doc c) as (p & Hp & _).
    exists (p :: ps). simpl. now rewrite Hp, IH.
Qed.

Lemma resolve_chapters_sorted doc :
  exists sorted ps,
    snd (resolve_chapters doc) = Ok sorted /\
    map actual_page sorted = map Some ps.
Proof.
  unfold resolve_chapters.
  destruct (auto_detect_page_offset doc (extract_toc_from_pdf doc))
    as [page_offset w1].
  destruct (located_assigned doc
              (apply_page_offset page_offset (extract_toc_from_pdf doc)))
    as (ps & Hps).
  destruct (find_chapter_actual_pages doc _) as [located w2].
  simpl in *.
  destruct (sort_by_actual_page_total located ps Hps) as (sorted & Hsort).
  destruct (sort_by_actual_page_spec located sorted Hsort)
    as (ps' & Hps' & _).
  now exists sorted, ps'.
Qed.

Lemma split_loop_status total_pages chapters :
  forall ps,
    map actual_page chapters = map Some ps ->
    snd (split_loop total_pages chapters) = None \/
    snd (split_loop total_pages chapters) = Some IndexError.
Proof.
  induction chapters as [|c following IH]; intros [|p qs] Hps;
    try discriminate; [now left|].
  simpl in Hps. injection Hps as Hc Hq. simpl split_loop.
  rewrite (split_chapter_pages total_pages c following p qs Hc Hq).
  specialize (IH qs Hq).
  destruct (p >? total_pages).
  - destruct (split_loop total_pages following). exact IH.
  - cbv zeta.
    destruct (add_pages total_pages _) as [copied|e] eqn:Hadd; simpl.
    + destruct (split_loop total_pages following). exact IH.
    + right. f_equal. now apply add_pages_raises in Hadd.
Qed.

Lemma list_index_In c l : In c l -> exists i, list_index c l = Ok i.
Proof.
  induction l as [|y l IH]; intros Hin; [destruct Hin|]. simpl.
  destruct (chapter_eq_dec y c) as [Heq|Hne]; [now exists O|].
  destruct Hin as [Heq|Hin]; [contradiction|].
  destruct (IH Hin) as (i & ->). simpl. now exists (S i).
Qed.

Lemma pages_In chapters ps c :
  map actual_page chapters = map Some ps -> In c chapters ->
  exists p, actual_page c = Some p.
Proof.
  intros Hps Hin. apply In_nth_error in Hin as (i & Hi).
  destruct (pages_nth chapters ps i c Hps Hi) as (p & _ & Hp). now exists p.
Qed.

Lemma show_chapter_ok total_pages all_chapters ps c :
  map actual_page all_chapters = map Some ps -> In c all_chapters ->
  exists ev, show_chapter total_pages all_chapters c = Ok ev.
Proof.
  intros Hps Hin. unfold show_chapter, get_actual.
  destruct (pages_In all_chapters ps c Hps Hin) as (p & ->).
  destruct (list_index_In c all_chapters Hin) as (i & ->).
  unfold bind.
  rewrite (find_end_page_pages p (skipn (S i) all_chapters)
             (skipn (S i) ps) total_pages) by now apply pages_skipn.
  eauto.
Qed.

Lemma show_loop_status total_pages all_chapters ps display :
  map actual_page all_chapters = map Some ps ->
  (forall c, In c display -> In c all_chapters) ->
  snd (show_loop total_pages all_chapters display) = None.
Proof.
  intros Hps. induction display as [|c rest IH]; intros Hincl;
    [reflexivity|].
  simpl.
  destruct (show_chapter_ok total_pages all_chapters ps c Hps) as (ev & ->);
    [apply Hincl; now left|].
  specialize (IH (fun c' H => Hincl c' (or_intror H))).
  destruct (show_loop total_pages all_chapters rest). exact IH.
Qed.

Lemma limit_chapters_firstn chapters max_files :
  exists n, limit_chapters chapters max_files = firstn n chapters.
Proof.
  unfold limit_chapters, py_prefix.
  destruct max_files as [m|].
  - destruct (m =? 0).
    + exists (List.length chapters). now rewrite firstn_all.
    + destruct (m <? 0); eauto.
  - exists (List.length chapters). now rewrite firstn_all.
Qed.

Lemma firstn_incl {A : Type} n (l : list A) x : In x (firstn n l) -> In x l.
Proof.
  intros H. apply firstn_In_nth in H as (i & _ & Hi).
  eapply nth_error_In. exact Hi.
Qed.

(** ** The extraction and its exception *)

Lemma toc_line_checked_cases line :
  toc_line_checked line
  = if overlong_line line then Raise ValueError else Ok (toc_line line).
Proof.
  unfold toc_line_checked, toc_line, overlong_line.
  destruct (match_toc_line line) as [cs|]; [|reflexivity].
  cbv zeta.
  destruct (PyStr.count PyStr.dot (group_or_empty 1 cs) =? 1);
    [|reflexivity].
  unfold int_checked. cbn [andb].
  now destruct (int_max_str_digits
                <? Z.of_nat (String.length (group_or_empty 3 cs))).
Qed.

Lemma toc_lines_checked_cases lines :
  toc_lines_checked lines
  = if existsb overlong_line lines then Raise ValueError
    else Ok (flat_map (fun line => option_to_list (toc_line line)) lines).
Proof.
  induction lines as [|line rest IH]; [reflexivity|].
  cbn [toc_lines_checked existsb flat_map].
  rewrite toc_line_checked_cases, IH.
  destruct (overlong_line line); [reflexivity|].
  now destruct (existsb overlong_line rest).
Qed.

Lemma toc_of_page_checked_cases text :
  toc_of_page_checked text
  = if overlong_page text then Raise ValueError else Ok (toc_of_page text).
Proof.
  unfold toc_of_page_checked, overlong_page, toc_of_page.
  destruct (PyStr.truthy text) as [t|]; [|reflexivity].
  apply toc_lines_checked_cases.
Qed.

Lemma toc_pages_checked_cases pages :
  toc_pages_checked pages
  = if existsb overlong_page pages then Raise ValueError
    else Ok (flat_map toc_of_page pages).
Proof.
  induction pages as [|text rest IH]; [reflexivity|].
  cbn [toc_pages_checked existsb flat_map].
  rewrite toc_of_page_checked_cases, IH.
  destruct (overlong_page text); [reflexivity|].
  now destruct (existsb overlong_page rest).
Qed.

(** The extraction raises [ValueError] on a page number that is too long,
    and otherwise returns the entries of the first 20 pages. *)
Lemma extract_checked_cases doc :
  extract_toc_from_pdf_checked doc
  = if overlong doc then Raise ValueError else Ok (extract_toc_from_pdf doc).
Proof. apply toc_pages_checked_cases. Qed.

Lemma extract_checked_value doc chapters :
  extract_toc_from_pdf_checked doc = Ok chapters ->
  overlong doc = false /\ chapters = extract_toc_from_pdf doc.
Proof.
  rewrite extract_checked_cases.
  destruct (overlong doc); [discriminate|].
  intros H. injection H as <-. now split.
Qed.

Lemma extract_checked_raises doc e :
  extract_toc_from_pdf_checked doc = Raise e ->
  overlong doc = true /\ e = ValueError.
Proof.
  rewrite extract_checked_cases.
  destruct (overlong doc); [|discriminate].
  intros H. injection H as <-. now split.
Qed.

(** A line with a page number that is too long is a line the extractor
    would keep. *)
Lemma overlong_line_kept line :
  overlong_line line = true -> exists c, toc_line line = Some c.
Proof.
  unfold overlong_line, toc_line.
  destruct (match_toc_line line) as [cs|]; [|discriminate].
  cbv zeta.
  destruct (PyStr.count PyStr.dot (group_or_empty 1 cs) =? 1);
    [|discriminate].
  eauto.
Qed.

Lemma overlong_entry doc :
  overlong doc = true -> exists c, In c (extract_toc_from_pdf doc).
Proof.
  unfold overlong, extract_toc_from_pdf. intros H.
  apply existsb_exists in H as (text & Hin & Hpage).
  unfold overlong_page in Hpage.
  destruct (PyStr.truthy text) as [t|] eqn:Ht; [|discriminate].
  apply existsb_exists in Hpage as (line & Hline & Hover).
  destruct (overlong_line_kept line Hover) as (c & Hc).
  exists c. apply in_flat_map. exists text. split; [exact Hin|].
  unfold toc_of_page. rewrite Ht.
  apply in_flat_map. exists line. split; [exact Hline|].
  rewrite Hc. now left.
Qed.

Lemma extract_checked_empty doc :
  extract_toc_from_pdf doc = [] -> extract_toc_from_pdf_checked doc = Ok [].
Proof.
  intros Hnone. rewrite extract_checked_cases.
  destruct (overlong doc) eqn:Hover; [|now rewrite Hnone].
  destruct (overlong_entry doc Hover) as (c & Hc).
  rewrite Hnone in Hc. destruct Hc.
Qed.

Lemma main_status doc max_files show :
  snd (main doc max_files show) = None \/
  snd (main doc max_files show) = Some IndexError \/
  snd (main doc max_files show) = Some ValueError.
Proof.
  unfold main. rewrite extract_checked_cases.
  destruct (overlong doc); [now right; right|].
  destruct (extract_toc_from_pdf doc); [now left|].
  destruct (resolve_chapters_sorted doc) as (sorted & ps & Hs & Hps).
  destruct (resolve_chapters doc) as [ws r]. simpl in Hs. subst r.
  destruct (limit_chapters_firstn sorted max_files) as (n & Hn).
  destruct show; simpl.
  - left. unfold show_only. rewrite Hn.
    apply (show_loop_status _ sorted ps); [assumption|].
    intros c'. apply firstn_incl.
  - unfold split_pdf_by_chapters. rewrite Hn.
    destruct (split_loop_status (pages_len doc) (firstn n sorted)
                (firstn n ps) (pages_firstn n sorted ps Hps)) as [H|H];
      unfold report_complete; rewrite H; simpl; auto.
Qed.

(** C9, as the code has it.  When the locator returns, every entry has an
    actual page: the index of its best page plus one, which is positive,
    when the search succeeded, and otherwise its offset-adjusted declared
    page, whatever its sign; it is positive when that page is.  The sort
    and the two consumers therefore never meet an entry without an actual
    page. *)
Theorem located_pages_assigned (doc : pdf) (chapters : list chapter) :
  Forall2
    (fun c c' =>
       exists p,
         c' = set_actual_page c p /\
         ((exists i, 0 <= i /\
                     fst (locate_window doc c) <= i < snd (locate_window doc c)
                     /\ p = i + 1)
          \/ p = page c) /\
         (0 < page c -> 0 < p))
    chapters (fst (find_chapter_actual_pages doc chapters))
  /\ (exists sorted,
        sort_by_actual_page (fst (find_chapter_actual_pages doc chapters))
        = Ok sorted)
  /\ (forall max_files show, snd (main doc max_files show) <> Some KeyError).
Proof.
  split; [|split].
  - rewrite find_chapter_actual_pages_map. simpl.
    induction chapters as [|c rest IH]; simpl; constructor; [|exact IH].
    destruct (locate_chapter_page doc c) as (p & Hp & Hcases).
    exists p. split; [assumption|].
    destruct Hcases as [(i & Hi & ->) | ->].
    + assert (Hlo : 0 <= i) by (unfold locate_window in Hi; simpl in Hi; lia).
      split; [|lia]. left. exists i. repeat split; try lia; apply Hi.
    + split; [now right | trivial].
  - destruct (located_assigned doc chapters) as (ps & Hps).
    exact (sort_by_actual_page_total _ ps Hps).
  - intros max_files show.
    destruct (main_status doc max_files show) as [H|[H|H]]; rewrite H;
      discriminate.
Qed.

(** C9 fails as stated.  A one-page document whose only text is two TOC
    lines.  The first line is found on page 1, which gives the offset
    1 - 20; the second entry is not found and falls back to its adjusted
    declared page, 3 - 19 = -16: an actual page that is not positive.  The
    splitter then asks for page -17 of a one-page document. *)
Lemma fallback_page_not_positive :
  let doc := [Some "1.1 Intro 20
1.2 Setup 3"] in
  let chapters := extract_toc_from_pdf doc in
  let offset := fst (auto_detect_page_offset doc chapters) in
  let located :=
    fst (find_chapter_actual_pages doc (apply_page_offset offset chapters)) in
  offset = -19 /\
  map actual_page located = [Some 1; Some (-16)] /\
  ~ Forall (fun c => exists p, actual_page c = Some p /\ 0 < p) located /\
  snd (main doc None false) = Some IndexError.
Proof.
  vm_compute. repeat split; try reflexivity.
  intros H. inversion H as [|c l _ Htail]; subst.
  inversion Htail as [|c' l' (p & Hp & Hpos) _]; subst.
  simpl in Hp. injection Hp as <-. discriminate Hpos.
Qed.

(** ** The limit and the preview *)

(** C3 at a failing input: three entries on pages 3, 7 and 12 of a
    20-page document, with the limit 2.  The splitter cuts the list of
    entries first and resolves the ranges on what is left, so the second
    entry runs to page 20; without the limit it ends on page 11, and the
    preview with the same limit reports 11 as well. *)
Theorem limit_cuts_before_resolution :
  split_pdf_by_chapters 20 sample_sorted (Some 2)
  = ([Saved "micropython-docs1-1.pdf" "T" 3 6 4 [2; 3; 4; 5]%nat;
      Saved "micropython-docs1-2.pdf" "T" 7 20 14
            [6; 7; 8; 9; 10; 11; 12; 13; 14; 15; 16; 17; 18; 19]%nat],
     None)
  /\ split_pdf_by_chapters 20 sample_sorted None
     = ([Saved "micropython-docs1-1.pdf" "T" 3 6 4 [2; 3; 4; 5]%nat;
         Saved "micropython-docs1-2.pdf" "T" 7 11 5 [6; 7; 8; 9; 10]%nat;
         Saved "micropython-docs2-1.pdf" "T" 12 20 9
               [11; 12; 13; 14; 15; 16; 17; 18; 19]%nat],
        None)
  /\ show_only 20 sample_sorted (Some 2)
     = ([ShowChapter "1.1" "T" 3 6 4 "micropython-docs1-1.pdf";
         ShowChapter "1.2" "T" 7 11 5 "micropython-docs1-2.pdf"],
        None)
  /\ (forall chapters total_pages n,
        n <> 0 ->
        split_pdf_by_chapters total_pages chapters (Some n)
        = split_loop total_pages (py_prefix chapters n))
  /\ (forall total_pages c p,
        actual_page c = Some p ->
        resolve_range total_pages c [] = Ok (p - 1, total_pages)).
Proof.
  split; [vm_compute; reflexivity|].
  split; [vm_compute; reflexivity|].
  split; [vm_compute; reflexivity|].
  split.
  - intros chapters total_pages n Hn.
    unfold split_pdf_by_chapters, limit_chapters.
    destruct (Z.eqb_spec n 0); [contradiction | reflexivity].
  - intros total_pages c p Hp. unfold resolve_range, get_actual.
    now rewrite Hp.
Qed.

(** C2 at two failing inputs.  With the limit 2 on the entries of pages 3,
    7 and 12 of a 20-page document, the preview reports pages 7 to 11 for
    the second entry and the splitter writes pages 7 to 20.  Without a
    limit, on a 10-page document with entries on pages 3, 12 and 15, the
    preview lists three entries, with the ranges [3, 11], [12, 14] and
    [15, 10], and the splitter writes pages 3 to 10 for the first and
    skips the other two. *)
Theorem preview_differs_from_splitter :
  show_only 20 sample_sorted (Some 2)
  = ([ShowChapter "1.1" "T" 3 6 4 "micropython-docs1-1.pdf";
      ShowChapter "1.2" "T" 7 11 5 "micropython-docs1-2.pdf"],
     None)
  /\ split_pdf_by_chapters 20 sample_sorted (Some 2)
     = ([Saved "micropython-docs1-1.pdf" "T" 3 6 4 [2; 3; 4; 5]%nat;
         Saved "micropython-docs1-2.pdf" "T" 7 20 14
               [6; 7; 8; 9; 10; 11; 12; 13; 14; 15; 16; 17; 18; 19]%nat],
        None)
  /\ show_only 10 sample_beyond None
     = ([ShowChapter "1.1" "T" 3 11 9 "micropython-docs1-1.pdf";
         ShowChapter "1.2" "T" 12 14 3 "micropython-docs1-2.pdf";
         ShowChapter "2.1" "T" 15 10 (-4) "micropython-docs2-1.pdf"],
        None)
  /\ split_pdf_by_chapters 10 sample_beyond None
     = ([Saved "micropython-docs1-1.pdf" "T" 3 10 8
               [2; 3; 4; 5; 6; 7; 8; 9]%nat;
         SkipExceedsTotal "1.2" 12;
         SkipExceedsTotal "2.1" 15],
        None).
Proof. vm_compute. repeat split; reflexivity. Qed.

(** [list.index] finds the first equal entry, at or before the one meant. *)
Lemma list_index_first c l :
  forall i, nth_error l i = Some c ->
    exists i', list_index c l = Ok i' /\ (i' <= i)%nat /\
               nth_error l i' = Some c.
Proof.
  induction l as [|y l IH]; intros [|i] Hi; try discriminate; simpl in *.
  - injection Hi as ->.
    destruct (chapter_eq_dec c c); [|contradiction].
    exists O. repeat split. lia.
  - destruct (chapter_eq_dec y c) as [->|Hne].
    + exists O. repeat split. lia.
    + destruct (IH i Hi) as (i' & -> & Hle & Hn). simpl.
      exists (S i'). repeat split; [lia | assumption].
Qed.

Lemma show_loop_nth total_pages all_chapters display :
  (forall c, In c display ->
             exists ev, show_chapter total_pages all_chapters c = Ok ev) ->
  forall i c, nth_error display i = Some c ->
    exists ev, show_chapter total_pages all_chapters c = Ok ev /\
               nth_error (fst (show_loop total_pages all_chapters display)) i
               = Some ev.
Proof.
  induction display as [|d rest IH]; intros Hok [|i] c Hc; try discriminate;
    simpl in Hc; simpl show_loop.
  - injection Hc as ->.
    destruct (Hok c (or_introl eq_refl)) as (ev & Hev). rewrite Hev.
    destruct (show_loop total_pages all_chapters rest).
    exists ev. now split.
  - destruct (Hok d (or_introl eq_refl)) as (ev & Hev). rewrite Hev.
    destruct (IH (fun c' H => Hok c' (or_intror H)) i c Hc) as (ev' & H1 & H2).
    destruct (show_loop total_pages all_chapters rest).
    exists ev'. now split.
Qed.

Lemma end_of_upper_bound p qs total_pages :
  Forall (fun q => q <= total_pages) qs -> end_of p qs total_pages <= total_pages.
Proof.
  induction 1 as [|q qs Hq _ IH]; simpl; [lia|].
  destruct (q >? p); lia.
Qed.

(** What does hold: without a limit, when every entry lies in the
    document, the preview reports for each entry the range whose pages the
    splitter copies. *)
Lemma preview_agrees_without_limit total_pages sorted ps :
  map actual_page sorted = map Some ps ->
  StronglySorted Z.le ps ->
  Forall (fun p => 1 <= p <= total_pages) ps ->
  forall i c, nth_error sorted i = Some c ->
    exists p e,
      actual_page c = Some p /\
      nth_error (fst (show_only total_pages sorted None)) i
      = Some (ShowChapter (number c) (title c) p e (e - p + 1)
                          (output_filename c)) /\
      nth_error (fst (split_pdf_by_chapters total_pages sorted None)) i
      = Some (saved_event c p e).
Proof.
  intros Hps Hsorted Hin i c Hc.
  destruct (pages_nth sorted ps i c Hps Hc) as (p & Hp & Hcp).
  exists p, (end_of p (skipn (S i) ps) total_pages).
  split; [assumption|]. split.
  - unfold show_only. simpl limit_chapters.
    destruct (show_loop_nth total_pages sorted sorted) with (i := i) (c := c)
      as (ev & Hev & Hnth); [|assumption|].
    { intros c' Hc'. now apply (show_chapter_ok total_pages sorted ps). }
    rewrite Hnth. f_equal.
    destruct (list_index_first c sorted i Hc) as (i' & Hidx & Hle & Hc').
    unfold show_chapter, get_actual in Hev. rewrite Hcp, Hidx in Hev.
    unfold bind in Hev.
    rewrite (find_end_page_pages p (skipn (S i') sorted) (skipn (S i') ps)
               total_pages) in Hev by now apply pages_skipn.
    injection Hev as <-.
    destruct (pages_nth sorted ps i' c Hps Hc') as (p' & Hp' & Hcp').
    assert (p' = p) by congruence. subst p'.
    destruct (Nat.eq_dec i' i) as [->|Hne]; [reflexivity|].
    rewrite <- (end_of_same_page ps total_pages i' i p Hsorted) by
      (try assumption; lia).
    reflexivity.
  - unfold split_pdf_by_chapters. simpl limit_chapters.
    destruct (split_loop_positive total_pages sorted ps Hps) as [_ Hnth].
    { eapply Forall_impl; [|exact Hin]. simpl. intros; lia. }
    destruct (Hnth i c Hc) as (p' & Hcp' & ->).
    assert (p' = p) by congruence. subst p'.
    unfold split_event.
    assert (Hpin : 1 <= p <= total_pages).
    { rewrite Forall_forall in Hin. apply Hin.
      eapply nth_error_In. exact Hp. }
    destruct (Z.gtb_spec p total_pages); [lia|].
    do 2 f_equal. apply Z.min_l. apply end_of_upper_bound.
    apply Forall_forall. intros q Hq.
    rewrite Forall_forall in Hin. apply Hin.
    rewrite <- (firstn_skipn (S i) ps). apply in_or_app. now right.
Qed.

(** ** Examples *)

Example tie_example :
  auto_detect_page_offset sample_tie [mkChapter "1.1" "Intro" 2 1 None]
  = (-1, [OffsetDetected 1 80 (-1)])
  /\ window_scores (offset_score "1.1" "Intro") sample_tie 0 5 = [80; 80].
Proof. vm_compute. split; reflexivity. Qed.

Example locate_example :
  find_chapter_actual_pages sample_tie
    [mkChapter "1.1" "Intro" 2 1 None; mkChapter "7.3" "Wiring" 4 1 None]
  = ([mkChapter "1.1" "Intro" 2 1 (Some 1);
      mkChapter "7.3" "Wiring" 4 1 (Some 4)],
     [WarnChapterNotLocated "7.3" 4]).
Proof. vm_compute. reflexivity. Qed.

(** ** The thresholds at work on [sample_tie] *)

Lemma offset_detector_threshold_witness :
  exists i t,
    first_top (offset_score "1.1" "Intro") sample_tie 0 5 i t /\
    offset_score "1.1" "Intro" t = 80 /\
    auto_detect_page_offset sample_tie [sample_anchor]
    = (i + 1 - 2, [OffsetDetected (i + 1) 80 (i + 1 - 2)]).
Proof.
  apply (proj1 (offset_detector_threshold sample_tie sample_anchor [])).
  vm_compute. discriminate.
Defined.


Lemma first_page_wins_ties_witness :
  fst (scan_window (offset_score "1.1" "Intro") (fun i => i) sample_tie 0 5)
  <> Some 4.
Proof.
  apply (proj1 (first_page_wins_ties sample_tie sample_anchor [])
           (offset_score "1.1" "Intro") (fun i => i) 0 5 0 4
           "1.1 Intro .... 2" "1.1 Intro
Some text").
  - intros a b H. exact H.
  - lia.
  - lia.
  - reflexivity.
  - reflexivity.
  - vm_compute. discriminate.
Defined.

(** * Further properties *)

(** ** The TOC extractor *)

Lemma firstn_min_length {A : Type} n (l : list A) :
  firstn (Nat.min n (List.length l)) l = firstn n l.
Proof.
  destruct (Nat.le_gt_cases n (List.length l)) as [H|H].
  - now rewrite Nat.min_l.
  - rewrite Nat.min_r by lia.
    now rewrite firstn_all, firstn_all2 by lia.
Qed.

(** Only the first 20 pages are read for TOC lines: pages after the 20th
    never change the entries, and when the first 20 pages give none, [main]
    stops with the no-chapters message whatever follows and whatever the
    flags. *)
Theorem toc_search_stops_at_page_20 (doc more : pdf) :
  (20 <= List.length doc)%nat ->
  extract_toc_from_pdf (doc ++ more) = extract_toc_from_pdf doc /\
  (extract_toc_from_pdf doc = [] ->
   forall max_files show,
     main (doc ++ more) max_files show = ([ErrorNoChapters], None)).
Proof.
  intros Hlen.
  assert (Heq : extract_toc_from_pdf (doc ++ more) = extract_toc_from_pdf doc).
  { unfold extract_toc_from_pdf. rewrite !firstn_min_length.
    rewrite firstn_app.
    replace (20 - List.length doc)%nat with O by lia.
    simpl. now rewrite app_nil_r. }
  split; [exact Heq|].
  intros Hnone max_files show. unfold main.
  rewrite <- Heq in Hnone. now rewrite (extract_checked_empty _ Hnone).
Qed.

Lemma toc_search_stops_at_page_20_witness :
  extract_toc_from_pdf sample_late_toc = [] /\
  main sample_late_toc None false = ([ErrorNoChapters], None).
Proof.
  destruct (toc_search_stops_at_page_20 (repeat None 20)
              [Some "1.1 Intro 5"]) as [Heq Hmain].
  - simpl. lia.
  - split.
    + exact Heq.
    + apply Hmain. reflexivity.
Defined.

Lemma rstrip_idem s : PyStr.rstrip (PyStr.rstrip s) = PyStr.rstrip s.
Proof.
  induction s as [|c s IH]; [reflexivity|]. simpl.
  destruct (PyStr.rstrip s) as [|d r] eqn:Hr.
  - destruct (PyStr.is_space c) eqn:Hc; [reflexivity|].
    simpl. now rewrite Hc.
  - change (PyStr.rstrip (String c (String d r)))
      with (match PyStr.rstrip (String d r) with
            | EmptyString =>
                if PyStr.is_space c then EmptyString
                else String c EmptyString
            | r' => String c r'
            end).
    now rewrite IH.
Qed.

Lemma rstrip_head c s :
  PyStr.is_space c = false ->
  exists r, PyStr.rstrip (String c s) = String c r.
Proof.
  intros Hc. simpl. destruct (PyStr.rstrip s); [|eauto].
  rewrite Hc. eauto.
Qed.

Lemma lstrip_head s :
  PyStr.lstrip s = EmptyString \/
  exists c r, PyStr.lstrip s = String c r /\ PyStr.is_space c = false.
Proof.
  induction s as [|c s IH]; [now left|]. simpl.
  destruct (PyStr.is_space c) eqn:Hc; [exact IH|].
  right. now exists c, s.
Qed.

Lemma strip_idem s : PyStr.strip (PyStr.strip s) = PyStr.strip s.
Proof.
  unfold PyStr.strip.
  destruct (lstrip_head s) as [->|(c & r & -> & Hc)]; [reflexivity|].
  destruct (rstrip_head c r Hc) as (r' & Hr). rewrite Hr.
  simpl PyStr.lstrip. rewrite Hc. rewrite <- Hr. apply rstrip_idem.
Qed.

Lemma digit_value_range c :
  PyStr.is_digit c = true -> 0 <= PyStr.digit_value c <= 9.
Proof.
  unfold PyStr.is_digit, PyStr.between, PyStr.digit_value. intros H.
  apply andb_prop in H as [H1 H2].
  apply Nat.leb_le in H1. apply Nat.leb_le in H2.
  revert H1 H2. generalize (PyStr.code c). intros n H1 H2. lia.
Qed.

Lemma int_acc_nonneg s :
  Re.all_chars PyStr.is_digit s = true ->
  forall acc, 0 <= acc -> 0 <= PyStr.int_acc acc s.
Proof.
  induction s as [|c s IH]; intros Hd acc Hacc; [assumption|].
  simpl in Hd. apply andb_prop in Hd as [Hc Hs].
  change (0 <= PyStr.int_acc (10 * acc + PyStr.digit_value c) s).
  apply IH; [assumption|]. pose proof (digit_value_range c Hc). lia.
Qed.

(** As [rmatch_inv], with what the groups recorded can hold. *)
Lemma rmatch_inv_groups {R : Type} (r : Re.regex) :
  forall s cs (k : string -> Re.caps -> option R) x,
    Re.rmatch r s cs k = Some x ->
    exists a s' added,
      s = (a ++ s')%string /\ Re.lang r a /\
      Forall (fun ic => group_lang r (fst ic) (snd ic)) added /\
      k s' (added ++ cs) = Some x.
Proof.
  induction r as [p|g lo p|r1 IH1 r2 IH2|r1 IH1|i r1 IH1|];
    intros s cs k x H.
  - apply rmatch_inv in H as (a & s' & added & Hs & Hl & Hg & Hk).
    destruct added; [|inversion Hg as [|? ? []]].
    exists a, s', [].
    split; [assumption|]. split; [assumption|].
    split; [constructor | assumption].
  - apply rmatch_inv in H as (a & s' & added & Hs & Hl & Hg & Hk).
    destruct added; [|inversion Hg as [|? ? []]].
    exists a, s', [].
    split; [assumption|]. split; [assumption|].
    split; [constructor | assumption].
  - simpl in H.
    apply IH1 in H as (a1 & s1 & add1 & -> & Hl1 & Hg1 & H).
    apply IH2 in H as (a2 & s2 & add2 & -> & Hl2 & Hg2 & H).
    exists (a1 ++ a2)%string, s2, (add2 ++ add1).
    split; [now rewrite sapp_assoc|].
    split; [exists a1, a2; now repeat split|].
    split; [|now rewrite <- app_assoc].
    apply Forall_app. split.
    + eapply Forall_impl; [|exact Hg2]. intros ic Hic. now right.
    + eapply Forall_impl; [|exact Hg1]. intros ic Hic. now left.
  - simpl in H. destruct (Re.rmatch r1 s cs k) as [y|] eqn:Hm.
    + injection H as <-.
      apply IH1 in Hm as (a & s' & added & -> & Hl & Hg & Hk).
      exists a, s', added. repeat split; try assumption. now right.
    + exists EmptyString, s, []. simpl.
      repeat split; try assumption; [now left | constructor].
  - simpl in H.
    apply IH1 in H as (a & s' & added & -> & Hl & Hg & Hk).
    exists a, s', ((i, Re.consumed (a ++ s') s') :: added).
    repeat split; try assumption.
    constructor.
    + simpl. left. split; [reflexivity|]. now rewrite consumed_app.
    + eapply Forall_impl; [|exact Hg]. intros ic Hic. now right.
  - apply rmatch_inv in H as (a & s' & added & Hs & Hl & Hg & Hk).
    destruct added; [|inversion Hg as [|? ? []]].
    exists a, s', [].
    split; [assumption|]. split; [assumption|].
    split; [constructor | assumption].
Qed.

Lemma group_In i cs s :
  Re.group i cs = Some s -> In (i, s) cs.
Proof.
  induction cs as [|[j t] cs IH]; simpl; [discriminate|].
  destruct (Nat.eqb_spec i j) as [->|Hne].
  - intros H. injection H as ->. now left.
  - intros H. right. now apply IH.
Qed.

Lemma re_match_groups r line cs i s :
  Re.re_match r line = Some cs -> Re.group i cs = Some s ->
  group_lang r i s.
Proof.
  unfold Re.re_match. intros H Hg.
  apply rmatch_inv_groups in H as (a & s' & added & _ & _ & Hadd & H).
  injection H as <-. rewrite app_nil_r in Hg.
  apply group_In in Hg. rewrite Forall_forall in Hadd.
  exact (Hadd (i, s) Hg).
Qed.

Lemma toc_groups line cs :
  match_toc_line line = Some cs ->
  (forall s, Re.group 1 cs = Some s -> Re.lang Re.number_re s) /\
  (forall s, Re.group 3 cs = Some s ->
             Re.all_chars PyStr.is_digit s = true).
Proof.
  unfold match_toc_line. intros H.
  assert (Hcs : Re.re_match Re.toc_dotted line = Some cs \/
                Re.re_match Re.toc_plain line = Some cs).
  { destruct (Re.re_match Re.toc_dotted line); [left; congruence | now right]. }
  split; intros s Hs.
  - destruct Hcs as [Hm|Hm];
      pose proof (re_match_groups _ line cs 1 s Hm Hs) as Hg; simpl in Hg;
      repeat (destruct Hg as [Hg|Hg]; try contradiction;
              try (destruct Hg as [Hg' Hg]; try discriminate Hg'));
      exact Hg.
  - destruct Hcs as [Hm|Hm];
      pose proof (re_match_groups _ line cs 3 s Hm Hs) as Hg; simpl in Hg;
      repeat (destruct Hg as [Hg|Hg]; try contradiction;
              try (destruct Hg as [Hg' Hg]; try discriminate Hg'));
      apply Hg.
Qed.

Lemma count_dot_digits s :
  Re.all_chars PyStr.is_digit s = true -> PyStr.count PyStr.dot s = 0.
Proof.
  induction s as [|c s IH]; [reflexivity|]. simpl. intros H.
  apply andb_prop in H as [Hc Hs]. rewrite (IH Hs).
  destruct (Ascii.eqb_spec c PyStr.dot) as [->|]; [discriminate Hc | reflexivity].
Qed.

Lemma count_dot_app a b :
  PyStr.count PyStr.dot (a ++ b)
  = PyStr.count PyStr.dot a + PyStr.count PyStr.dot b.
Proof. induction a as [|c a IH]; simpl; [reflexivity|]. rewrite IH. lia. Qed.

Lemma number_one_dot n :
  Re.lang Re.number_re n -> PyStr.count PyStr.dot n = 1 -> number_shape n.
Proof.
  intros (a1 & a2 & -> & [Ha1 Hlen1] & Hopt) Hcount.
  rewrite count_dot_app, (count_dot_digits a1 Ha1) in Hcount.
  destruct Hopt as [->|(b1 & b2 & -> & (c & -> & Hc) & [Hb2 Hlen2])];
    [discriminate|].
  apply Ascii.eqb_eq in Hc. subst c.
  exists a1, b2. simpl. repeat split; try assumption.
  - intros ->. simpl in Hlen1. lia.
  - intros ->. simpl in Hlen2. lia.
Qed.

(** Every entry the extractor returns: a number made of digits, one dot and
    digits; level 1; a declared page that is not negative; a title without
    white space at either end; and no actual page yet. *)
Theorem extracted_entries_are_well_formed (doc : pdf) (c : chapter) :
  In c (extract_toc_from_pdf doc) ->
  number_shape (number c) /\ level c = 1 /\ 0 <= page c /\
  PyStr.strip (title c) = title c /\ actual_page c = None.
Proof.
  intros Hin. unfold extract_toc_from_pdf in Hin.
  apply in_flat_map in Hin as (text & _ & Hc).
  unfold toc_of_page in Hc. destruct (PyStr.truthy text) as [t|]; [|destruct Hc].
  apply in_flat_map in Hc as (line & _ & Hc).
  destruct (toc_line line) as [c'|] eqn:Htoc; simpl in Hc; [|destruct Hc].
  destruct Hc as [->|[]].
  unfold toc_line in Htoc.
  destruct (match_toc_line line) as [cs|] eqn:Hm; [|discriminate].
  destruct (Z.eqb_spec (PyStr.count PyStr.dot (group_or_empty 1 cs)) 1)
    as [Hone|]; [|discriminate].
  injection Htoc as <-. simpl.
  destruct (toc_groups line cs Hm) as [H1 H3].
  repeat split.
  - unfold group_or_empty in *.
    destruct (Re.group 1 cs) as [n|]; [|discriminate Hone].
    apply number_one_dot; [now apply H1 | assumption].
  - assumption.
  - unfold group_or_empty, PyStr.int.
    destruct (Re.group 3 cs) as [s|]; [|simpl; lia].
    apply int_acc_nonneg; [now apply H3 | lia].
  - apply strip_idem.
Qed.

Lemma extracted_entries_are_well_formed_witness :
  number_shape "2.3" /\ 0 <= 27 /\
  PyStr.strip "Wiring the board" = "Wiring the board".
Proof.
  destruct (extracted_entries_are_well_formed sample_toc
              (mkChapter "2.3" "Wiring the board" 27 1 None))
    as (Hn & _ & Hp & Ht & _).
  - vm_compute. right. left. reflexivity.
  - repeat split; assumption.
Defined.

(** ** The digit limit of the conversion *)

Lemma int_acc_bound s :
  Re.all_chars PyStr.is_digit s = true ->
  forall acc, 0 <= acc ->
    PyStr.int_acc acc s < (acc + 1) * 10 ^ Z.of_nat (String.length s).
Proof.
  induction s as [|c s IH]; intros Hd acc Hacc.
  - simpl. lia.
  - simpl in Hd. apply andb_prop in Hd as [Hc Hs].
    pose proof (digit_value_range c Hc) as Hv.
    change (PyStr.int_acc (10 * acc + PyStr.digit_value c) s
            < (acc + 1) * 10 ^ Z.of_nat (S (String.length s))).
    rewrite Nat2Z.inj_succ, Z.pow_succ_r by lia.
    specialize (IH Hs (10 * acc + PyStr.digit_value c) ltac:(lia)).
    assert (0 < 10 ^ Z.of_nat (String.length s))
      by (apply Z.pow_pos_nonneg; lia).
    nia.
Qed.

Lemma truthy_some text t :
  PyStr.truthy text = Some t <-> text = Some t /\ t <> EmptyString.
Proof.
  destruct text as [[|a s]|]; simpl; split.
  - discriminate.
  - intros [H Hne]. injection H as <-. now contradiction Hne.
  - intros H. injection H as <-. now split.
  - now intros [H _].
  - discriminate.
  - now intros [H _].
Qed.

Lemma overlong_line_spec line :
  overlong_line line = true <->
  exists cs,
    match_toc_line line = Some cs /\
    PyStr.count PyStr.dot (group_or_empty 1 cs) = 1 /\
    int_max_str_digits < Z.of_nat (String.length (group_or_empty 3 cs)).
Proof.
  unfold overlong_line. destruct (match_toc_line line) as [cs|]; split.
  - intros H. apply andb_prop in H as [H1 H2].
    apply Z.eqb_eq in H1. apply Z.ltb_lt in H2. now exists cs.
  - intros (cs' & Hcs & H1 & H2). injection Hcs as <-.
    apply andb_true_intro. split; [now apply Z.eqb_eq | now apply Z.ltb_lt].
  - discriminate.
  - intros (cs' & Hcs & _). discriminate.
Qed.

Lemma overlong_spec doc :
  overlong doc = true <->
  exists text line cs,
    In (Some text) (firstn 20 doc) /\ text <> EmptyString /\
    In line (PyStr.split_on PyStr.newline text) /\
    match_toc_line line = Some cs /\
    PyStr.count PyStr.dot (group_or_empty 1 cs) = 1 /\
    int_max_str_digits < Z.of_nat (String.length (group_or_empty 3 cs)).
Proof.
  unfold overlong. rewrite firstn_min_length. split.
  - intros H. apply existsb_exists in H as (text & Hin & Hpage).
    unfold overlong_page in Hpage.
    destruct (PyStr.truthy text) as [t|] eqn:Ht; [|discriminate].
    apply truthy_some in Ht as [-> Hne].
    apply existsb_exists in Hpage as (line & Hline & Hover).
    apply overlong_line_spec in Hover as (cs & Hcs & H1 & H3).
    now exists t, line, cs.
  - intros (t & line & cs & Hin & Hne & Hline & Hcs & H1 & H3).
    apply existsb_exists. exists (Some t). split; [exact Hin|].
    unfold overlong_page.
    rewrite (proj2 (truthy_some (Some t) t) (conj eq_refl Hne)).
    apply existsb_exists. exists line. split; [exact Hline|].
    apply overlong_line_spec. now exists cs.
Qed.

(** The line an entry of the extractor comes from. *)
Lemma extracted_entry_line doc c :
  In c (extract_toc_from_pdf doc) ->
  exists text line cs,
    In (Some text) (firstn 20 doc) /\ text <> EmptyString /\
    In line (PyStr.split_on PyStr.newline text) /\
    match_toc_line line = Some cs /\
    PyStr.count PyStr.dot (group_or_empty 1 cs) = 1 /\
    page c = PyStr.int (group_or_empty 3 cs).
Proof.
  unfold extract_toc_from_pdf. rewrite firstn_min_length. intros Hin.
  apply in_flat_map in Hin as (text & Htext & Hc).
  unfold toc_of_page in Hc.
  destruct (PyStr.truthy text) as [t|] eqn:Ht; [|destruct Hc].
  apply truthy_some in Ht as [-> Hne].
  apply in_flat_map in Hc as (line & Hline & Hc).
  destruct (toc_line line) as [c'|] eqn:Htoc; simpl in Hc; [|destruct Hc].
  destruct Hc as [->|[]].
  unfold toc_line in Htoc.
  destruct (match_toc_line line) as [cs|] eqn:Hm; [|discriminate].
  destruct (Z.eqb_spec (PyStr.count PyStr.dot (group_or_empty 1 cs)) 1)
    as [Hone|]; [|discriminate].
  injection Htoc as <-.
  exists t, line, cs. repeat split; assumption.
Qed.

Lemma extracted_page_nonneg doc c :
  In c (extract_toc_from_pdf doc) -> 0 <= page c.
Proof.
  intros Hin.
  destruct (extracted_entry_line doc c Hin)
    as (t & line & cs & _ & _ & _ & Hm & _ & ->).
  destruct (toc_groups line cs Hm) as [_ H3].
  unfold group_or_empty, PyStr.int.
  destruct (Re.group 3 cs) as [s|]; [|simpl; lia].
  apply int_acc_nonneg; [now apply H3 | lia].
Qed.

(** The conversion of line 55 raises [ValueError] exactly on a line of a
    two-level number whose page number has more than 4300 digits, and the
    extractor with it: that is its one exception, and [main] ends with it
    before it reports anything, whatever the flags.  An extraction that
    returns gives entries whose declared pages have at most 4300 digits. *)
Theorem page_number_digit_limit (doc : pdf) :
  (extract_toc_from_pdf_checked doc = Raise ValueError <->
   exists text line cs,
     In (Some text) (firstn 20 doc) /\ text <> EmptyString /\
     In line (PyStr.split_on PyStr.newline text) /\
     match_toc_line line = Some cs /\
     PyStr.count PyStr.dot (group_or_empty 1 cs) = 1 /\
     int_max_str_digits < Z.of_nat (String.length (group_or_empty 3 cs)))
  /\ (forall e,
        extract_toc_from_pdf_checked doc = Raise e ->
        e = ValueError /\
        forall max_files show,
          main doc max_files show = ([], Some ValueError))
  /\ (forall chapters,
        extract_toc_from_pdf_checked doc = Ok chapters ->
        chapters = extract_toc_from_pdf doc /\
        Forall (fun c => 0 <= page c /\ printable (page c)) chapters).
Proof.
  split; [|split].
  - rewrite <- overlong_spec, extract_checked_cases.
    destruct (overlong doc); split; try reflexivity; discriminate.
  - intros e He. pose proof He as Hmain.
    apply extract_checked_raises in He as [_ ->].
    split; [reflexivity|]. intros max_files show. unfold main.
    now rewrite Hmain.
  - intros chapters Hok.
    apply extract_checked_value in Hok as [Hover ->].
    split; [reflexivity|]. apply Forall_forall. intros c Hin.
    split; [now apply (extracted_page_nonneg doc)|].
    destruct (extracted_entry_line doc c Hin)
      as (t & line & cs & Ht & Hne & Hline & Hm & Hone & Hpage).
    assert (Hlen : Z.of_nat (String.length (group_or_empty 3 cs))
                   <= int_max_str_digits).
    { destruct (Z_lt_le_dec int_max_str_digits
                  (Z.of_nat (String.length (group_or_empty 3 cs))))
        as [Hlong|Hshort]; [|exact Hshort].
      assert (Htrue : overlong doc = true)
        by (apply overlong_spec; now exists t, line, cs).
      congruence. }
    assert (Hdigits : Re.all_chars PyStr.is_digit (group_or_empty 3 cs)
                      = true).
    { destruct (toc_groups line cs Hm) as [_ H3]. unfold group_or_empty.
      destruct (Re.group 3 cs) as [s|]; [now apply H3 | reflexivity]. }
    pose proof (int_acc_bound _ Hdigits 0 ltac:(lia)) as Hbound.
    pose proof (int_acc_nonneg _ Hdigits 0 ltac:(lia)) as Hnonneg.
    fold (PyStr.int (group_or_empty 3 cs)) in Hbound, Hnonneg.
    rewrite <- Hpage in Hbound, Hnonneg.
    assert (Hmono : 10 ^ Z.of_nat (String.length (group_or_empty 3 cs))
                    <= 10 ^ int_max_str_digits)
      by (apply Z.pow_le_mono_r; lia).
    unfold printable. lia.
Qed.

Lemma page_number_digit_limit_witness :
  main (sample_digits 4301) None true = ([], Some ValueError) /\
  snd (main (sample_digits 4300) None true) = None.
Proof.
  split.
  - destruct (proj1 (proj2 (page_number_digit_limit (sample_digits 4301)))
                ValueError) as [_ Hmain].
    + vm_compute. reflexivity.
    + apply Hmain.
  - vm_compute. reflexivity.
Defined.

(** ** The offset detector *)

Lemma scan_window_bounds score_of mark doc lo hi m bs :
  scan_window score_of mark doc lo hi = (Some m, bs) ->
  exists i t, m = mark i /\ lo <= i < hi /\ page_at doc i = Some t /\
              score_of t = bs /\ bs = top_score score_of doc lo hi.
Proof.
  intros H.
  destruct (scan_window_scanned score_of mark doc lo hi) as (Htop & _ & Hbest).
  rewrite H in Htop, Hbest. simpl in Htop, Hbest.
  destruct Hbest as (_ & i & t & Hm & (Hi & Hp & _) & Hs).
  exists i, t. repeat split; try assumption; lia.
Qed.

Lemma top_score_ge score_of doc lo hi i t :
  lo <= i < hi -> page_at doc i = Some t ->
  score_of t <= top_score score_of doc lo hi.
Proof.
  intros Hi Hp.
  destruct (scan_window_scanned score_of (fun i => i) doc lo hi)
    as (Htop & Hall & _).
  rewrite <- Htop. now apply (Hall i t).
Qed.

(** The offset returned is never below -19 nor above 30.  When a page is
    accepted, the page it names is the first entry's declared page plus
    the offset, it lies in the document, and its score is at least 30;
    without any entry the offset is 0 and nothing is printed. *)
Theorem offset_is_bounded (doc : pdf) (chapters : list chapter) :
  let result := auto_detect_page_offset doc chapters in
  -19 <= fst result <= 30 /\
  (chapters = [] -> result = (0, [])) /\
  (forall a s o,
     In (OffsetDetected a s o) (snd result) ->
     exists c rest,
       chapters = c :: rest /\ o = fst result /\ a = page c + o /\
       1 <= a <= pages_len doc /\ 30 <= s).
Proof.
  destruct chapters as [|c rest]; simpl.
  - split; [lia|]. split; [reflexivity|]. intros a s o [].
  - destruct (scan_window _ _ doc _ _) as [[m|] bs] eqn:Hscan.
    + apply scan_window_bounds in Hscan as (i & t & -> & Hi & _ & _ & _).
      destruct (Z.geb_spec bs 30) as [Hge|Hlt]; simpl.
      * split; [lia|]. split; [discriminate|].
        intros a s o [H|[]]. injection H as <- <- <-.
        exists c, rest. repeat split; lia.
      * split; [lia|]. split; [discriminate|].
        intros a s o [H|[]]. discriminate.
    + simpl. split; [lia|]. split; [discriminate|].
      intros a s o [H|[]]. discriminate.
Qed.

Lemma count_if_nonneg {A : Type} (f : A -> bool) l : 0 <= count_if f l.
Proof. unfold count_if. lia. Qed.

Lemma offset_score_lines_ge chapter_num title_clean lines :
  forall score,
    score <= offset_score_lines chapter_num title_clean score lines /\
    (forall line, In line lines -> number_line chapter_num line = true ->
       score + 50
       <= offset_score_lines chapter_num title_clean score lines).
Proof.
  induction lines as [|raw rest IH]; intros score.
  - split; [simpl; lia | intros line []].
  - cbn [offset_score_lines]. cbv zeta.
    set (s1 := if starts_with_number (PyStr.strip raw) chapter_num
               then _ else score).
    set (s2 := if PyStr.contains chapter_num (PyStr.strip raw)
               then _ else s1).
    assert (H1 : score <= s1 /\
                 (number_line chapter_num raw = true -> score + 50 <= s1)).
    { unfold s1, number_line.
      destruct (starts_with_number (PyStr.strip raw) chapter_num).
      - destruct rest as [|next_raw rest'];
          [|destruct (PyStr.contains _ _)]; split; intros; lia.
      - split; [lia | discriminate]. }
    assert (H2 : s1 <= s2).
    { unfold s2. destruct (PyStr.contains chapter_num (PyStr.strip raw));
        [|lia].
      match goal with |- _ <= _ + count_if ?f ?l * 10 =>
        pose proof (count_if_nonneg f l) end. lia. }
    destruct (IH s2) as [Hmono Hline].
    split; [lia|].
    intros line [<-|Hin] Hnum.
    + destruct H1 as [_ H1]. specialize (H1 Hnum). lia.
    + specialize (Hline line Hin Hnum). lia.
Qed.

(** A page of the window with a line that starts with the first entry's
    number scores at least 50, so the offset detector accepts a page and
    prints no warning. *)
Theorem number_line_gives_an_offset (doc : pdf) (c : chapter)
        (rest : list chapter) (i : Z) (t line : string) :
  fst (offset_window doc c) <= i < snd (offset_window doc c) ->
  page_at doc i = Some t ->
  In line (PyStr.split_on PyStr.newline t) ->
  number_line (number c) line = true ->
  exists a s,
    50 <= s /\
    auto_detect_page_offset doc (c :: rest)
    = (a - page c, [OffsetDetected a s (a - page c)]).
Proof.
  intros Hi Hp Hin Hnum.
  assert (Hscore : 50 <= offset_score (number c) (title c) t).
  { unfold offset_score.
    destruct (offset_score_lines_ge (number c)
                (PyStr.join_space (PyStr.split (title c)))
                (PyStr.split_on PyStr.newline t) 0) as [_ Hline].
    specialize (Hline line Hin Hnum).
    destruct (PyStr.contains _ _); lia. }
  pose proof (top_score_ge (offset_score (number c) (title c)) doc
                _ _ i t Hi Hp) as Htop.
  destruct (scan_window_positive (offset_score (number c) (title c))
              (fun i => i) doc
              (fst (offset_window doc c)) (snd (offset_window doc c)))
    as (i' & t' & _ & Hs & Hscan); [lia|].
  unfold auto_detect_page_offset.
  change (Z.max 0 (page c - 20)) with (fst (offset_window doc c)).
  change (Z.min (pages_len doc) (page c + 30))
    with (snd (offset_window doc c)).
  rewrite Hscan.
  destruct (Z.geb_spec (offset_score (number c) (title c) t') 30); [|lia].
  exists (i' + 1), (offset_score (number c) (title c) t').
  split; [lia | reflexivity].
Qed.

Lemma number_line_gives_an_offset_witness :
  exists a s,
    50 <= s /\
    auto_detect_page_offset sample_tie [sample_anchor]
    = (a - 2, [OffsetDetected a s (a - 2)]).
Proof.
  apply (number_line_gives_an_offset sample_tie sample_anchor [] 4
           "1.1 Intro
Some text" "1.1 Intro").
  - vm_compute. split; [discriminate | reflexivity].
  - reflexivity.
  - vm_compute. left. reflexivity.
  - reflexivity.
Defined.

(** ** The chapter locator *)

Lemma locate_score_lines_mono chapter_num chapter_title lines :
  forall score,
    score <= locate_score_lines chapter_num chapter_title score lines.
Proof.
  induction lines as [|raw rest IH]; intros score; [simpl; lia|].
  cbn [locate_score_lines]. cbv zeta.
  match goal with |- _ <= locate_score_lines _ _ ?s _ =>
    assert (Hs : score <= s); [|specialize (IH s); lia] end.
  destruct (starts_with_number _ _); [|lia].
  destruct (any_word_in _ _); [lia|].
  destruct rest; [lia|]. destruct (any_word_in _ _); lia.
Qed.

(** The score of a page is 0 unless one of its lines starts with the
    number, and at least 100 when one does. *)
Lemma locate_score_lines_cases chapter_num chapter_title lines :
  forall score,
    (locate_score_lines chapter_num chapter_title score lines = score /\
     forall line, In line lines -> number_line chapter_num line = false)
    \/ (score + 100
        <= locate_score_lines chapter_num chapter_title score lines /\
        exists line, In line lines /\ number_line chapter_num line = true).
Proof.
  induction lines as [|raw rest IH]; intros score.
  - left. split; [reflexivity | intros line []].
  - cbn [locate_score_lines]. cbv zeta.
    destruct (starts_with_number (PyStr.strip raw) chapter_num) eqn:Hraw.
    + right. split.
      * match goal with |- _ <= locate_score_lines _ _ ?s _ =>
          assert (Hs : score + 100 <= s);
            [|pose proof (locate_score_lines_mono chapter_num chapter_title
                            rest s); lia] end.
        destruct (any_word_in _ _); [lia|].
        destruct rest; [lia|]. destruct (any_word_in _ _); lia.
      * exists raw. split; [now left | exact Hraw].
    + destruct (IH score) as [[Heq Hnone]|[Hge (line & Hin & Hline)]].
      * left. split; [exact Heq|].
        intros line [<-|Hin]; [exact Hraw | now apply Hnone].
      * right. split; [exact Hge|]. exists line. split; [now right | exact Hline].
Qed.

Lemma locate_score_line chapter_num chapter_title t :
  100 <= locate_score chapter_num chapter_title t <->
  exists line, In line (PyStr.split_on PyStr.newline t) /\
               number_line chapter_num line = true.
Proof.
  unfold locate_score.
  destruct (locate_score_lines_cases chapter_num chapter_title
              (PyStr.split_on PyStr.newline t) 0)
    as [[Heq Hnone]|[Hge Hex]].
  - rewrite Heq. split; [lia|].
    intros (line & Hin & Hline). rewrite (Hnone line Hin) in Hline.
    discriminate.
  - split; [intros _; exact Hex | intros _; lia].
Qed.

Lemma locate_chapter_found doc c :
  let score_of := locate_score (number c) (title c) in
  let lo := fst (locate_window doc c) in
  let hi := snd (locate_window doc c) in
  (100 <= top_score score_of doc lo hi ->
   exists i t, lo <= i < hi /\ page_at doc i = Some t /\
               100 <= score_of t /\
               locate_chapter doc c = (set_actual_page c (i + 1), []))
  /\ (top_score score_of doc lo hi < 100 ->
      locate_chapter doc c
      = (set_actual_page c (page c),
         [WarnChapterNotLocated (number c) (page c)])).
Proof.
  intros score_of lo hi. unfold locate_chapter.
  change (Z.max 0 (page c - 5)) with lo.
  change (Z.min (pages_len doc) (page c + 15)) with hi.
  change (locate_score (number c) (title c)) with score_of.
  destruct (scan_window score_of (fun i => i + 1) doc lo hi)
    as [[m|] bs] eqn:Hscan.
  - apply scan_window_bounds in Hscan as (i & t & -> & Hi & Hp & Hs & Htop).
    rewrite <- Htop. split; intros H.
    + destruct (Z.geb_spec bs 100); [|lia].
      exists i, t. repeat split; try assumption; lia.
    + destruct (Z.geb_spec bs 100); [lia | reflexivity].
  - pose proof (scan_window_score score_of (fun i => i + 1) doc lo hi) as Hs.
    rewrite Hscan in Hs. simpl in Hs.
    pose proof (scan_window_scanned score_of (fun i => i + 1) doc lo hi)
      as (_ & _ & Hbest).
    rewrite Hscan in Hbest. simpl in Hbest. subst bs.
    split; intros H; [lia | reflexivity].
Qed.

(** An entry is located, without warning, exactly when some page of its
    window has a line that starts with its number: the words of the title
    only choose between such pages.  The page found then lies in the
    document, at most 4 pages before and 15 after the declared page. *)
Theorem located_iff_number_line (doc : pdf) (c : chapter) :
  (snd (locate_chapter doc c) = [] <->
   exists i t line,
     fst (locate_window doc c) <= i < snd (locate_window doc c) /\
     page_at doc i = Some t /\
     In line (PyStr.split_on PyStr.newline t) /\
     number_line (number c) line = true)
  /\ (snd (locate_chapter doc c) = [] ->
      exists p,
        actual_page (fst (locate_chapter doc c)) = Some p /\
        1 <= p <= pages_len doc /\ page c - 4 <= p <= page c + 15).
Proof.
  destruct (locate_chapter_found doc c) as [Hfound Hlost].
  destruct (Z_lt_le_dec
              (top_score (locate_score (number c) (title c)) doc
                 (fst (locate_window doc c)) (snd (locate_window doc c)))
              100) as [Hlt|Hge].
  - rewrite (Hlost Hlt). cbn [fst snd]. split; [split|]; try discriminate.
    intros (i & t & line & Hi & Hp & Hin & Hline). exfalso.
    assert (100 <= locate_score (number c) (title c) t)
      by (apply locate_score_line; eauto).
    pose proof (top_score_ge (locate_score (number c) (title c)) doc
                  _ _ i t Hi Hp). lia.
  - destruct (Hfound Hge) as (i & t & Hi & Hp & Hs & ->). cbn [fst snd].
    split; [split; [intros _ | reflexivity]|].
    + apply locate_score_line in Hs as (line & Hin & Hline).
      exists i, t, line. repeat split; try assumption; apply Hi.
    + intros _. exists (i + 1). split; [reflexivity|].
      unfold locate_window in Hi. simpl in Hi. lia.
Qed.

(** ** From extraction to the sorted list *)




(** ** More on the sort *)

Lemma with_keys_raises chapters :
  (exists keyed, with_keys chapters = Ok keyed) \/
  (with_keys chapters = Raise KeyError /\
   exists c, In c chapters /\ actual_page c = None).
Proof.
  induction chapters as [|c rest IH]; simpl; [left; eauto|].
  unfold get_actual. destruct (actual_page c) as [p|] eqn:Hp; simpl.
  - destruct IH as [(krest & ->)|(-> & c' & Hin & Hc')]; simpl.
    + left. eauto.
    + right. split; [reflexivity|]. exists c'. split; [now right | assumption].
  - right. split; [reflexivity|]. exists c. split; [now left | assumption].
Qed.

(** The sort raises [KeyError] exactly when some entry has no actual page,
    and it raises nothing else. *)
Theorem sort_needs_every_page (chapters : list chapter) :
  (sort_by_actual_page chapters = Raise KeyError <->
   exists c, In c chapters /\ actual_page c = None)
  /\ (forall e, sort_by_actual_page chapters = Raise e -> e = KeyError).
Proof.
  unfold sort_by_actual_page.
  destruct (with_keys_raises chapters) as [(keyed & Hk)|(Hk & Hex)];
    rewrite Hk; simpl.
  - split; [split; [discriminate|] | discriminate].
    intros (c & Hin & Hc).
    destruct (with_keys_ok chapters keyed Hk) as [Hm Hf].
    rewrite <- Hm in Hin. apply in_map_iff in Hin as (kc & <- & Hkc).
    rewrite Forall_forall in Hf. specialize (Hf kc Hkc).
    unfold keyed_ok in Hf. congruence.
  - split; [split; [intros _; exact Hex | reflexivity]|].
    intros e H. congruence.
Qed.

Lemma stable_sort_fixed l :
  StronglySorted key_le l -> stable_sort l = l.
Proof.
  induction 1 as [|x l _ IH Hx]; [reflexivity|].
  simpl. rewrite IH. destruct l as [|y l]; [reflexivity|]. simpl.
  apply Forall_inv in Hx. unfold key_le in Hx.
  destruct (Z.leb_spec (fst x) (fst y)); [reflexivity | lia].
Qed.

Lemma with_keys_keyed l :
  Forall keyed_ok l -> with_keys (map snd l) = Ok l.
Proof.
  induction 1 as [|[k c] l Hkc _ IH]; [reflexivity|].
  simpl. unfold keyed_ok in Hkc. simpl in Hkc.
  unfold get_actual. rewrite Hkc. simpl. now rewrite IH.
Qed.

Lemma combine_keys ps :
  forall chapters,
    map actual_page chapters = map Some ps ->
    map snd (combine ps chapters) = chapters.
Proof.
  induction ps as [|p ps IH]; intros [|c rest] H; try discriminate;
    [reflexivity|].
  simpl in H. injection H as _ Hrest. simpl. now rewrite (IH rest Hrest).
Qed.

Lemma combine_sorted ps :
  StronglySorted Z.le ps ->
  forall chapters : list chapter, StronglySorted key_le (combine ps chapters).
Proof.
  induction 1 as [|p ps _ IH Hp]; intros [|c rest]; simpl;
    try constructor; [apply IH|].
  apply Forall_forall. intros [q c'] Hin.
  apply in_combine_l in Hin.
  rewrite Forall_forall in Hp. exact (Hp q Hin).
Qed.

Lemma map_Some_inj {A : Type} (l l' : list A) :
  map Some l = map Some l' -> l = l'.
Proof.
  revert l'. induction l as [|x l IH]; intros [|y l'] H; try discriminate;
    [reflexivity|].
  simpl in H. injection H as -> Hrest. now rewrite (IH l' Hrest).
Qed.

(** The sort returns a list of located entries unchanged exactly when its
    actual pages are in non-decreasing order; and what the sort returns,
    the sort returns unchanged. *)
Theorem sort_is_idempotent (chapters : list chapter) (ps : list Z) :
  map actual_page chapters = map Some ps ->
  (sort_by_actual_page chapters = Ok chapters <-> StronglySorted Z.le ps)
  /\ (exists sorted,
        sort_by_actual_page chapters = Ok sorted /\
        sort_by_actual_page sorted = Ok sorted).
Proof.
  intros Hps.
  assert (Hfix : forall l qs,
            map actual_page l = map Some qs -> StronglySorted Z.le qs ->
            sort_by_actual_page l = Ok l).
  { intros l qs Hqs Hsorted. unfold sort_by_actual_page.
    rewrite (with_keys_total l qs Hqs). unfold bind.
    rewrite (stable_sort_fixed _ (combine_sorted qs Hsorted l)).
    now rewrite (combine_keys qs l Hqs). }
  split.
  - split.
    + intros Hsame.
      destruct (sort_by_actual_page_spec chapters chapters Hsame)
        as (ps' & Hps' & Hsorted & _).
      rewrite Hps in Hps'. apply map_Some_inj in Hps'. now subst ps'.
    + apply Hfix. exact Hps.
  - destruct (sort_by_actual_page_total chapters ps Hps) as (sorted & Hsort).
    exists sorted. split; [exact Hsort|].
    destruct (sort_by_actual_page_spec chapters sorted Hsort)
      as (ps' & Hps' & Hsorted & _).
    exact (Hfix sorted ps' Hps' Hsorted).
Qed.

Lemma sort_is_idempotent_witness :
  sort_by_actual_page sample_sorted = Ok sample_sorted.
Proof.
  apply (proj1 (sort_is_idempotent sample_sorted [3; 7; 12] eq_refl)).
  repeat constructor; discriminate.
Defined.

(** ** More on the splitter *)

Lemma split_loop_event total_pages chapters ev :
  In ev (fst (split_loop total_pages chapters)) ->
  exists c following, split_chapter total_pages c following = Ok ev.
Proof.
  induction chapters as [|c following IH]; simpl; [intros []|].
  destruct (split_chapter total_pages c following) as [ev'|e] eqn:Hev;
    [|intros []].
  destruct (split_loop total_pages following) as [evs status].
  simpl in *. intros [<-|Hin]; [eauto | now apply IH].
Qed.

Lemma py_index_range n i j :
  py_index n i = Ok j -> Z.of_nat j < n.
Proof.
  unfold py_index.
  destruct (((if i <? 0 then n + i else i) <? 0)
            || (n <=? (if i <? 0 then n + i else i)))%bool eqn:H;
    [discriminate|].
  apply orb_false_elim in H as [H1 H2].
  apply Z.ltb_ge in H1. apply Z.leb_gt in H2.
  intros Hj. injection Hj as <-. lia.
Qed.

Lemma add_pages_copied total_pages l :
  Forall (fun x => x < total_pages) l ->
  forall copied,
    add_pages total_pages l = Ok copied ->
    List.length copied = List.length l /\
    Forall (fun j => Z.of_nat j < total_pages) copied.
Proof.
  induction 1 as [|x l Hx _ IH]; intros copied H; simpl in H.
  - injection H as <-. split; [reflexivity | constructor].
  - destruct (Z.ltb_spec x total_pages); [|lia].
    destruct (py_index total_pages x) as [j|] eqn:Hj; [|discriminate].
    simpl in H.
    destruct (add_pages total_pages l) as [js|]; [|discriminate].
    simpl in H. injection H as <-.
    destruct (IH js eq_refl) as [Hlen Hall].
    split; [simpl; congruence|].
    constructor; [now apply (py_index_range total_pages x) | assumption].
Qed.

Lemma py_range_length a b : a <= b ->
  Z.of_nat (List.length (py_range a b)) = b - a.
Proof.
  intros H. unfold py_range. rewrite length_map, length_seq. lia.
Qed.

(** Whatever the entries and the limit, every file the splitter writes
    holds a range inside the document that is not empty: first page at
    most last page, last page at most the page count, as many pages copied
    as the range has, each of them a page of the document. *)
Theorem saved_ranges_lie_in_document (total_pages : Z)
        (chapters : list chapter) (max_files : option Z)
        (filename title : string) (first last count : Z) (copied : list nat) :
  In (Saved filename title first last count copied)
     (fst (split_pdf_by_chapters total_pages chapters max_files)) ->
  first <= last <= total_pages /\
  count = last - first + 1 /\
  Z.of_nat (List.length copied) = count /\
  Forall (fun j => Z.of_nat j < total_pages) copied.
Proof.
  unfold split_pdf_by_chapters. intros Hin.
  apply split_loop_event in Hin as (c & following & Hev).
  unfold split_chapter in Hev.
  destruct (resolve_range total_pages c following) as [[s e]|]; [|discriminate].
  simpl in Hev. unfold validate_range in Hev.
  destruct (Z.geb_spec s total_pages) as [|Hs]; [discriminate|].
  set (e' := if e >? total_pages then total_pages else e) in Hev.
  assert (He' : e' <= total_pages)
    by (unfold e'; destruct (Z.gtb_spec e total_pages); lia).
  destruct (Z.geb_spec s e') as [|Hse]; [discriminate|].
  destruct (add_pages total_pages (py_range s e')) as [cp|] eqn:Hadd;
    [|discriminate].
  simpl in Hev. injection Hev as <- <- <- <- <- <-.
  destruct (add_pages_copied total_pages (py_range s e')) with (copied := cp)
    as [Hlen Hall]; [|assumption|].
  { apply py_range_Forall. intros x Hx. lia. }
  repeat split; try lia; [|assumption].
  rewrite Hlen, py_range_length by lia. lia.
Qed.

Lemma saved_ranges_lie_in_document_witness :
  3 <= 10 <= 10 /\ 8 = 10 - 3 + 1 /\
  Z.of_nat (List.length [2; 3; 4; 5; 6; 7; 8; 9]%nat) = 8 /\
  Forall (fun j => Z.of_nat j < 10) [2; 3; 4; 5; 6; 7; 8; 9]%nat.
Proof.
  apply (saved_ranges_lie_in_document 10 sample_beyond None
           "micropython-docs1-1.pdf" "T").
  vm_compute. left. reflexivity.
Defined.

Lemma py_range_app a b c :
  a <= b -> b <= c -> py_range a b ++ py_range b c = py_range a c.
Proof.
  intros Hab Hbc.
  assert (Hn : forall n, py_range a b ++ py_range b (b + Z.of_nat n)
                         = py_range a (b + Z.of_nat n)).
  { induction n as [|n IH].
    - rewrite (py_range_empty b) by lia. rewrite app_nil_r.
      f_equal. lia.
    - replace (b + Z.of_nat (S n)) with (b + Z.of_nat n + 1) by lia.
      rewrite !py_range_snoc by lia. now rewrite app_assoc, IH. }
  specialize (Hn (Z.to_nat (c - b))).
  now replace (b + Z.of_nat (Z.to_nat (c - b))) with c in Hn by lia.
Qed.

Lemma tiles_increasing total_pages chapters :
  forall p ps,
    List.length chapters = S (List.length ps) ->
    StronglySorted Z.lt (p :: ps) ->
    Forall (fun q => 1 <= q <= total_pages) (p :: ps) ->
    flat_map copied_of
      (map (fun cr => saved_event (fst cr) (fst (snd cr)) (snd (snd cr)))
           (combine chapters (increasing_ranges (p :: ps) total_pages)))
    = map Z.to_nat (py_range (p - 1) total_pages).
Proof.
  induction chapters as [|c rest IH]; intros p ps Hlen Hinc Hin;
    [discriminate|].
  pose proof (StronglySorted_inv Hinc) as [Hinc' Hlt].
  pose proof (Forall_inv Hin) as Hp. pose proof (Forall_inv_tail Hin) as Hin'.
  destruct ps as [|q ps].
  - destruct rest; [|discriminate]. simpl. now rewrite app_nil_r.
  - simpl in Hlen.
    change (increasing_ranges (p :: q :: ps) total_pages)
      with ((p, q - 1) :: increasing_ranges (q :: ps) total_pages).
    cbn [combine map flat_map fst snd].
    rewrite (IH q ps) by (try assumption; lia).
    unfold saved_event, copied_of. rewrite <- map_app. f_equal.
    pose proof (Forall_inv Hlt) as Hpq. pose proof (Forall_inv Hin') as Hq.
    simpl in Hpq, Hq. apply py_range_app; lia.
Qed.

(** Entries on strictly increasing pages inside the document: the files
    written, taken in order, hold every page from the first entry's page
    to the last page of the document, each exactly once and in order. *)
Theorem chapters_tile_the_document (total_pages : Z)
        (chapters : list chapter) (p : Z) (ps : list Z) :
  map actual_page chapters = map Some (p :: ps) ->
  StronglySorted Z.lt (p :: ps) ->
  Forall (fun q => 1 <= q <= total_pages) (p :: ps) ->
  flat_map copied_of (fst (split_pdf_by_chapters total_pages chapters None))
  = map Z.to_nat (py_range (p - 1) total_pages).
Proof.
  intros Hps Hinc Hin. unfold split_pdf_by_chapters. simpl limit_chapters.
  rewrite (split_loop_increasing total_pages chapters (p :: ps) Hps Hinc Hin).
  cbn [fst]. apply tiles_increasing; try assumption.
  apply (f_equal (@List.length _)) in Hps.
  rewrite !length_map in Hps. exact Hps.
Qed.

Lemma chapters_tile_the_document_witness :
  flat_map copied_of (fst (split_pdf_by_chapters 20 sample_sorted None))
  = map Z.to_nat (py_range (3 - 1) 20).
Proof.
  apply (chapters_tile_the_document 20 sample_sorted 3 [7; 12]).
  - reflexivity.
  - repeat constructor.
  - repeat constructor; lia.
Defined.

Lemma add_pages_wrap total_pages l :
  Forall (fun x => - total_pages <= x < total_pages) l ->
  add_pages total_pages l = Ok (map (wrap_index total_pages) l).
Proof.
  induction 1 as [|x l Hx _ IH]; simpl; [reflexivity|].
  destruct (Z.ltb_spec x total_pages); [|lia].
  unfold py_index, wrap_index.
  destruct (Z.ltb_spec x 0).
  - destruct (Z.ltb_spec (total_pages + x) 0); [lia|].
    destruct (Z.leb_spec total_pages (total_pages + x)); [lia|].
    simpl. now rewrite IH.
  - destruct (Z.ltb_spec x 0); [lia|].
    destruct (Z.leb_spec total_pages x); [lia|].
    simpl. now rewrite IH.
Qed.

Lemma add_pages_below total_pages x l :
  0 <= total_pages -> x < - total_pages ->
  add_pages total_pages (x :: l) = Raise IndexError.
Proof.
  intros Ht Hx. simpl.
  destruct (Z.ltb_spec x total_pages); [|lia].
  unfold py_index.
  destruct (Z.ltb_spec x 0); [|lia].
  destruct (Z.ltb_spec (total_pages + x) 0); [reflexivity | lia].
Qed.

(** An entry whose actual page is zero or negative is not rejected.  When
    the page is -total_pages or less the splitter stops with [IndexError];
    otherwise it writes a file whose first pages are taken from the end of
    the document, as Python counts a negative index. *)
Theorem nonpositive_page_wraps_or_raises (total_pages : Z) (c : chapter)
        (following : list chapter) (p : Z) (qs : list Z) :
  0 <= total_pages ->
  actual_page c = Some p ->
  map actual_page following = map Some qs ->
  p <= 0 ->
  let e := Z.min (end_of p qs total_pages) total_pages in
  (p <= - total_pages ->
   split_chapter total_pages c following = Raise IndexError)
  /\ (- total_pages < p ->
      split_chapter total_pages c following
      = Ok (Saved (output_filename c) (title c) p e (e - (p - 1))
                  (Z.to_nat (total_pages + p - 1)
                   :: map (wrap_index total_pages) (py_range p e)))).
Proof.
  intros Ht Hc Hq Hp e.
  rewrite (split_chapter_pages total_pages c following p qs Hc Hq).
  destruct (Z.gtb_spec p total_pages); [lia|]. cbv zeta. fold e.
  assert (He : p <= e <= total_pages).
  { unfold e.
    pose proof (end_of_lower_bound p qs total_pages ltac:(lia)). lia. }
  rewrite (py_range_cons (p - 1) e) by lia.
  replace (p - 1 + 1) with p by lia.
  split; intros Hlow.
  - now rewrite add_pages_below by lia.
  - rewrite add_pages_wrap.
    + simpl. unfold wrap_index at 1.
      destruct (Z.ltb_spec (p - 1) 0); [|lia].
      do 4 f_equal. lia.
    + constructor; [lia|]. apply py_range_Forall. intros x Hx. lia.
Qed.

Lemma nonpositive_page_wraps_or_raises_witness :
  split_chapter 10 (entry "0.1" (-2)) [entry "1.1" 4]
  = Ok (Saved "micropython-docs0-1.pdf" "T" (-2) 3 6
              [7; 8; 9; 0; 1; 2]%nat).
Proof.
  apply (proj2 (nonpositive_page_wraps_or_raises 10 (entry "0.1" (-2))
                  [entry "1.1" 4] (-2) [4]
                  ltac:(lia) eq_refl eq_refl ltac:(lia))).
  lia.
Defined.

Lemma split_loop_length total_pages chapters :
  snd (split_loop total_pages chapters) = None ->
  List.length (fst (split_loop total_pages chapters)) = List.length chapters.
Proof.
  induction chapters as [|c following IH]; simpl; [reflexivity|].
  destruct (split_chapter total_pages c following); [|discriminate].
  destruct (split_loop total_pages following) as [evs status].
  simpl in *. intros H. now rewrite IH.
Qed.

Lemma py_prefix_length {A : Type} (l : list A) n :
  0 <= n ->
  Z.of_nat (List.length (py_prefix l n)) = Z.min (Z.of_nat (List.length l)) n.
Proof.
  intros Hn. unfold py_prefix. destruct (Z.ltb_spec n 0); [lia|].
  rewrite length_firstn. lia.
Qed.

(** When the splitter returns, it has printed one line per entry it was
    given, saved or skipped, and the count of "created" files that [main]
    prints is that number of entries (for no limit or a limit that is not
    negative): skipped entries are counted as created. *)
Theorem summary_counts_every_entry (total_pages : Z)
        (chapters : list chapter) (max_files : option Z) :
  let run := split_pdf_by_chapters total_pages chapters max_files in
  snd run = None ->
  match max_files with Some n => 0 <= n | None => True end ->
  List.length (fst run) = List.length (limit_chapters chapters max_files) /\
  report_complete chapters max_files run
  = (fst run ++ [ExtractionComplete (Z.of_nat (List.length (fst run)))],
     None).
Proof.
  intros run Hdone Hlimit. unfold run, split_pdf_by_chapters in *.
  pose proof (split_loop_length total_pages _ Hdone) as Hlen.
  split; [exact Hlen|].
  unfold report_complete. rewrite Hdone, Hlen. do 3 f_equal.
  unfold limit_chapters. destruct max_files as [n|]; [|reflexivity].
  destruct (Z.eqb_spec n 0); [reflexivity|].
  now rewrite py_prefix_length.
Qed.

Lemma summary_counts_every_entry_witness :
  report_complete sample_beyond None
    (split_pdf_by_chapters 10 sample_beyond None)
  = ([Saved "micropython-docs1-1.pdf" "T" 3 10 8
            [2; 3; 4; 5; 6; 7; 8; 9]%nat;
      SkipExceedsTotal "1.2" 12;
      SkipExceedsTotal "2.1" 15;
      ExtractionComplete 3],
     None).
Proof.
  exact (proj2 (summary_counts_every_entry 10 sample_beyond None
                  eq_refl I)).
Defined.

(** The limit: [--max 0] limits nothing, in the splitter and in the
    preview; a positive limit keeps the first entries; a negative limit
    [-k] drops the last [k]. *)
Theorem limit_edge_cases (total_pages : Z) (chapters : list chapter) :
  split_pdf_by_chapters total_pages chapters (Some 0)
  = split_pdf_by_chapters total_pages chapters None
  /\ show_only total_pages chapters (Some 0)
     = show_only total_pages chapters None
  /\ (forall n, 0 < n ->
        limit_chapters chapters (Some n) = firstn (Z.to_nat n) chapters)
  /\ (forall k, 0 < k ->
        limit_chapters chapters (Some (- k))
        = firstn (List.length chapters - Z.to_nat k) chapters).
Proof.
  split; [reflexivity|]. split; [reflexivity|]. split.
  - intros n Hn. unfold limit_chapters, py_prefix.
    destruct (Z.eqb_spec n 0); [lia|].
    destruct (Z.ltb_spec n 0); [lia | reflexivity].
  - intros k Hk. unfold limit_chapters, py_prefix.
    destruct (Z.eqb_spec (- k) 0); [lia|].
    destruct (Z.ltb_spec (- k) 0); [|lia].
    f_equal. lia.
Qed.

Lemma sapp_cancel_r (x y z : string) :
  (x ++ z)%string = (y ++ z)%string -> x = y.
Proof.
  revert y. induction x as [|c x IH]; intros [|d y] H; simpl in H.
  - reflexivity.
  - apply (f_equal String.length) in H. simpl in H.
    rewrite slength_app in H. lia.
  - apply (f_equal String.length) in H. simpl in H.
    rewrite slength_app in H. lia.
  - injection H as -> H. f_equal. now apply IH.
Qed.

Lemma replace_dot_inj a b :
  PyStr.count "-"%char a = 0 -> PyStr.count "-"%char b = 0 ->
  PyStr.replace PyStr.dot "-"%char a = PyStr.replace PyStr.dot "-"%char b ->
  a = b.
Proof.
  assert (Hnn : forall s, 0 <= PyStr.count "-"%char s).
  { induction s as [|c s IH]; simpl; [lia|].
    destruct (Ascii.eqb c "-"); lia. }
  revert b. induction a as [|c a IH]; intros [|d b] Ha Hb H; simpl in H;
    try discriminate; [reflexivity|].
  simpl in Ha, Hb. pose proof (Hnn a). pose proof (Hnn b).
  destruct (Ascii.eqb_spec c "-") as [|Hc]; [lia|].
  destruct (Ascii.eqb_spec d "-") as [|Hd]; [lia|].
  injection H as Hcd H.
  f_equal; [|apply IH; assumption || lia].
  destruct (Ascii.eqb_spec c PyStr.dot) as [->|Hc'],
           (Ascii.eqb_spec d PyStr.dot) as [->|Hd']; congruence.
Qed.

Lemma digits_no_dash s :
  Re.all_chars PyStr.is_digit s = true -> PyStr.count "-"%char s = 0.
Proof.
  induction s as [|c s IH]; [reflexivity|]. simpl. intros H.
  apply andb_prop in H as [Hc Hs]. rewrite (IH Hs).
  destruct (Ascii.eqb_spec c "-") as [->|]; [discriminate Hc | reflexivity].
Qed.

Lemma count_dash_app a b :
  PyStr.count "-"%char (a ++ b)
  = PyStr.count "-"%char a + PyStr.count "-"%char b.
Proof. induction a as [|c a IH]; simpl; [reflexivity|]. rewrite IH. lia. Qed.

(** Two entries with numbers of the extracted shape are written to the
    same file only if they have the same number: distinct sections never
    overwrite each other. *)
Theorem distinct_numbers_distinct_files (c1 c2 : chapter) :
  number_shape (number c1) -> number_shape (number c2) ->
  output_filename c1 = output_filename c2 ->
  number c1 = number c2.
Proof.
  assert (Hdash : forall n, number_shape n -> PyStr.count "-"%char n = 0).
  { intros n (d1 & d2 & -> & H1 & _ & H2 & _).
    rewrite count_dash_app. simpl.
    now rewrite (digits_no_dash d1 H1), (digits_no_dash d2 H2). }
  intros H1 H2 H. unfold output_filename in H. simpl in H.
  injection H as H. apply sapp_cancel_r in H.
  apply replace_dot_inj; auto.
Qed.

Lemma distinct_numbers_distinct_files_witness :
  number (entry "1.1" 3) = number (entry "1.1" 9).
Proof.
  apply distinct_numbers_distinct_files.
  - exists "1", "1". repeat split; discriminate.
  - exists "1", "1". repeat split; discriminate.
  - reflexivity.
Defined.

(** ** More on the preview *)

Lemma show_loop_firstn total_pages all_chapters display :
  forall k,
    fst (show_loop total_pages all_chapters (firstn k display))
    = firstn k (fst (show_loop total_pages all_chapters display)).
Proof.
  induction display as [|c rest IH]; intros [|k]; try reflexivity.
  simpl.
  destruct (show_chapter total_pages all_chapters c); [|reflexivity].
  specialize (IH k).
  destruct (show_loop total_pages all_chapters (firstn k rest)).
  destruct (show_loop total_pages all_chapters rest).
  simpl in *. now rewrite IH.
Qed.

(** The preview resolves its ranges on all the entries: with a limit [n]
    it prints the first [n] lines of the preview without limit,
    unchanged. *)
Theorem preview_limit_is_prefix (total_pages : Z) (chapters : list chapter)
        (n : Z) :
  0 < n ->
  fst (show_only total_pages chapters (Some n))
  = firstn (Z.to_nat n) (fst (show_only total_pages chapters None)).
Proof.
  intros Hn. unfold show_only, limit_chapters, py_prefix.
  destruct (Z.eqb_spec n 0); [lia|].
  destruct (Z.ltb_spec n 0); [lia|].
  apply show_loop_firstn.
Qed.

Lemma preview_limit_is_prefix_witness :
  fst (show_only 20 sample_sorted (Some 2))
  = firstn 2 (fst (show_only 20 sample_sorted None)).
Proof.
  apply (preview_limit_is_prefix 20 sample_sorted 2). lia.
Defined.

Lemma show_loop_length total_pages all_chapters display :
  snd (show_loop total_pages all_chapters display) = None ->
  List.length (fst (show_loop total_pages all_chapters display))
  = List.length display.
Proof.
  induction display as [|c rest IH]; simpl; [reflexivity|].
  destruct (show_chapter total_pages all_chapters c); [|discriminate].
  destruct (show_loop total_pages all_chapters rest) as [evs status].
  simpl in *. intros H. now rewrite IH.
Qed.

(** ** Page numbers that can be printed *)

Lemma digit_limit_split :
  10 ^ int_max_str_digits = 10 * 10 ^ (int_max_str_digits - 1) /\
  10 <= 10 ^ (int_max_str_digits - 1).
Proof.
  unfold int_max_str_digits. change (4300 - 1) with 4299. split.
  - change 4300 with (Z.succ 4299). apply Z.pow_succ_r. lia.
  - change 10 with (10 ^ 1) at 1. apply Z.pow_le_mono_r; lia.
Qed.

Lemma numbers_within_mono M M' evs :
  M <= M' -> numbers_within M evs -> numbers_within M' evs.
Proof.
  intros Hle H. unfold numbers_within in *.
  eapply Forall_impl; [|exact H]. cbv beta. intros ev Hev.
  eapply Forall_impl; [|exact Hev]. cbv beta. intros n Hn. lia.
Qed.

Lemma numbers_within_app M evs evs' :
  numbers_within M evs -> numbers_within M evs' ->
  numbers_within M (evs ++ evs').
Proof. intros H H'. apply Forall_app. now split. Qed.

(** Twice a number of at most 4299 digits, and a little more, has at most
    4300 digits. *)
Lemma numbers_within_printable M (r : run) :
  M <= 10 ^ (int_max_str_digits - 1) + 30 ->
  numbers_within (2 * M + 2) (fst r) -> printable_run r.
Proof.
  destruct digit_limit_split as [Hsplit Hten]. intros Hle H.
  unfold printable_run, numbers_within, printable in *. rewrite Hsplit.
  revert Hten Hle.
  generalize (10 ^ (int_max_str_digits - 1)). intros b Hten Hle.
  eapply Forall_impl; [|exact H]. cbv beta. intros ev Hev.
  eapply Forall_impl; [|exact Hev]. cbv beta. intros n Hn. lia.
Qed.

Ltac bounded_numbers :=
  cbn [page_numbers];
  repeat first [apply Forall_nil | apply Forall_cons; [lia|]].

Lemma skipn_Forall {A : Type} (P : A -> Prop) n l :
  Forall P l -> Forall P (skipn n l).
Proof.
  intros H. rewrite <- (firstn_skipn n l) in H.
  now apply Forall_app in H.
Qed.

Lemma end_of_abs M p qs total_pages :
  Forall (fun q => Z.abs q <= M) qs -> Z.abs total_pages <= M ->
  Z.abs (end_of p qs total_pages) <= M + 1.
Proof.
  intros Hqs HT. induction Hqs as [|q qs Hq _ IH]; simpl; [lia|].
  destruct (q >? p); lia.
Qed.

Lemma list_index_nth c l :
  forall i, list_index c l = Ok i -> nth_error l i = Some c.
Proof.
  induction l as [|y l IH]; intros i H; simpl in H; [discriminate|].
  destruct (chapter_eq_dec y c) as [->|Hne].
  - now injection H as <-.
  - destruct (list_index c l) as [j|]; [|discriminate].
    simpl in H. injection H as <-. simpl. now apply IH.
Qed.

Lemma show_chapter_numbers M total_pages all_chapters ps c ev :
  map actual_page all_chapters = map Some ps ->
  Forall (fun p => Z.abs p <= M) ps ->
  Z.abs total_pages <= M ->
  show_chapter total_pages all_chapters c = Ok ev ->
  Forall (fun n => Z.abs n <= 2 * M + 2) (page_numbers ev).
Proof.
  intros Hps Hall HT Hev. unfold show_chapter, get_actual in Hev.
  destruct (actual_page c) as [p|] eqn:Hp; [|discriminate].
  unfold bind in Hev.
  destruct (list_index c all_chapters) as [i|] eqn:Hi; [|discriminate].
  pose proof (list_index_nth c all_chapters i Hi) as Hnth.
  destruct (pages_nth all_chapters ps i c Hps Hnth) as (p' & Hp' & Hcp').
  assert (p' = p) by congruence. subst p'.
  rewrite (find_end_page_pages p (skipn (S i) all_chapters)
             (skipn (S i) ps) total_pages) in Hev by now apply pages_skipn.
  assert (Hp_abs : Z.abs p <= M).
  { rewrite Forall_forall in Hall. apply Hall.
    eapply nth_error_In. exact Hp'. }
  pose proof (end_of_abs M p (skipn (S i) ps) total_pages
                (skipn_Forall _ _ _ Hall) HT) as He.
  set (e := end_of p (skipn (S i) ps) total_pages) in *.
  injection Hev as <-.
  bounded_numbers.
Qed.

Lemma show_loop_numbers M total_pages all_chapters ps display :
  map actual_page all_chapters = map Some ps ->
  Forall (fun p => Z.abs p <= M) ps ->
  Z.abs total_pages <= M ->
  numbers_within (2 * M + 2)
    (fst (show_loop total_pages all_chapters display)).
Proof.
  intros Hps Hall HT. unfold numbers_within.
  induction display as [|c rest IH]; simpl; [constructor|].
  destruct (show_chapter total_pages all_chapters c) as [ev|] eqn:Hev;
    [|constructor].
  destruct (show_loop total_pages all_chapters rest) as [evs status].
  simpl in *. constructor; [|exact IH].
  exact (show_chapter_numbers M total_pages all_chapters ps c ev
           Hps Hall HT Hev).
Qed.

Lemma split_chapter_numbers M total_pages c following p qs ev :
  actual_page c = Some p ->
  map actual_page following = map Some qs ->
  Z.abs p <= M -> Forall (fun q => Z.abs q <= M) qs ->
  Z.abs total_pages <= M ->
  split_chapter total_pages c following = Ok ev ->
  Forall (fun n => Z.abs n <= 2 * M + 2) (page_numbers ev).
Proof.
  intros Hc Hq Hp Hqs HT Hev.
  rewrite (split_chapter_pages total_pages c following p qs Hc Hq) in Hev.
  pose proof (end_of_abs M p qs total_pages Hqs HT) as He.
  destruct (p >? total_pages).
  - injection Hev as <-. bounded_numbers.
  - cbv zeta in Hev. unfold bind in Hev.
    destruct (add_pages total_pages _) as [copied|]; [|discriminate].
    injection Hev as <-. bounded_numbers.
Qed.

Lemma split_loop_numbers M total_pages chapters :
  forall ps,
    map actual_page chapters = map Some ps ->
    Forall (fun p => Z.abs p <= M) ps ->
    Z.abs total_pages <= M ->
    numbers_within (2 * M + 2) (fst (split_loop total_pages chapters)).
Proof.
  unfold numbers_within.
  induction chapters as [|c following IH]; intros [|p qs] Hps Hall HT;
    try discriminate; simpl; [constructor|].
  simpl in Hps. injection Hps as Hc Hq.
  destruct (split_chapter total_pages c following) as [ev|] eqn:Hev;
    [|constructor].
  specialize (IH qs Hq (Forall_inv_tail Hall) HT).
  destruct (split_loop total_pages following) as [evs status].
  simpl in *. constructor; [|exact IH].
  exact (split_chapter_numbers M total_pages c following p qs ev Hc Hq
           (Forall_inv Hall) (Forall_inv_tail Hall) HT Hev).
Qed.

Lemma pages_len_nonneg doc : 0 <= pages_len doc.
Proof. unfold pages_len. lia. Qed.

Lemma auto_detect_numbers doc chapters :
  -19 <= fst (auto_detect_page_offset doc chapters) <= 30 /\
  numbers_within (pages_len doc + 30)
    (snd (auto_detect_page_offset doc chapters)).
Proof.
  pose proof (pages_len_nonneg doc) as Hlen. unfold numbers_within.
  destruct chapters as [|c rest]; simpl.
  - split; [lia | constructor].
  - destruct (scan_window _ _ doc _ _) as [[m|] bs] eqn:Hscan.
    + apply scan_window_bounds in Hscan as (i & t & -> & Hi & _ & _ & _).
      destruct (Z.geb_spec bs 30) as [Hge|Hlt]; simpl.
      * split; [lia|]. constructor; [bounded_numbers | constructor].
      * split; [lia|]. repeat constructor.
    + simpl. split; [lia|]. repeat constructor.
Qed.

Lemma locate_chapter_numbers M doc c :
  Z.abs (page c) <= M -> numbers_within M (snd (locate_chapter doc c)).
Proof.
  intros Hc. unfold numbers_within, locate_chapter.
  destruct (scan_window _ _ doc _ _) as [[m|] bs].
  - destruct (bs >=? 100); simpl; repeat constructor. exact Hc.
  - simpl. repeat constructor. exact Hc.
Qed.

Lemma find_chapter_numbers M doc chapters :
  Forall (fun c => Z.abs (page c) <= M) chapters ->
  numbers_within M (snd (find_chapter_actual_pages doc chapters)).
Proof.
  rewrite find_chapter_actual_pages_map. simpl.
  induction 1 as [|c rest Hc _ IH]; simpl; [constructor|].
  apply numbers_within_app; [now apply locate_chapter_numbers | exact IH].
Qed.

Lemma located_bound M doc chapters :
  pages_len doc <= M ->
  Forall (fun c => Z.abs (page c) <= M) chapters ->
  Forall (fun c => forall p, actual_page c = Some p -> Z.abs p <= M)
         (fst (find_chapter_actual_pages doc chapters)).
Proof.
  intros Hlen. rewrite find_chapter_actual_pages_map. simpl.
  induction 1 as [|c rest Hc _ IH]; simpl; constructor; [|exact IH].
  destruct (locate_chapter_page doc c) as (p & -> & Hcases).
  simpl. intros p' Hp'. injection Hp' as <-.
  destruct Hcases as [(i & Hi & ->) | ->]; [|assumption].
  unfold locate_window in Hi. simpl in Hi. lia.
Qed.

Lemma pages_Forall (P : Z -> Prop) chapters :
  forall ps,
    map actual_page chapters = map Some ps ->
    Forall (fun c => forall p, actual_page c = Some p -> P p) chapters ->
    Forall P ps.
Proof.
  induction chapters as [|c rest IH]; intros [|p ps] Hps Hall;
    try discriminate; constructor.
  - simpl in Hps. injection Hps as Hc _.
    exact (Forall_inv Hall p Hc).
  - simpl in Hps. injection Hps as _ Hrest.
    exact (IH ps Hrest (Forall_inv_tail Hall)).
Qed.

Lemma apply_page_offset_bound b page_offset chapters :
  -19 <= page_offset <= 30 ->
  Forall (fun c => 0 <= page c < b) chapters ->
  Forall (fun c => Z.abs (page c) <= b + 30)
         (apply_page_offset page_offset chapters).
Proof.
  intros Hoff H. unfold apply_page_offset.
  destruct (Z.eqb_spec page_offset 0) as [->|_].
  - eapply Forall_impl; [|exact H]. simpl. intros c Hc. lia.
  - apply Forall_map. eapply Forall_impl; [|exact H].
    simpl. intros c Hc. lia.
Qed.

(** The page numbers of a run of [main] on declared pages below [b], in a
    document of fewer than [b] pages. *)
Lemma main_numbers b doc chapters :
  extract_toc_from_pdf_checked doc = Ok chapters ->
  Forall (fun c => page c < b) chapters ->
  pages_len doc < b ->
  forall max_files show,
    numbers_within (2 * (b + 30) + 2) (fst (main doc max_files show)).
Proof.
  intros Hok Hpages Hlen max_files show.
  pose proof (pages_len_nonneg doc) as Hnonneg.
  pose proof Hok as Hex.
  apply extract_checked_value in Hok as [_ ->].
  assert (Hrange : Forall (fun c => 0 <= page c < b)
                          (extract_toc_from_pdf doc)).
  { apply Forall_forall. intros c Hin. split.
    - now apply (extracted_page_nonneg doc).
    - rewrite Forall_forall in Hpages. now apply Hpages. }
  clear Hpages. unfold main. rewrite Hex. clear Hex.
  destruct (extract_toc_from_pdf doc) as [|c0 rest0] eqn:Hch;
    [repeat constructor|].
  rewrite <- Hch in Hrange. clear Hch c0 rest0.
  unfold resolve_chapters.
  destruct (auto_detect_numbers doc (extract_toc_from_pdf doc))
    as [Hoff Hw1].
  destruct (auto_detect_page_offset doc (extract_toc_from_pdf doc))
    as [off w1].
  simpl in Hoff, Hw1.
  pose proof (apply_page_offset_bound b off _ Hoff Hrange) as Hadj.
  pose proof (find_chapter_numbers (b + 30) doc _ Hadj) as Hw2.
  pose proof (located_bound (b + 30) doc _ ltac:(lia) Hadj) as Hloc.
  destruct (located_assigned doc
              (apply_page_offset off (extract_toc_from_pdf doc)))
    as (ps & Hps).
  destruct (find_chapter_actual_pages doc
              (apply_page_offset off (extract_toc_from_pdf doc)))
    as [located w2].
  simpl in Hw2, Hloc, Hps.
  destruct (sort_by_actual_page_total located ps Hps) as (sorted & Hsort).
  rewrite Hsort.
  destruct (sort_by_actual_page_spec located sorted Hsort)
    as (ps' & Hps' & _ & Hperm & _).
  assert (Hsorted : Forall (fun p => Z.abs p <= b + 30) ps').
  { apply (pages_Forall _ sorted); [exact Hps'|].
    eapply Permutation_Forall; [exact Hperm | exact Hloc]. }
  assert (Hws : numbers_within (2 * (b + 30) + 2) (w1 ++ w2)).
  { apply numbers_within_app.
    - apply (numbers_within_mono (pages_len doc + 30)); [lia | exact Hw1].
    - apply (numbers_within_mono (b + 30)); [lia | exact Hw2]. }
  destruct (limit_chapters_firstn sorted max_files) as (n & Hn).
  destruct show; unfold prepend; cbn [fst].
  - apply numbers_within_app; [exact Hws|].
    unfold show_only.
    apply (show_loop_numbers _ _ sorted ps'); [assumption | assumption | lia].
  - apply numbers_within_app; [exact Hws|].
    assert (Hsplit : numbers_within (2 * (b + 30) + 2)
                       (fst (split_pdf_by_chapters (pages_len doc) sorted
                               max_files))).
    { unfold split_pdf_by_chapters. rewrite Hn.
      apply (split_loop_numbers _ _ _ (firstn n ps'));
        [now apply pages_firstn | | lia].
      rewrite <- (firstn_skipn n ps') in Hsorted.
      now apply Forall_app in Hsorted. }
    unfold report_complete.
    destruct (snd (split_pdf_by_chapters (pages_len doc) sorted max_files));
      [exact Hsplit|].
    cbn [fst]. apply numbers_within_app; [exact Hsplit|].
    repeat constructor.
Qed.

Lemma main_show_status doc chapters max_files :
  extract_toc_from_pdf_checked doc = Ok chapters ->
  snd (main doc max_files true) = None.
Proof.
  intros Hok. unfold main. rewrite Hok.
  destruct chapters as [|c0 rest0]; [reflexivity|].
  destruct (resolve_chapters_sorted doc) as (sorted & ps & Hs & Hps).
  destruct (resolve_chapters doc) as [ws r]. simpl in Hs. subst r.
  simpl. unfold show_only.
  destruct (limit_chapters_firstn sorted max_files) as (n & ->).
  apply (show_loop_status _ sorted ps); [assumption|].
  intros c. apply firstn_incl.
Qed.

(** With [--show], [main] never raises [KeyError] or [IndexError], the
    exceptions of the splitter, whatever the document and the limit: it
    ends with the [ValueError] of the extraction or it returns.  It
    returns, and every page number it prints is short enough to be
    printed, when the extraction returns declared pages of at most 4299
    digits for a document of fewer than 10^4299 pages.  On entries that
    all have an actual page of that size the preview prints one line per
    entry within the limit. *)
Theorem preview_raises_no_splitter_error :
  (forall doc max_files,
     snd (main doc max_files true) = None \/
     (main doc max_files true = ([], Some ValueError) /\
      extract_toc_from_pdf_checked doc = Raise ValueError))
  /\ (forall doc chapters max_files,
        extract_toc_from_pdf_checked doc = Ok chapters ->
        Forall (fun c => page c < 10 ^ (int_max_str_digits - 1)) chapters ->
        pages_len doc < 10 ^ (int_max_str_digits - 1) ->
        snd (main doc max_files true) = None /\
        printable_run (main doc max_files true))
  /\ (forall total_pages chapters ps max_files,
        map actual_page chapters = map Some ps ->
        Forall (fun p => Z.abs p < 10 ^ (int_max_str_digits - 1)) ps ->
        Z.abs total_pages < 10 ^ (int_max_str_digits - 1) ->
        snd (show_only total_pages chapters max_files) = None /\
        List.length (fst (show_only total_pages chapters max_files))
        = List.length (limit_chapters chapters max_files) /\
        printable_run (show_only total_pages chapters max_files)).
Proof.
  split; [|split].
  - intros doc max_files.
    destruct (extract_toc_from_pdf_checked doc) as [chapters|e] eqn:Hex.
    + left. exact (main_show_status doc chapters max_files Hex).
    + right. pose proof Hex as Hraise.
      apply extract_checked_raises in Hraise as [_ ->].
      split; [|reflexivity]. unfold main. now rewrite Hex.
  - intros doc chapters max_files Hex Hpages Hlen.
    split; [exact (main_show_status doc chapters max_files Hex)|].
    apply (numbers_within_printable
             (10 ^ (int_max_str_digits - 1) + 30)); [apply Z.le_refl|].
    now apply (main_numbers _ doc chapters).
  - intros total_pages chapters ps max_files Hps Hall HT.
    assert (Hnone : snd (show_only total_pages chapters max_files) = None).
    { unfold show_only.
      destruct (limit_chapters_firstn chapters max_files) as (n & ->).
      apply (show_loop_status _ chapters ps); [assumption|].
      intros c. apply firstn_incl. }
    split; [exact Hnone|]. split.
    + unfold show_only in *. now apply show_loop_length.
    + revert Hall HT.
      pose proof (numbers_within_printable
                    (10 ^ (int_max_str_digits - 1))
                    (show_only total_pages chapters max_files)) as Hprint.
      revert Hprint.
      generalize (10 ^ (int_max_str_digits - 1)). intros b Hprint Hall HT.
      apply Hprint; [lia|].
      unfold show_only.
      apply (show_loop_numbers _ _ chapters ps); [assumption | | lia].
      eapply Forall_impl; [|exact Hall]. simpl. intros p Hp. lia.
Qed.

(** A run of the splitter that returns had an actual page for every
    entry within the limit: an entry without one ends the run with an
    exception. *)
Theorem splitter_needs_every_page (total_pages : Z)
        (chapters : list chapter) (max_files : option Z) :
  snd (split_pdf_by_chapters total_pages chapters max_files) = None ->
  exists ps,
    map actual_page (limit_chapters chapters max_files) = map Some ps.
Proof.
  unfold split_pdf_by_chapters.
  induction (limit_chapters chapters max_files) as [|c following IH];
    simpl; [now exists []|].
  unfold split_chapter at 1, resolve_range, get_actual.
  destruct (actual_page c) as [p|]; simpl; [|discriminate].
  match goal with
  | |- context [match ?x with Ok _ => _ | Raise _ => _ end] =>
      destruct x as [ev|]; [|discriminate]
  end.
  destruct (split_loop total_pages following) as [evs status].
  simpl in *. intros H. destruct (IH H) as (ps & Hps).
  exists (p :: ps). simpl. now rewrite Hps.
Qed.

Lemma splitter_needs_every_page_witness :
  exists ps, map actual_page (limit_chapters sample_sorted (Some 2))
             = map Some ps.
Proof.
  apply (splitter_needs_every_page 20 sample_sorted (Some 2)). reflexivity.
Defined.

Example splitter_stops_at_missing_page :
  split_pdf_by_chapters 20 sample_unlocated None = ([], Some KeyError)
  /\ sort_by_actual_page sample_unlocated = Raise KeyError.
Proof. vm_compute. split; reflexivity. Qed.

(** ** When [main] returns *)




Lemma firstn_Forall {A : Type} (P : A -> Prop) n l :
  Forall P l -> Forall P (firstn n l).
Proof.
  intros H. apply Forall_forall. intros x Hx.
  rewrite Forall_forall in H. apply H. now apply (firstn_incl n).
Qed.




(** * The Markdown converter *)

Section ConverterFacts.

Variables file content : Type.
Variable docling : file -> option content.
Variable markitdown : option (file -> option content).

Let step := convert_one file content docling markitdown.

(** Where a written file comes from. *)
Let came_from (w : file * content * converter) : Prop :=
  match w with
  | (f, md, Docling) => docling f = Some md
  | (f, md, MarkItDown) =>
      docling f = None /\
      exists convert, markitdown = Some convert /\ convert f = Some md
  end.

Lemma convert_one_counts st f :
  let st' := step st f in
  converted st' + failed st' = converted st + failed st + 1 /\
  0 <= fallback_used st' - fallback_used st
    <= converted st' - converted st /\
  failed st <= failed st' /\
  Z.of_nat (List.length (written st')) - Z.of_nat (List.length (written st))
  = converted st' - converted st /\
  (markitdown = None -> fallback_used st' = fallback_used st) /\
  (Forall came_from (written st) -> Forall came_from (written st')).
Proof.
  unfold step, convert_one.
  destruct (docling f) as [md|] eqn:Hd.
  - simpl. rewrite length_app. simpl.
    repeat split; try lia.
    intros H. apply Forall_app. split; [assumption|].
    constructor; [exact Hd | constructor].
  - destruct markitdown as [convert|] eqn:Hm.
    + destruct (convert f) as [md|] eqn:Hc; simpl.
      * rewrite length_app. simpl.
        repeat split; try lia; try discriminate.
        intros H. apply Forall_app. split; [assumption|].
        constructor; [|constructor]. simpl. split; [exact Hd|].
        exists convert. now split.
      * repeat split; try lia; try discriminate. auto.
    + simpl. repeat split; try lia. auto.
Qed.

Lemma convert_fold_counts files :
  forall st,
    let st' := fold_left step files st in
    converted st' + failed st'
    = converted st + failed st + Z.of_nat (List.length files) /\
    0 <= fallback_used st' - fallback_used st
      <= converted st' - converted st /\
    failed st <= failed st' /\
    Z.of_nat (List.length (written st'))
    - Z.of_nat (List.length (written st))
    = converted st' - converted st /\
    (markitdown = None -> fallback_used st' = fallback_used st) /\
    (Forall came_from (written st) -> Forall came_from (written st')).
Proof.
  induction files as [|f files IH]; intros st.
  - simpl. repeat split; try lia; auto.
  - cbn [fold_left]. cbv zeta.
    destruct (convert_one_counts st f) as (H1 & H2 & H3 & H4 & H5 & H6).
    destruct (IH (step st f)) as (I1 & I2 & I3 & I4 & I5 & I6).
    cbv zeta in *.
    replace (Z.of_nat (List.length (f :: files)))
      with (Z.of_nat (List.length files) + 1) by (simpl List.length; lia).
    repeat split; try lia.
    + intros Hm. rewrite (I5 Hm). now apply H5.
    + intros H. apply I6. now apply H6.
Qed.

(** The summary adds up: every file within the limit is counted once, as
    converted or as failed; the fallback count is part of the converted
    count; one file is written per conversion; and without MarkItDown the
    fallback count is 0. *)
Theorem conversion_counts_add_up (pdf_files : list file)
        (max_files : option Z) (st : stats file content) :
  convert_chapters file content docling markitdown pdf_files max_files
  = Some st ->
  converted st + failed st
  = Z.of_nat (List.length (limit_files file pdf_files max_files)) /\
  0 <= fallback_used st <= converted st /\ 0 <= failed st /\
  Z.of_nat (List.length (written st)) = converted st /\
  (markitdown = None -> fallback_used st = 0).
Proof.
  unfold convert_chapters. destruct pdf_files as [|f files]; [discriminate|].
  intros H. injection H as <-.
  destruct (convert_fold_counts (limit_files file (f :: files) max_files)
              (mkStats file content 0 0 0 []))
    as (H1 & H2 & H3 & H4 & H5 & _).
  cbv zeta in *. fold step. simpl in H1, H2, H3, H4, H5.
  repeat split; try lia. intros Hm. now apply H5.
Qed.

(** Docling comes first: a file written by Docling is one Docling
    converted, and a file written by MarkItDown is one on which Docling
    raised and MarkItDown, being installed, succeeded. *)
Theorem written_files_provenance (pdf_files : list file)
        (max_files : option Z) (st : stats file content)
        (f : file) (md : content) (by_whom : converter) :
  convert_chapters file content docling markitdown pdf_files max_files
  = Some st ->
  In (f, md, by_whom) (written st) ->
  match by_whom with
  | Docling => docling f = Some md
  | MarkItDown =>
      docling f = None /\
      exists convert, markitdown = Some convert /\ convert f = Some md
  end.
Proof.
  unfold convert_chapters. destruct pdf_files as [|f0 files]; [discriminate|].
  intros H Hin. injection H as <-.
  destruct (convert_fold_counts (limit_files file (f0 :: files) max_files)
              (mkStats file content 0 0 0 []))
    as (_ & _ & _ & _ & _ & H6).
  cbv zeta in H6. fold step in Hin.
  specialize (H6 (Forall_nil _)). rewrite Forall_forall in H6.
  exact (H6 (f, md, by_whom) Hin).
Qed.

End ConverterFacts.

Lemma conversion_counts_add_up_witness :
  4 + 2 = Z.of_nat 6 /\ 0 <= 1 <= 4 /\ 0 <= 2 /\
  Z.of_nat 4 = 4 /\ (Some sample_markitdown = None -> 1 = 0).
Proof.
  exact (conversion_counts_add_up nat string sample_docling
           (Some sample_markitdown) [0; 2; 3; 4; 7; 9; 10; 11]%nat (Some 6)
           _ eq_refl).
Defined.

Lemma written_files_provenance_witness :
  sample_docling 3 = None /\
  exists convert,
    Some sample_markitdown = Some convert /\ convert 3%nat = Some "markitdown".
Proof.
  apply (written_files_provenance nat string sample_docling
           (Some sample_markitdown) [0; 2; 3; 4; 7; 9; 10; 11]%nat (Some 6)
           _ 3%nat "markitdown" MarkItDown eq_refl).
  vm_compute. right. right. left. reflexivity.
Defined.

(** * The explorer *)

Lemma lstrip_blank s :
  Re.all_chars PyStr.is_space s = true -> PyStr.lstrip s = EmptyString.
Proof.
  induction s as [|c s IH]; [reflexivity|]. simpl. intros H.
  apply andb_prop in H as [Hc Hs]. rewrite Hc. now apply IH.
Qed.

(** A query of white space only: the two RAG functions answer with their
    fixed message and send nothing; the plain search sends the empty
    query, which fetches every document. *)
Theorem blank_query_is_not_sent
        (request : string -> list (string * param) -> bool -> string)
        (query : string) :
  Re.all_chars PyStr.is_space query = true ->
  (forall top_k,
     rag_search_documents request query top_k
     = "Please enter a search query for RAG search.")
  /\ (forall top_k llm_model show_model,
        rag_generate_response request query top_k llm_model show_model
        = "Please enter a question for RAG response generation.")
  /\ (forall search_type,
        search_documents request query search_type
        = request (if String.eqb search_type "fuzzy"
                   then "/search_fuzz" else "/search")
                  [("q", PStr EmptyString)] false).
Proof.
  intros Hblank.
  assert (Hs : PyStr.strip query = EmptyString)
    by (unfold PyStr.strip; now rewrite lstrip_blank).
  unfold rag_search_documents, rag_generate_response, search_documents.
  rewrite Hs. repeat split.
Qed.

Lemma blank_query_is_not_sent_witness :
  rag_search_documents (fun _ _ _ => "sent") "   " 10
  = "Please enter a search query for RAG search.".
Proof.
  apply (proj1 (blank_query_is_not_sent (fun _ _ _ => "sent") "   "
                  eq_refl)).
Defined.

Lemma dict_get_cases d key default :
  (In (key, dict_get d key default) d) \/ dict_get d key default = default.
Proof.
  induction d as [|[k v] d IH]; simpl; [now right|].
  destruct (String.eqb_spec k key) as [->|Hne].
  - left. now left.
  - destruct IH as [IH|IH]; [left; now right | now right].
Qed.

(** The model parameter: it is sent only for a model other than
    "default", its value is the API name of a listed model or the given
    name itself when the model is not listed, and it is never
    "default". *)
Theorem model_parameter_is_never_default (query : string) (top_k : Z)
        (llm_model : string) :
  (llm_model = "default" ->
   response_params query top_k llm_model
   = [("q", PStr query); ("topK", PInt top_k)])
  /\ (forall v,
        In ("llmModel", PStr v) (response_params query top_k llm_model) ->
        llm_model <> "default" /\ v <> "default" /\
        (In (llm_model, v) LLM_MODELS \/ v = llm_model)).
Proof.
  unfold response_params. split.
  - intros ->. reflexivity.
  - intros v Hin.
    destruct (String.eqb_spec llm_model "default") as [|Hne].
    + destruct Hin as [H|[H|[]]]; discriminate.
    + destruct Hin as [H|[H|[H|[]]]]; try discriminate.
      assert (Hv : v = dict_get LLM_MODELS llm_model llm_model)
        by congruence.
      clear H. subst v. split; [assumption|].
      destruct (dict_get_cases LLM_MODELS llm_model llm_model) as [Hin|Heq].
      * split; [|now left].
        revert Hin. generalize (dict_get LLM_MODELS llm_model llm_model).
        intros v Hin. unfold LLM_MODELS in Hin. simpl in Hin.
        repeat (destruct Hin as [Hin|Hin];
                [injection Hin as <- <-; try discriminate; congruence|]).
        destruct Hin.
      * rewrite Heq. split; [assumption | now right].
Qed.
